(** * EasyDeL Mixtral (Flax): routing, load-balancing loss, attention cache

    A shallow embedding of
    [lib/python/EasyDel/modules/mixtral/modelling_mixtral_flax.py].

    Numeric model.  The source computes in float32 / bfloat16.  Arrays are
    modelled as nested lists of exact rationals [Q], and arithmetic is exact.
    Two places where the floating-point formats decide a property are
    parameters of the development: [exp], which a theorem may assume to be
    positive and order-reflecting (as the real exponential is) and which
    underflows to zero in [exp32_underflow]; and the cast [astype] of the
    routing weights to the activations' dtype (line 691), which is the
    rounding [round_bf16] for the default [bfloat16].  The other casts are
    the identity.  A division by zero, which yields NaN or infinity in the
    source, yields [0] in [Q]; every theorem that divides states the side
    condition that keeps the divisor away from zero.

    Python exceptions are values of [PyError]; a function that can raise
    returns a [result]. *)

From Stdlib Require Import String.
From Stdlib Require Import List ZArith QArith Qabs Qround Lia Lqa Bool Arith.
From Stdlib Require Import Permutation Morphisms Setoid.
Import ListNotations.

Set Implicit Arguments.

(* ================================================================= *)
(** * Part I.  Definitions                                             *)
(* ================================================================= *)

(** ** Exceptions *)

Inductive PyError : Type :=
| AttributeError (name : string)
| ValueError
| TypeError
| AssertionError
| ZeroDivisionError
| KeyError (name : string).

Definition result (A : Type) : Type := (PyError + A)%type.

Definition ret {A} (a : A) : result A := inr a.
Definition raise {A} (e : PyError) : result A := inl e.
Definition bind {A B} (m : result A) (f : A -> result B) : result B :=
  match m with
  | inl e => inl e
  | inr a => f a
  end.

Declare Scope py_scope.
Delimit Scope py_scope with py.
Notation "x <- m ;; k" := (bind m (fun x => k))
  (at level 61, m at next level, right associativity) : py_scope.
Notation "' p <- m ;; k" := (bind m (fun x => match x with p => k end))
  (at level 61, p pattern, m at next level, right associativity) : py_scope.
Open Scope py_scope.

Fixpoint mapM {A B} (f : A -> result B) (l : list A) : result (list B) :=
  match l with
  | [] => ret []
  | a :: l' => b <- f a ;; bs <- mapM f l' ;; ret (b :: bs)
  end.

(** ** Arrays *)

Definition vec := list Q.
Definition mat := list (list Q).

Definition nq (n : nat) : Q := inject_Z (Z.of_nat n).

Definition Qsum (l : list Q) : Q := fold_right Qplus 0%Q l.

Fixpoint map2 {A B C} (f : A -> B -> C) (xs : list A) (ys : list B) : list C :=
  match xs, ys with
  | x :: xs', y :: ys' => f x y :: map2 f xs' ys'
  | _, _ => []
  end.

(** [jnp.mean] over one axis of a vector. *)
Definition jnp_mean (l : list Q) : Q := (Qsum l / nq (length l))%Q.

(** Column [e] of a list of rows. *)
Definition column (e : nat) (rows : mat) : list Q :=
  map (fun r => nth e r 0%Q) rows.

(** [jnp.mean(a, axis=-2)] for [a] of shape [(n, width)]. *)
Definition mean_axis_m2 (width : nat) (rows : mat) : list Q :=
  map (fun e => jnp_mean (column e rows)) (seq 0 width).

Definition Qmax2 (a b : Q) : Q := if Qle_bool a b then b else a.

Definition Qmax_list (l : list Q) : Q :=
  match l with
  | [] => 0%Q
  | x :: xs => fold_left Qmax2 xs x
  end.

(** [jnp.max(a, axis=-2)] for [a] of shape [(n, width)]. *)
Definition max_axis_m2 (width : nat) (rows : mat) : list Q :=
  map (fun e => Qmax_list (column e rows)) (seq 0 width).

(** [jnp.mean] of a whole 2-D array: the sum of all entries over their number. *)
Definition mean_all (m : mat) : Q := jnp_mean (concat m).

(** [jax.nn.one_hot(i, num_classes)]: an index outside [0, num_classes)
    gives the zero row. *)
Definition one_hot (num_classes : nat) (i : nat) : list Q :=
  map (fun e => if Nat.eqb e i then 1%Q else 0%Q) (seq 0 num_classes).

(** ** [jax.lax.top_k]

    The [k] largest entries of the last axis in descending order, with their
    indices; among equal entries the lower index comes first.  It is modelled
    by a stable insertion sort of the (value, index) pairs. *)

Fixpoint insert_desc (x : Q * nat) (l : list (Q * nat)) : list (Q * nat) :=
  match l with
  | [] => [x]
  | y :: l' =>
      if Qle_bool (fst y) (fst x) then x :: y :: l' else y :: insert_desc x l'
  end.

Definition sort_desc (l : list (Q * nat)) : list (Q * nat) :=
  fold_right insert_desc [] l.

Definition enumerate (operand : list Q) : list (Q * nat) :=
  combine operand (seq 0 (length operand)).

Definition lax_top_k (operand : list Q) (k : nat) : result (list Q * list nat) :=
  if (k <=? length operand)%nat then
    let best := firstn k (sort_desc (enumerate operand)) in
    ret (map fst best, map snd best)
  else raise ValueError.

(** [jax.lax.top_k] on a 2-D array works on every row. *)
Definition top_k_rows (a : mat) (k : nat) : result (mat * list (list nat)) :=
  rows <- mapM (fun r => lax_top_k r k) a ;;
  ret (map fst rows, map snd rows).

(** The argument of [jax_load_balancing_loss_func]: [None], one array, or a
    tuple of per-layer arrays. *)
Inductive GateLogits : Type :=
| GateNone
| GateArray (a : mat)
| GateTuple (layers : list mat).

Section Numerics.

Variable exp : Q -> Q.

(** [jax.nn.softmax(x, axis=-1)] on one row.  The source subtracts the
    row maximum before it exponentiates; with the real exponential this
    leaves every quotient unchanged, and the embedding does not shift.  (On
    the rows of the underflow example below the maximum is 0, so the shift
    changes nothing there either.) *)
Definition softmax (x : list Q) : list Q :=
  let unnormalized := map exp x in
  map (fun u => (u / Qsum unnormalized)%Q) unnormalized.

(** ** [jax_load_balancing_loss_func] *)

(** Lines 288-289: top-k of the raw logits, then softmax over the k values. *)
Definition loss_top_k (gate_logits : mat) (top_k : nat)
  : result (mat * list (list nat)) :=
  '(routing_weights, selected_experts) <- top_k_rows gate_logits top_k ;;
  ret (map softmax routing_weights, selected_experts).

Definition jax_load_balancing_loss_func
    (gate_logits : GateLogits) (num_experts : nat) (top_k : nat) : result Q :=
  match gate_logits with
  | GateNone => ret 0%Q
  | GateArray _ | GateTuple _ =>
      let gate_logits :=
        match gate_logits with
        | GateTuple layers => concat layers      (* jnp.concatenate(axis=0) *)
        | GateArray a => a
        | GateNone => []
        end in
      '(routing_weights, selected_experts) <- loss_top_k gate_logits top_k ;;
      (* selected_experts[:, :, jnp.newaxis] *)
      let selected_experts := map (map (fun i => [i])) selected_experts in
      let expert_mask :=
        map (map (fun s => max_axis_m2 num_experts (map (one_hot num_experts) s)))
            selected_experts in
      let tokens_per_group_and_expert :=
        map (mean_axis_m2 num_experts) expert_mask in
      let router_prob_per_group_and_expert := map jnp_mean routing_weights in
      ret (mean_all
             (map2 (fun row p => map (fun x => (x * p)%Q) row)
                   tokens_per_group_and_expert
                   router_prob_per_group_and_expert)
           * nq (num_experts ^ 2))%Q
  end.

(** ** Routing of [FlaxMixtralSparseMoeBlock.__call__] (lines 688-690):
    softmax over all experts, top-k, renormalisation. *)
Definition renormalize (w : list Q) : list Q :=
  map (fun x => (x / Qsum w)%Q) w.

Definition route_top_k (router_logits : mat) (k : nat)
  : result (mat * list (list nat)) :=
  let routing_weights := map softmax router_logits in
  '(routing_weights, selected_experts) <- top_k_rows routing_weights k ;;
  ret (map renormalize routing_weights, selected_experts).

End Numerics.

(** A rational stand-in for the exponential, used to run the definitions:
    positive and strictly increasing. *)
Definition rexp (x : Q) : Q :=
  if Qle_bool 0 x then (1 + x)%Q else (1 / (1 - x))%Q.


(** ** The cast to [bfloat16]

    [x.astype(jnp.bfloat16)]: round to nearest, ties to even, to a
    significand of 8 bits (one implicit, seven stored).  The exponent range
    is not bounded here; the values that are cast below lie in [(0, 1]]. *)

(** [2^e] for an integer [e]. *)
Definition pow2 (e : Z) : Q :=
  if (0 <=? e)%Z then inject_Z (2 ^ e) else (1 / inject_Z (2 ^ (- e)))%Q.

(** The binade of a positive rational: the [e] with [2^e <= x < 2^(e+1)]. *)
Definition binade (x : Q) : Z :=
  let e := (Z.log2 (Qnum x) - Z.log2 (Z.pos (Qden x)))%Z in
  if Qle_bool (pow2 e) x then e else (e - 1)%Z.

Definition round_half_even (y : Q) : Z :=
  let f := Qfloor y in
  match Qcompare (y - inject_Z f) (1 # 2) with
  | Lt => f
  | Gt => (f + 1)%Z
  | Eq => if Z.even f then f else (f + 1)%Z
  end.

Definition round_bf16_pos (x : Q) : Q :=
  let ulp := pow2 (binade x - 7) in
  (inject_Z (round_half_even (x / ulp)) * ulp)%Q.

Definition round_bf16 (x : Q) : Q :=
  match Qcompare x 0 with
  | Eq => 0%Q
  | Gt => round_bf16_pos x
  | Lt => (- round_bf16_pos (- x))%Q
  end.

(** ** Expert feed-forward unit and the expert collection *)

(** [nn.Dense(features, use_bias=False)]: [x @ kernel], [kernel] of shape
    [(in, features)]. *)
Definition Dense (features : nat) (kernel : mat) (x : mat) : mat :=
  map (fun row =>
         map (fun j => Qsum (map2 (fun a wrow => (a * nth j wrow 0)%Q) row kernel))
             (seq 0 features))
      x.

Record ExpertParams : Type := {
  w1 : mat;
  w3 : mat;
  w2 : mat
}.

Definition vadd (a b : list Q) : list Q := map2 Qplus a b.
Definition vmul (a b : list Q) : list Q := map2 Qmult a b.
Definition vscale (c : Q) (a : list Q) : list Q := map (Qmult c) a.

(** Python indexing of an axis of length [n]: a negative index counts from
    the end; JAX clamps a gather index that is still out of range. *)
Definition py_index (n : nat) (i : Z) : nat :=
  let j := if (i <? 0)%Z then (i + Z.of_nat n)%Z else i in
  Z.to_nat (Z.max 0 (Z.min j (Z.of_nat n - 1))).

Definition take {A} (d : A) (a : list A) (i : Z) : A :=
  nth (py_index (length a) i) a d.

(** [a.at[i].set(v)]: a NEW array; [a] itself is immutable.  An update that
    is out of range is dropped. *)
Definition at_set {A} (a : list A) (i : Z) (v : A) : list A :=
  let j := if (i <? 0)%Z then (i + Z.of_nat (length a))%Z else i in
  if ((0 <=? j)%Z && (j <? Z.of_nat (length a))%Z)%bool
  then firstn (Z.to_nat j) a ++ v :: skipn (S (Z.to_nat j)) a
  else a.

(** [jnp.nonzero(mask, size=size)] of a 2-D mask: the (row, column) indices
    of the non-zero entries in row-major order, padded with zeros or cut to
    [size] entries. *)
Definition jnp_nonzero (mask : mat) (size : nat) : list nat * list nat :=
  let hits :=
    concat
      (map (fun '(j, row) =>
              map (fun t => (j, t))
                  (filter (fun t => negb (Qeq_bool (nth t row 0%Q) 0))
                          (seq 0 (length row))))
           (combine (seq 0 (length mask)) mask)) in
  let padded := firstn size (hits ++ repeat (0, 0)%nat size) in
  (map fst padded, map snd padded).

(** [a.transpose(2, 1, 0)] of an array of shape [(d0, d1, d2)]. *)
Definition transpose_210 (d0 d1 d2 : nat) (a : list mat) : list mat :=
  map (fun e =>
         map (fun j => map (fun t => nth e (nth j (nth t a []) []) 0%Q) (seq 0 d0))
             (seq 0 d1))
      (seq 0 d2).

(** [x.reshape(rows, -1)] read backwards: cut a list into [count] chunks of
    [n] entries. *)
Fixpoint chunks {A} (n : nat) (count : nat) (l : list A) : list (list A) :=
  match count with
  | O => []
  | S c => firstn n l :: chunks n c (skipn n l)
  end.

Definition jnp_zeros2 (rows cols : nat) : mat := repeat (repeat 0%Q cols) rows.

(** The inner function of [FlaxMixtralBlocKSparesTop2MLPCollection.__call__]
    (lines 618-627).  Each turn of the loop builds the updated array with
    [.at[...].set(...)] and does not bind it; the function returns its first
    argument. *)
Definition custom_index_add_without_index_add
    (final_hidden_states_ : mat) (top_x_ : list Z) (idx_ : list nat)
    (current_hidden_states_ : mat) : mat :=
  fold_left
    (fun (final : mat) (i : nat) =>
       let updated :=
         at_set final_hidden_states_ (nth i top_x_ 0%Z)
                (vadd (take [] final_hidden_states_ (nth i top_x_ 0%Z))
                      (nth i current_hidden_states_ [])) in
       final)
    (seq 0 (length top_x_))
    final_hidden_states_.

(** [a[rows, cols]] for a 2-D array and two index arrays of the same
    length: entry [i] is [a[rows[i], cols[i]]].  Gathering along an axis of
    size 0 is rejected. *)
Definition gather2 (a : mat) (rows : list Z) (cols : list nat)
  : result (list Q) :=
  if ((Nat.eqb (length a) 0 || Nat.eqb (length (hd [] a)) 0)
      && negb (Nat.eqb (length rows) 0))%bool
  then raise TypeError
  else ret (map2 (fun t j => nth j (take [] a t) 0%Q) rows cols).

Section Experts.

Variable exp : Q -> Q.
(** [x.astype(hidden_states.dtype)], applied elementwise (line 691). *)
Variable astype : Q -> Q.
(** [ACT2FN[config.hidden_act]], applied elementwise. *)
Variable act_fn : Q -> Q.
Variable intermediate_size : nat.
Variable hidden_size : nat.

(** [FlaxMixtralBLockSparseTop2MLP.__call__]:
    [w2(act_fn(w1(x)) * w3(x))]. *)
Definition FlaxMixtralBLockSparseTop2MLP (p : ExpertParams) (x : mat) : mat :=
  Dense hidden_size (w2 p)
        (map2 vmul
              (map (map act_fn) (Dense intermediate_size (w1 p) x))
              (Dense intermediate_size (w3 p) x)).

(** [FlaxMixtralBlocKSparesTop2MLPCollection.__call__] (lines 605-648).
    [expert_mask] has shape [(experts, k, tokens)], [hidden_states] shape
    [(tokens, hidden_dim)], [routing_weights] shape [(tokens, k)]. *)
Definition FlaxMixtralBlocKSparesTop2MLPCollection
    (layers : list ExpertParams)
    (expert_mask : list mat) (hidden_states : mat) (routing_weights : mat)
    (batch_size sequence_length hidden_dim : nat) : result (list mat) :=
  let final_hidden_states := jnp_zeros2 (batch_size * sequence_length) hidden_dim in
  final_hidden_states <-
    fold_left
      (fun acc '(expert_idx, expert_layer) =>
         final_hidden_states <- acc ;;
         let selected_mask := nth expert_idx expert_mask [] in
         (* selected_mask.shape[-1] is the number of tokens *)
         let '(idx, top_x) := jnp_nonzero selected_mask (length hidden_states) in
         let top_x :=
           map (fun t => if Nat.eqb t 0 then (-1)%Z else Z.of_nat t) top_x in
         if Nat.eqb (length top_x) 0 then ret final_hidden_states
         else
           let current_state := map (take [] hidden_states) top_x in
           (* routing_weights[top_x, idx, None] *)
           weights <- gather2 routing_weights top_x idx ;;
           let current_hidden_states :=
             map2 (fun row w => map (fun x => (x * w)%Q) row)
                  (FlaxMixtralBLockSparseTop2MLP expert_layer current_state)
                  weights in
           ret (custom_index_add_without_index_add
                  final_hidden_states top_x idx current_hidden_states))
      (combine (seq 0 (length layers)) layers)
      (ret final_hidden_states) ;;
  ret (chunks sequence_length batch_size final_hidden_states).

(** Lines 688-691: the routing decision that is handed to the experts, the
    renormalised weights cast to the dtype of the hidden states. *)
Definition routing_decision (router_logits : mat) (k : nat)
  : result (mat * list (list nat)) :=
  '(routing_weights, selected_experts) <- route_top_k exp router_logits k ;;
  ret (map (map astype) routing_weights, selected_experts).

(** [FlaxMixtralSparseMoeBlock.__call__] (lines 684-700) for [hidden_states]
    of shape [(batch_size, sequence_length, hidden_dim)]. *)
Definition FlaxMixtralSparseMoeBlock
    (num_local_experts num_experts_per_tok : nat)
    (gate : mat) (experts : list ExpertParams)
    (batch_size sequence_length hidden_dim : nat)
    (hidden_states : list mat) : result (list mat * mat) :=
  let hidden_states := concat hidden_states in          (* reshape(-1, hidden_dim) *)
  let router_logits := Dense num_local_experts gate hidden_states in
  '(routing_weights, selected_experts) <-
     routing_decision router_logits num_experts_per_tok ;;
  let expert_mask :=
    transpose_210 (length hidden_states) num_experts_per_tok num_local_experts
                  (map (map (one_hot num_local_experts)) selected_experts) in
  final_hidden_states <-
    FlaxMixtralBlocKSparesTop2MLPCollection
      experts expert_mask hidden_states routing_weights
      batch_size sequence_length hidden_dim ;;
  ret (final_hidden_states, router_logits).

End Experts.

(** The output the routing block is documented to produce ("strictly
    equivalent to standard MoE with full capacity"), written from the
    specification's words: at every token, the sum over its selected experts
    of the renormalised routing weight times the expert's output on that
    token.  It is compared with [FlaxMixtralSparseMoeBlock] below. *)
Definition full_capacity_moe_output
    (exp act_fn : Q -> Q) (intermediate_size hidden_size : nat)
    (num_local_experts num_experts_per_tok : nat)
    (gate : mat) (experts : list ExpertParams)
    (batch_size sequence_length hidden_dim : nat)
    (hidden_states : list mat) : result (list mat) :=
  let tokens := concat hidden_states in
  let router_logits := Dense num_local_experts gate tokens in
  '(routing_weights, selected_experts) <-
     route_top_k exp router_logits num_experts_per_tok ;;
  let expert_out (e : nat) (h : list Q) : list Q :=
    nth 0 (FlaxMixtralBLockSparseTop2MLP act_fn intermediate_size hidden_size
             (nth e experts {| w1 := []; w3 := []; w2 := [] |}) [h]) [] in
  let token_out (h : list Q) (ws : list Q) (sel : list nat) : list Q :=
    fold_right vadd (repeat 0%Q hidden_dim)
               (map2 (fun w e => vscale w (expert_out e h)) ws sel) in
  ret (chunks sequence_length batch_size
         (map2 (fun h '(ws, sel) => token_out h ws sel)
               tokens (combine routing_weights selected_experts))).

(** ** Attention cache (lines 372-392) *)

(** Arrays of rank 4: [(batch, sequence, heads, head_dim)]. *)
Definition tensor4 := list (list mat).
Definition mask4 := list (list (list (list bool))).

Definition zeros_like4 (t : tensor4) : tensor4 :=
  map (map (map (map (fun _ : Q => 0%Q)))) t.

Definition jnp_zeros4 (d0 d1 d2 d3 : nat) : tensor4 :=
  repeat (repeat (repeat (repeat 0%Q d3) d2) d1) d0.

(** The shape of a rank-4 array, read along its first entries. *)
Definition shape4 (t : tensor4) : list nat :=
  [ length t;
    length (hd [] t);
    length (hd [] (hd [] t));
    length (hd [] (hd [] (hd [] t))) ].

(** The cache index is a [jnp.int32]. *)
Definition int32_wrap (z : Z) : Z := ((z + 2 ^ 31) mod 2 ^ 32 - 2 ^ 31)%Z.

Definition clamp (lo hi x : Z) : Z := Z.max lo (Z.min hi x).

Fixpoint mapM2 {A B C} (f : A -> B -> result C) (xs : list A) (ys : list B)
  : result (list C) :=
  match xs, ys with
  | x :: xs', y :: ys' =>
      c <- f x y ;; cs <- mapM2 f xs' ys' ;; ret (c :: cs)
  | _, _ => ret []
  end.

(** One axis of [jax.lax.dynamic_update_slice(operand, update, start)].  The
    update must fit in the operand, else the call is rejected; a negative
    start counts from the end; the start is then clamped into
    [0, len operand - len update], so the update is always written whole.
    [inner] updates the entries along the remaining axes. *)
Definition dynamic_update_axis {A} (inner : A -> A -> result A)
    (operand update : list A) (start : Z) : result (list A) :=
  if (length update <=? length operand)%nat then
    let d := Z.of_nat (length operand) in
    let start := if (start <? 0)%Z then (start + d)%Z else start in
    let s := Z.to_nat (clamp 0 (d - Z.of_nat (length update)) start) in
    mid <- mapM2 inner (firstn (length update) (skipn s operand)) update ;;
    ret (firstn s operand ++ mid ++ skipn (s + length update) operand)
  else raise TypeError.

(** [jax.lax.dynamic_update_slice(operand, update, (0, index, 0, 0))] on
    rank-4 arrays. *)
Definition dynamic_update_slice (operand update : tensor4) (index : Z)
  : result tensor4 :=
  dynamic_update_axis
    (fun o u =>
       dynamic_update_axis
         (fun o u =>
            dynamic_update_axis
              (fun o u => dynamic_update_axis (fun _ x => ret x) o u 0%Z)
              o u 0%Z)
         o u index)
    operand update 0%Z.

(** Elementwise combination with NumPy broadcasting along one axis; shapes
    that do not broadcast are rejected with [TypeError]. *)
Definition broadcast2 {A B C} (f : A -> B -> result C)
    (xs : list A) (ys : list B) : result (list C) :=
  if Nat.eqb (length xs) (length ys) then mapM2 f xs ys
  else
    match xs, ys with
    | [x], _ => mapM (f x) ys
    | _, [y] => mapM (fun x => f x y) xs
    | _, _ => raise TypeError
    end.

(** [nn.combine_masks(a, b)] for two masks of rank 4: their logical and. *)
Definition combine_masks (a b : mask4) : result mask4 :=
  broadcast2 (broadcast2 (broadcast2 (broadcast2 (fun x y => ret (x && y)))))
             a b.

(** The attention mask as a caller passes it: of rank 2, shape
    [(batch, length)], which is what [MixtralPreTrainedModel.__call__] and
    [prepare_inputs_for_generation] pass, or of rank 4, shape
    [(batch, 1, query_length, key_length)]. *)
Inductive Mask : Type :=
| Mask2 (m : list (list bool))
| Mask4 (m : mask4).

Record Cache : Type := {
  key_cache : tensor4;
  value_cache : tensor4;
  index_cache : Z
}.

(** [FlaxMixtralAttention.concatenate_to_cache_].  The ['cache'] collection
    is passed in ([None] when it does not exist yet) and returned.
    [nn.combine_masks] asserts that its arguments have the same rank:
    [pad_mask] has rank 4, so a mask of rank 2 is rejected with
    [AssertionError], after the two storages have been updated. *)
Definition concatenate_to_cache_
    (cache : option Cache) (query key value : tensor4) (attention_mask : Mask)
  : result ((tensor4 * tensor4 * tensor4 * Mask) * Cache) :=
  let is_cache_available := match cache with Some _ => true | None => false end in
  let vars :=
    match cache with
    | Some c => c
    | None => {| key_cache := zeros_like4 key;
                 value_cache := zeros_like4 key;
                 index_cache := 0%Z |}
    end in
  if is_cache_available then
    let bd := length (key_cache vars) in
    let ml := length (hd [] (key_cache vars)) in
    key <- dynamic_update_slice (key_cache vars) key (index_cache vars) ;;
    value <- dynamic_update_slice (value_cache vars) value (index_cache vars) ;;
    let num_updated_cache_vector := length (hd [] query) in
    let index := int32_wrap (index_cache vars + Z.of_nat num_updated_cache_vector) in
    let pad_mask : mask4 :=
      repeat [ repeat (map (fun j => (Z.of_nat j <? index)%Z) (seq 0 ml))
                      num_updated_cache_vector ]
             bd in
    attention_mask <-
      match attention_mask with
      | Mask4 m => combine_masks pad_mask m
      | Mask2 _ => raise AssertionError
      end ;;
    ret ((query, key, value, Mask4 attention_mask),
         {| key_cache := key; value_cache := value; index_cache := index |})
  else ret ((query, key, value, attention_mask), vars).

(** The mask of a cached call after [concatenate_to_cache_] (lines 457-473),
    where the mask has rank 4 and line 470 leaves it as it is.
    [nn.make_causal_mask] gives the lower-triangular mask of side [c_max]
    (entry [(i, j)] is valid when [j <= i]); [jax.lax.dynamic_slice] takes
    [q_l] of its rows from the cache index on and its first [dl] columns. *)
Definition causal_row (dl : nat) (i : nat) : list bool :=
  map (fun j => (j <=? i)%nat) (seq 0 dl).

Definition causal_mask_slice (c_max : nat) (mask_shift : Z) (q_l dl : nat)
  : result mask4 :=
  if ((q_l <=? c_max)%nat && (dl <=? c_max)%nat)%bool then
    let d := Z.of_nat c_max in
    let start := if (mask_shift <? 0)%Z then (mask_shift + d)%Z else mask_shift in
    let start := Z.to_nat (clamp 0 (d - Z.of_nat q_l) start) in
    ret [[ map (causal_row dl) (seq start q_l) ]]
  else raise TypeError.

Definition cached_attention_mask (c_max : nat) (cache : Cache)
    (query : tensor4) (attention_mask : mask4) : result mask4 :=
  let batch_size := length query in
  let q_l := length (hd [] query) in
  let dl := length (hd [] (key_cache cache)) in
  causal_mask <- causal_mask_slice c_max (index_cache cache) q_l dl ;;
  let causal_mask := repeat (hd [] causal_mask) batch_size in
  combine_masks attention_mask causal_mask.

(** The number of valid positions of a mask. *)
Definition count_valid (m : mask4) : nat :=
  length (filter (fun b : bool => b) (concat (concat (concat m)))).

(** ** Configuration and construction *)

(** The hyper-parameters that [MixtralConfig.__init__] stores and the model
    reads.  Python integers are unbounded: [Z]. *)
Record MixtralConfig : Type := {
  vocab_size : Z;
  hidden_size : Z;
  intermediate_size : Z;
  num_hidden_layers : Z;
  num_attention_heads : Z;
  num_key_value_heads : Z;
  num_experts_per_tok : Z;
  num_local_experts : Z;
  output_router_logits_default : bool;
  c_max_position_embeddings : Z
}.

(** The keyword arguments of [MixtralConfig.__init__];
    [num_key_value_heads] may be [None]. *)
Record MixtralConfigArgs : Type := {
  arg_vocab_size : Z;
  arg_hidden_size : Z;
  arg_intermediate_size : Z;
  arg_num_hidden_layers : Z;
  arg_num_attention_heads : Z;
  arg_num_key_value_heads : option Z;
  arg_num_experts_per_tok : Z;
  arg_num_local_experts : Z;
  arg_output_router_logits : bool;
  arg_c_max_position_embeddings : Z
}.

(** The defaults of the signature (lines 38-70). *)
Definition default_args : MixtralConfigArgs := {|
  arg_vocab_size := 32000;
  arg_hidden_size := 4096;
  arg_intermediate_size := 14336;
  arg_num_hidden_layers := 32;
  arg_num_attention_heads := 32;
  arg_num_key_value_heads := Some 8%Z;
  arg_num_experts_per_tok := 2;
  arg_num_local_experts := 8;
  arg_output_router_logits := false;
  arg_c_max_position_embeddings := 4096
|}.

(** [MixtralConfig.__init__] (lines 117-158): every argument is stored as it
    is; the only computation is the default of [num_key_value_heads]. *)
Definition MixtralConfig_init (a : MixtralConfigArgs) : result MixtralConfig :=
  let num_key_value_heads :=
    match arg_num_key_value_heads a with
    | None => arg_num_attention_heads a
    | Some n => n
    end in
  ret {| vocab_size := arg_vocab_size a;
         hidden_size := arg_hidden_size a;
         intermediate_size := arg_intermediate_size a;
         num_hidden_layers := arg_num_hidden_layers a;
         num_attention_heads := arg_num_attention_heads a;
         num_key_value_heads := num_key_value_heads;
         num_experts_per_tok := arg_num_experts_per_tok a;
         num_local_experts := arg_num_local_experts a;
         output_router_logits_default := arg_output_router_logits a;
         c_max_position_embeddings := arg_c_max_position_embeddings a |}.

(** Python's [a // b]: floor division, [ZeroDivisionError] when [b = 0]. *)
Definition floordiv (a b : Z) : result Z :=
  if (b =? 0)%Z then raise ZeroDivisionError else ret (a / b)%Z.

(** The attributes that [FlaxMixtralAttention.setup] derives
    (lines 349-354). *)
Record AttentionSetup : Type := {
  num_heads : Z;
  head_dim : Z;
  num_key_value_groups : Z
}.

Definition FlaxMixtralAttention_setup (config : MixtralConfig)
  : result AttentionSetup :=
  let num_heads := num_attention_heads config in
  head_dim <- floordiv (hidden_size config) num_heads ;;
  num_key_value_groups <- floordiv num_heads (num_key_value_heads config) ;;
  ret {| num_heads := num_heads;
         head_dim := head_dim;
         num_key_value_groups := num_key_value_groups |}.


(** ** The forward pass on shapes

    The numeric content of attention (projections, rotary encoding, scores)
    is not needed by the properties below; what is needed is which arrays
    exist, their shapes, and which calls are rejected.  The functions of this
    part follow the source line by line on array shapes.  They follow the
    dense attention path ([use_flash_attention = False], the default). *)

(** Dimensions are binary naturals: a vocabulary has tens of thousands of
    entries. *)
Definition shape := list N.

(** [x.shape[i]]. *)
Definition axis (i : nat) (x : shape) : N := nth i x 0%N.

Definition size (s : shape) : N := fold_right N.mul 1%N s.

(** A dimension taken from a Python integer; a negative one is rejected. *)
Definition dim (z : Z) : result N :=
  if (z <? 0)%Z then raise ValueError else ret (Z.to_N z).

(** [x.reshape(new)]. *)
Definition reshape (x new : shape) : result shape :=
  if N.eqb (size x) (size new) then ret new else raise TypeError.

(** [nn.Dense(features)] on shapes.  Every [nn.Dense] of the source is
    given the [normal] initializer, which accepts any shape. *)
Definition Dense_shape (features : N) (x : shape) : shape :=
  removelast x ++ [features].

(** [nn.Embed(num_embeddings, features)] on shapes (lines 1089-1094).  The
    embedding keeps the default initializer, a variance scaling that divides
    by the sizes of the table: an empty vocabulary or a zero feature size
    raises [ZeroDivisionError], when the parameters are created and when
    their shapes are checked in a later call. *)
Definition Embed_shape (num_embeddings features : N) (ids : shape)
  : result shape :=
  if (N.eqb num_embeddings 0 || N.eqb features 0)%bool
  then raise ZeroDivisionError
  else ret (ids ++ [features]).

(** NumPy broadcasting of the shapes of the two arguments of an elementwise
    operation; shapes that do not broadcast are rejected with
    [TypeError]. *)
Fixpoint broadcast_shapes (a b : shape) : result shape :=
  match a, b with
  | [], [] => ret []
  | x :: a', y :: b' =>
      d <- (if N.eqb x y then ret x
            else if N.eqb x 1 then ret y
            else if N.eqb y 1 then ret x
            else raise TypeError) ;;
      r <- broadcast_shapes a' b' ;;
      ret (d :: r)
  | _, _ => raise TypeError
  end.

(** [jnp.broadcast_to(x, target)] for shapes of equal rank. *)
Fixpoint broadcast_to (x target : shape) : result shape :=
  match x, target with
  | [], [] => ret []
  | a :: x', t :: target' =>
      if (N.eqb a t || N.eqb a 1)%bool
      then r <- broadcast_to x' target' ;; ret (t :: r)
      else raise ValueError
  | _, _ => raise ValueError
  end.

(** [nn.combine_masks]: the masks must have the same rank. *)
Definition combine_masks_shape (a b : shape) : result shape :=
  if Nat.eqb (length a) (length b) then broadcast_shapes a b
  else raise AssertionError.

Record CacheShape : Type := {
  key_shape : shape;
  value_shape : shape;
  index_value : Z
}.

(** Does [update] fit in [operand], dimension by dimension? *)
Fixpoint fits (update operand : shape) : bool :=
  match update, operand with
  | [], [] => true
  | u :: update', o :: operand' => ((u <=? o)%N && fits update' operand')%bool
  | _, _ => false
  end.

(** [concatenate_to_cache_] on shapes. *)
Definition concatenate_to_cache_shapes
    (cache : option CacheShape) (query key value attention_mask : shape)
  : result ((shape * shape * shape * shape) * CacheShape) :=
  match cache with
  | None =>
      ret ((query, key, value, attention_mask),
           {| key_shape := key; value_shape := key; index_value := 0%Z |})
  | Some vars =>
      let bd := firstn (length (key_shape vars) - 3) (key_shape vars) in
      let ml := axis (length (key_shape vars) - 3) (key_shape vars) in
      if (fits key (key_shape vars) && fits value (value_shape vars))%bool then
        let num_updated_cache_vector := axis 1 query in
        let index :=
          int32_wrap (index_value vars + Z.of_N num_updated_cache_vector) in
        let pad_mask := bd ++ [1%N; num_updated_cache_vector; ml] in
        attention_mask <- combine_masks_shape pad_mask attention_mask ;;
        ret ((query, key_shape vars, value_shape vars, attention_mask),
             {| key_shape := key_shape vars;
                value_shape := value_shape vars;
                index_value := index |})
      else raise TypeError
  end.

(** Modelled from the spec: [repeat_kv_bnsh] of [flax_modelling_utils],
    which is not among the sources ("K/V heads are repeated to match Q head
    count before scoring"): the head axis of a [(batch, heads, sequence,
    head_dim)] array is repeated [n_rep] times. *)
Definition repeat_kv_bnsh (x : shape) (n_rep : N) : shape :=
  match x with
  | [bs; n_kv_heads; s; d] => [bs; (n_kv_heads * n_rep)%N; s; d]
  | _ => x
  end.

Definition transpose_0213 (x : shape) : shape :=
  match x with
  | [a; b; c; d] => [a; c; b; d]
  | _ => x
  end.

(** [FlaxMixtralAttention.t_rotary] (lines 398-407); the rotary encoding
    keeps shapes. *)
Definition t_rotary (config : MixtralConfig) (st : AttentionSetup)
    (batch_size sequence_length : N) (query key value : shape)
  : result (shape * shape * shape) :=
  heads <- dim (num_attention_heads config) ;;
  kv_heads <- dim (num_key_value_heads config) ;;
  hd <- dim (head_dim st) ;;
  groups <- dim (num_key_value_groups st) ;;
  query <- reshape query [batch_size; sequence_length; heads; hd] ;;
  key <- reshape key [batch_size; sequence_length; kv_heads; hd] ;;
  value <- reshape value [batch_size; sequence_length; kv_heads; hd] ;;
  let query := transpose_0213 query in
  let key := repeat_kv_bnsh (transpose_0213 key) groups in
  let value := repeat_kv_bnsh (transpose_0213 value) groups in
  ret (transpose_0213 query, transpose_0213 key, transpose_0213 value).

(** [FlaxMixtralAttention.__call__] (lines 438-559).  [attention_mask] is
    the mask as the caller passes it; the result is the output shape, the
    shape of the attention weights and the ['cache'] variables, if any. *)
Definition FlaxMixtralAttention_call
    (config : MixtralConfig) (hidden_states attention_mask : shape)
    (cache : option CacheShape) (init_cache : bool)
  : result (shape * shape * option CacheShape) :=
  st <- FlaxMixtralAttention_setup config ;;
  heads <- dim (num_heads st) ;;
  kv_heads <- dim (num_key_value_heads config) ;;
  hd <- dim (head_dim st) ;;
  hidden <- dim (hidden_size config) ;;
  c_max <- dim (c_max_position_embeddings config) ;;
  let batch_size := axis 0 hidden_states in
  let sequence_length := axis 1 hidden_states in
  let query := Dense_shape (heads * hd)%N hidden_states in
  let key := Dense_shape (kv_heads * hd)%N hidden_states in
  let value := Dense_shape (kv_heads * hd)%N hidden_states in
  '(query, key, value) <-
     t_rotary config st batch_size sequence_length query key value ;;
  '(query, key, value, attention_mask, cache) <-
     (if (match cache with Some _ => true | None => false end || init_cache)%bool
      then
        '(query, key, value, attention_mask, vars) <-
           concatenate_to_cache_shapes cache query key value attention_mask ;;
        ret (query, key, value, attention_mask, Some vars)
      else ret (query, key, value, attention_mask, None)) ;;
  let q_l := axis 1 query in
  let k_l := axis 1 key in
  causal_mask <-
    match cache with
    | Some vars =>
        (* jax.lax.dynamic_slice(causal_mask, ..., (1, 1, q_l, dl)) *)
        let dl := axis 1 (key_shape vars) in
        if ((q_l <=? c_max)%N && (dl <=? c_max)%N)%bool
        then ret [1%N; 1%N; q_l; dl]
        else raise TypeError
    | None =>
        (* causal_mask[:, :, :q_l, :k_l] *)
        ret [1%N; 1%N; N.min q_l c_max; N.min k_l c_max]
    end ;;
  let causal_mask := batch_size :: tl causal_mask in
  attention_mask <-
    (if Nat.eqb (length attention_mask) 2%nat
     then broadcast_to [axis 0 attention_mask; 1%N; 1%N;
                        axis 1 attention_mask]
                       causal_mask
     else ret attention_mask) ;;
  attention_mask <- combine_masks_shape attention_mask causal_mask ;;
  (* dot_product_attention_weights(query, key, bias) *)
  if negb (N.eqb (axis 0 query) (axis 0 key)
           && N.eqb (axis 2 query) (axis 2 key)
           && N.eqb (axis 3 query) (axis 3 key))%bool
  then raise AssertionError
  else
    attn_weights <-
      broadcast_shapes [axis 0 query; axis 2 query; q_l; k_l]
                       attention_mask ;;
    (* the softmax over the key axis takes its maximum *)
    if N.eqb (axis 3 attn_weights) 0 then raise ValueError else
    (* jnp.einsum("...hqk,...khd->...qhd", attn_weights, value) *)
    if negb (N.eqb (axis 3 attn_weights) (axis 1 value)
             && N.eqb (axis 1 attn_weights) (axis 2 value))%bool
    then raise ValueError
    else
      let attn_output :=
        [axis 0 attn_weights; axis 2 attn_weights;
         axis 1 attn_weights; axis 3 value] in
      out <- reshape attn_output [batch_size; sequence_length; hidden] ;;
      ret (Dense_shape hidden out, attn_weights, cache).

(** [FlaxMixtralSparseMoeBlock.__call__] on shapes: the combined output has
    the shape of the input, the router logits have shape
    [(batch * sequence, num_local_experts)]; [jax.lax.top_k] rejects
    [k > num_local_experts]; with [k = 0] the first expert gathers from the
    empty axis of the routing weights (line 639), unless there is no token
    or no expert. *)
Definition FlaxMixtralSparseMoeBlock_shapes
    (config : MixtralConfig) (hidden_states : shape) : result (shape * shape) :=
  match hidden_states with
  | [batch_size; sequence_length; hidden_dim] =>
      experts <- dim (num_local_experts config) ;;
      k <- dim (num_experts_per_tok config) ;;
      if (k <=? experts)%N
      then
        if (N.eqb k 0 && negb (N.eqb (batch_size * sequence_length) 0)
            && negb (N.eqb experts 0))%bool
        then raise TypeError
        else ret ([batch_size; sequence_length; hidden_dim],
                  [(batch_size * sequence_length)%N; experts])
      else raise ValueError
  | _ => raise ValueError
  end.

(** [FlaxMixtralDecoderLayer.__call__] (lines 767-792): the result is
    [(hidden_states, self_attn_weights, router_logits)] and the cache. *)
Definition FlaxMixtralDecoderLayer_call
    (config : MixtralConfig) (hidden_states attention_mask : shape)
    (cache : option CacheShape) (init_cache : bool)
  : result (shape * shape * shape * option CacheShape) :=
  let residual := hidden_states in
  '(hidden_states, self_attn_weights, cache) <-
     FlaxMixtralAttention_call config hidden_states attention_mask
                               cache init_cache ;;
  hidden_states <- broadcast_shapes residual hidden_states ;;
  let residual := hidden_states in
  '(hidden_states, router_logits) <-
     FlaxMixtralSparseMoeBlock_shapes config hidden_states ;;
  hidden_states <- broadcast_shapes residual hidden_states ;;
  ret (hidden_states, self_attn_weights, router_logits, cache).

Record MoeModelOutput : Type := {
  last_hidden_state : shape;
  hidden_states : option (list shape);
  attentions : option (list shape);
  router_logits : option (list shape)
}.

Record MoeCausalLMOutput : Type := {
  aux_loss : option shape;
  logits : shape;
  lm_hidden_states : option (list shape);
  lm_attentions : option (list shape);
  lm_router_logits : option (list shape)
}.

Definition append_if {A} (flag : bool) (acc : option (list A)) (x : A)
  : option (list A) :=
  if flag then option_map (fun l => l ++ [x]) acc else acc.

(** The loop of [FlaxMixtralDecoderLayerCollection.__call__]
    (lines 850-871) over the caches of the remaining blocks. *)
Fixpoint decoder_blocks
    (config : MixtralConfig) (attention_mask : shape) (init_cache : bool)
    (output_hidden_states output_attentions output_router_logits : bool)
    (caches : list (option CacheShape))
    (hidden_states : shape)
    (all_hidden_states all_self_attns all_router_logits : option (list shape))
  : result (shape * option (list shape) * option (list shape)
            * option (list shape) * list (option CacheShape)) :=
  match caches with
  | [] => ret (hidden_states, all_hidden_states, all_self_attns,
               all_router_logits, [])
  | cache :: caches' =>
      let all_hidden_states :=
        append_if output_hidden_states all_hidden_states hidden_states in
      '(hidden_states, attn, router, cache) <-
         FlaxMixtralDecoderLayer_call config hidden_states attention_mask
                                      cache init_cache ;;
      let all_self_attns := append_if output_attentions all_self_attns attn in
      let all_router_logits :=
        append_if output_router_logits all_router_logits router in
      '(hidden_states, hs, at_, rl, rest) <-
         decoder_blocks config attention_mask init_cache
                        output_hidden_states output_attentions
                        output_router_logits caches' hidden_states
                        all_hidden_states all_self_attns all_router_logits ;;
      ret (hidden_states, hs, at_, rl, cache :: rest)
  end.

(** The ['cache'] collection handed to the blocks: one entry per block,
    [None] where the block has no cache variables. *)
Definition caches_of (config : MixtralConfig)
    (past_key_values : option (list CacheShape)) : list (option CacheShape) :=
  let n := Z.to_nat (num_hidden_layers config) in
  match past_key_values with
  | None => repeat None n
  | Some l => map (fun i => nth_error l i) (seq 0 n)
  end.

(** [FlaxMixtralModule.__call__] (lines 1129-1180) with [return_dict=True],
    after the part of [setup] that computes: the head dimension for the
    rotary frequencies (line 1112) and the causal mask of
    [c_max_position_embeddings] columns (line 1114). *)
Definition FlaxMixtralModule_call
    (config : MixtralConfig)
    (input_ids : option shape) (attention_mask : shape)
    (inputs_embeds : option shape)
    (output_attentions output_hidden_states : bool)
    (output_router_logits : option bool)
    (init_cache : bool) (past_key_values : option (list CacheShape))
  : result (MoeModelOutput * list (option CacheShape)) :=
  _ <- floordiv (hidden_size config) (num_attention_heads config) ;;
  _ <- dim (c_max_position_embeddings config) ;;
  match input_ids, inputs_embeds with
  | Some _, Some _ => raise ValueError
  | Some ids, None =>
      vocab <- dim (vocab_size config) ;;
      hidden <- dim (hidden_size config) ;;
      inputs_embeds <- Embed_shape vocab hidden ids ;;
      let output_router_logits :=
        match output_router_logits with
        | Some b => b
        | None => output_router_logits_default config
        end in
      let start (flag : bool) : option (list shape) :=
        if flag then Some [] else None in
      '(hidden_states, all_hidden_states, all_self_attns, all_router_logits,
        caches) <-
         decoder_blocks config attention_mask init_cache
                        output_hidden_states output_attentions
                        output_router_logits
                        (caches_of config past_key_values) inputs_embeds
                        (start output_hidden_states) (start output_attentions)
                        (start output_router_logits) ;;
      let all_hidden_states :=
        append_if output_hidden_states all_hidden_states hidden_states in
      ret ({| last_hidden_state := hidden_states;
              hidden_states := all_hidden_states;
              attentions := all_self_attns;
              router_logits := all_router_logits |},
           caches)
  | None, _ => raise ValueError
  end.

(** The attributes of a [FlaxMixtralForCausalLMModule] object: its four
    dataclass fields (lines 1188-1191) and the two sub-modules that [setup]
    assigns (lines 1194, 1200).  Any other name raises [AttributeError]. *)
Inductive PyValue : Type :=
| VConfig (c : MixtralConfig)
| VDtype
| VPrecision
| VModule (name : string)
| VInt (z : Z).

Definition FlaxMixtralForCausalLMModule_getattr
    (config : MixtralConfig) (name : string) : result PyValue :=
  if String.eqb name "config" then ret (VConfig config)
  else if String.eqb name "dtype" then ret VDtype
  else if String.eqb name "param_dtype" then ret VDtype
  else if String.eqb name "precision" then ret VPrecision
  else if String.eqb name "model" then ret (VModule "FlaxMixtralModule")
  else if String.eqb name "lm_head" then ret (VModule "Dense")
  else raise (AttributeError name).

Definition as_int (v : PyValue) : result Z :=
  match v with
  | VInt z => ret z
  | _ => raise TypeError
  end.

(** [jax_load_balancing_loss_func] on shapes: the tuple of per-layer router
    logits is concatenated along axis 0, [top_k] is taken along the last
    axis, the result is a scalar. *)
Definition jax_load_balancing_loss_func_shapes
    (gate_logits : list shape) (num_experts top_k : Z) : result shape :=
  match gate_logits with
  | [] => raise ValueError            (* jnp.concatenate of no arrays *)
  | g :: _ =>
      k <- dim top_k ;;
      if (k <=? axis 1 g)%N then ret [] else raise ValueError
  end.

(** [FlaxMixtralForCausalLMModule.__call__] (lines 1223-1260) with
    [return_dict=True]. *)
Definition FlaxMixtralForCausalLMModule_call
    (config : MixtralConfig)
    (input_ids : option shape) (attention_mask : shape)
    (inputs_embeds : option shape)
    (output_attentions output_hidden_states : bool)
    (output_router_logits : option bool)
    (init_cache : bool) (past_key_values : option (list CacheShape))
  : result (MoeCausalLMOutput * list (option CacheShape)) :=
  '(outputs, caches) <-
     FlaxMixtralModule_call config input_ids attention_mask inputs_embeds
                            output_attentions output_hidden_states
                            output_router_logits init_cache past_key_values ;;
  vocab <- dim (vocab_size config) ;;
  let logits := Dense_shape vocab (last_hidden_state outputs) in
  aux_loss <-
    match output_router_logits, router_logits outputs with
    | Some true, Some gate_logits =>
        num_experts <-
          (v <- FlaxMixtralForCausalLMModule_getattr config "num_experts" ;;
           as_int v) ;;
        top_k <-
          (v <- FlaxMixtralForCausalLMModule_getattr config "num_experts_per_tok" ;;
           as_int v) ;;
        loss <- jax_load_balancing_loss_func_shapes gate_logits num_experts top_k ;;
        ret (Some loss)
    | _, _ => ret None
    end ;;
  ret ({| aux_loss := aux_loss;
          logits := logits;
          lm_hidden_states := hidden_states outputs;
          lm_attentions := attentions outputs;
          lm_router_logits := router_logits outputs |},
       caches).

(** [MixtralPreTrainedModel.__call__] (lines 1030-1079), the Forward of the
    interface, for the causal language model with [return_dict=True].
    [attention_mask] defaults to all-valid of shape [(batch, sequence)].
    When a cache is passed and the module has returned, line 1073 assigns
    [outputs["past_key_values"]]; the output is a frozen dataclass, which
    does not support item assignment, so the call raises [TypeError]. *)
Definition Forward
    (config : MixtralConfig)
    (input_ids : shape) (attention_mask : option shape)
    (position_ids : option shape)
    (past_key_values : option (list CacheShape))
    (output_router_logits : option bool)
  : result (MoeCausalLMOutput * list (option CacheShape)) :=
  match input_ids with
  | [batch_size; sequence_length] =>
      position_ids <-
        match position_ids, past_key_values with
        | None, Some _ => raise ValueError
        | None, None => ret [batch_size; sequence_length]
        | Some p, _ => ret p
        end ;;
      let attention_mask :=
        match attention_mask with
        | None => [batch_size; sequence_length]
        | Some m => m
        end in
      outputs <-
        FlaxMixtralForCausalLMModule_call
          config (Some input_ids) attention_mask None false false
          output_router_logits false past_key_values ;;
      match past_key_values with
      | Some _ => raise TypeError
      | None => ret outputs
      end
  | _ => raise ValueError
  end.

Definition cache_zeros (c : CacheShape) : Cache :=
  let z (s : shape) :=
    jnp_zeros4 (N.to_nat (axis 0 s)) (N.to_nat (axis 1 s))
               (N.to_nat (axis 2 s)) (N.to_nat (axis 3 s)) in
  {| key_cache := z (key_shape c);
     value_cache := z (value_shape c);
     index_cache := index_value c |}.

(** [MixtralPreTrainedModel.init_cache] (lines 973-982): the model is
    initialised on a [(batch_size, max_length)] input with
    [init_cache=True]; the ['cache'] collection that the attention layers
    create is returned, one entry per layer.  When no layer has created a
    cache variable the collection does not exist and the lookup
    [init_variables["cache"]] raises [KeyError]. *)
Definition init_cache_shapes (config : MixtralConfig) (batch_size max_length : N)
  : result (list CacheShape) :=
  let input_ids := [batch_size; max_length] in
  let attention_mask := input_ids in
  '(_, caches) <-
     FlaxMixtralForCausalLMModule_call
       config (Some input_ids) attention_mask None false false None true None ;;
  match concat (map (fun c : option CacheShape =>
                       match c with
                       | Some c => [c]
                       | None => []
                       end) caches) with
  | [] => raise (KeyError "cache")
  | created => ret created
  end.

Definition init_cache (config : MixtralConfig) (batch_size max_length : N)
  : result (list Cache) :=
  created <- init_cache_shapes config batch_size max_length ;;
  ret (map cache_zeros created).

(** [MixtralPreTrainedModel.__init__] (lines 890-913) for the causal
    language model, after [MixtralConfig.__init__]: the constructor of the
    base class evaluates [init_weights] (lines 933-961) on an input of
    [input_shape], [(1, 1)] by default, which traces a forward pass of the
    module; an error of that pass is an error of the construction. *)
Definition MixtralPreTrainedModel_init
    (a : MixtralConfigArgs) (input_shape : shape) : result MixtralConfig :=
  config <- MixtralConfig_init a ;;
  _ <- FlaxMixtralForCausalLMModule_call
         config (Some input_shape) input_shape None false false None false
         None ;;
  ret config.

(** The configuration of the scenarios: vocab=32000, hidden=64, heads=4,
    kv_heads=2, layers=2, experts=4, top_k=2; the rest are the defaults. *)
Definition scenario_args : MixtralConfigArgs := {|
  arg_vocab_size := 32000;
  arg_hidden_size := 64;
  arg_intermediate_size := 14336;
  arg_num_hidden_layers := 2;
  arg_num_attention_heads := 4;
  arg_num_key_value_heads := Some 2%Z;
  arg_num_experts_per_tok := 2;
  arg_num_local_experts := 4;
  arg_output_router_logits := false;
  arg_c_max_position_embeddings := 4096
|}.

Definition scenario_config : MixtralConfig := {|
  vocab_size := 32000;
  hidden_size := 64;
  intermediate_size := 14336;
  num_hidden_layers := 2;
  num_attention_heads := 4;
  num_key_value_heads := 2;
  num_experts_per_tok := 2;
  num_local_experts := 4;
  output_router_logits_default := false;
  c_max_position_embeddings := 4096
|}.

(** Arguments that break every invariant of the interface at once:
    [hidden_size] not divisible by the head count, an empty vocabulary and
    more experts per token than experts. *)
Definition unchecked_args : MixtralConfigArgs := {|
  arg_vocab_size := 0;
  arg_hidden_size := 65;
  arg_intermediate_size := 14336;
  arg_num_hidden_layers := 2;
  arg_num_attention_heads := 4;
  arg_num_key_value_heads := Some 2%Z;
  arg_num_experts_per_tok := 9;
  arg_num_local_experts := 8;
  arg_output_router_logits := false;
  arg_c_max_position_embeddings := 4096
|}.

(** Arguments with no decoder layer, a [hidden_size] that the head count
    does not divide and more experts per token than experts. *)
Definition layerless_args : MixtralConfigArgs := {|
  arg_vocab_size := 32000;
  arg_hidden_size := 65;
  arg_intermediate_size := 14336;
  arg_num_hidden_layers := 0;
  arg_num_attention_heads := 4;
  arg_num_key_value_heads := Some 2%Z;
  arg_num_experts_per_tok := 9;
  arg_num_local_experts := 8;
  arg_output_router_logits := false;
  arg_c_max_position_embeddings := 4096
|}.

(** [ACT2FN["relu"]]. *)
Definition relu (x : Q) : Q := Qmax2 0 x.

(** A two-token instance of the routing block with hidden dimension 1 and
    two experts, top-1 routing and ReLU activation.  The gate kernel
    [[1; -1]] sends both tokens to expert 0 with weight 1; expert 0 has unit
    kernels, so it maps [x] to [relu(x) * x]. *)
Definition unit_expert : ExpertParams :=
  {| w1 := [[1%Q]]; w3 := [[1%Q]]; w2 := [[1%Q]] |}.
Definition zero_expert : ExpertParams :=
  {| w1 := [[0%Q]]; w3 := [[0%Q]]; w2 := [[0%Q]] |}.
Definition two_tokens : list mat := [[[1%Q]; [2%Q]]].
Definition two_expert_gate : mat := [[1%Q; (-1)%Q]].

(** Equality of arrays up to the equality of rationals. *)
Definition vec_eq (a b : list Q) : Prop := Forall2 Qeq a b.
Definition mat_eq (a b : mat) : Prop := Forall2 vec_eq a b.


(** The load-balancing loss as the specification words it:
    [num_experts^2] times the mean over the experts of (the fraction of
    tokens routed to the expert) times (the mean routing probability that
    the tokens give to the expert), over the weights and the selection that
    the function itself computes (lines 288-289).  It is compared with
    [jax_load_balancing_loss_func] below. *)
Definition claimed_load_balancing_loss
    (exp : Q -> Q) (gate_logits : mat) (num_experts top_k : nat) : result Q :=
  '(routing_weights, selected_experts) <- loss_top_k exp gate_logits top_k ;;
  let tokens := nq (length gate_logits) in
  let weight_of (e : nat) (ws : list Q) (sel : list nat) : Q :=
    Qsum (map2 (fun w s => if Nat.eqb s e then w else 0%Q) ws sel) in
  let token_fraction (e : nat) : Q :=
    (Qsum (map (fun sel => if existsb (Nat.eqb e) sel then 1%Q else 0%Q)
               selected_experts) / tokens)%Q in
  let mean_routing_prob (e : nat) : Q :=
    (Qsum (map2 (weight_of e) routing_weights selected_experts) / tokens)%Q in
  ret (nq (num_experts ^ 2)
       * jnp_mean (map (fun e => token_fraction e * mean_routing_prob e)
                       (seq 0 num_experts)))%Q.

(** Renaming the experts: column [j] of the result is column [nth j p] of
    the logits, for [p] a permutation of the expert indices. *)
Definition permute_experts (p : list nat) (gate_logits : mat) : mat :=
  map (fun row => map (fun e => nth e row 0%Q) p) gate_logits.

(** Well-shaped arrays of rank 4. *)
Definition rows_of {A} (n : nat) (P : A -> Prop) (l : list A) : Prop :=
  length l = n /\ Forall P l.

Definition has_shape4 {A} (t : list (list (list (list A))))
    (d0 d1 d2 d3 : nat) : Prop :=
  rows_of d0 (rows_of d1 (rows_of d2 (rows_of d3 (fun _ : A => True)))) t.

(** Cache slot [j] of batch row [b]: a [(heads, head_dim)] block. *)
Definition slot (t : tensor4) (b j : nat) : mat := nth j (nth b t []) [].

(** Entry [(b, 0, i, j)] of a mask of shape [(batch, 1, q, kv)]. *)
Definition entry (m : mask4) (b i j : nat) : bool :=
  nth j (nth i (nth 0 (nth b m []) []) []) false.

Definition jnp_full4 (d0 d1 d2 d3 : nat) (x : Q) : tensor4 :=
  repeat (repeat (repeat (repeat x d3) d2) d1) d0.

(** The all-valid mask of shape [(1, 1, 1, 8)]. *)
Definition all_valid_mask : mask4 := [[[repeat true 8]]].

(** A cache of two slots whose cursor has reached its length. *)
Definition full_cache : Cache :=
  {| key_cache := [[ [[1%Q]]; [[2%Q]] ]];
     value_cache := [[ [[3%Q]]; [[4%Q]] ]];
     index_cache := 2 |}.


(** The start of a write of [n] slots into [ml] slots at cache index
    [index]: wrapped if negative, then clamped so that the write fits. *)
Definition write_start (ml n : nat) (index : Z) : nat :=
  let d := Z.of_nat ml in
  let start := if (index <? 0)%Z then (index + d)%Z else index in
  Z.to_nat (clamp 0 (d - Z.of_nat n) start).

Definition write_row (s : nat) (o u : list mat) : list mat :=
  firstn s o ++ u ++ skipn (s + length u) o.

(** [pad_mask] of [concatenate_to_cache_]: in every batch row and for every
    query position, slot [j] is valid when [j < index]. *)
Definition pad_mask_of (B n ml : nat) (index : Z) : mask4 :=
  repeat [ repeat (map (fun j => (Z.of_nat j <? index)%Z) (seq 0 ml)) n ] B.

(** The key/value block of one new token for [full_cache]. *)
Definition overflow_token : tensor4 := [[ [[9%Q]] ]].

(** The key/value blocks of the two tokens of the decoding scenario, after
    the repetition of the K/V heads: shape [(1, 1, 4, 16)]. *)
Definition first_token : tensor4 := jnp_full4 1 1 4 16 1%Q.
Definition second_token : tensor4 := jnp_full4 1 1 4 16 2%Q.

(** A fresh cache of two slots for batch 1, one head, head dimension 1. *)
Definition fresh_cache : Cache :=
  {| key_cache := jnp_zeros4 1 2 1 1;
     value_cache := jnp_zeros4 1 2 1 1;
     index_cache := 0 |}.

(** ** Configurations on which a forward pass goes through

    The conditions on the hyper-parameters under which, on a non-empty
    input, every check of the embedding, of the dense attention path and of
    the routing block succeeds. *)
Definition well_formed (config : MixtralConfig) : Prop :=
  (0 < num_attention_heads config)%Z
  /\ (0 < num_key_value_heads config)%Z
  /\ (num_key_value_heads config
      * (num_attention_heads config / num_key_value_heads config)
      = num_attention_heads config)%Z
  /\ (1 <= hidden_size config)%Z
  /\ (num_attention_heads config
      * (hidden_size config / num_attention_heads config)
      = hidden_size config)%Z
  /\ (1 <= vocab_size config)%Z
  /\ (1 <= num_experts_per_tok config <= num_local_experts config)%Z
  /\ (1 <= intermediate_size config)%Z.

(** [acc + (x,) * n] when the output was requested. *)
Definition extend_if {A} (flag : bool) (acc : option (list A)) (xs : list A)
  : option (list A) :=
  if flag then option_map (fun l => l ++ xs) acc else acc.


(** ** The decoding helpers of [FlaxMixtralForCausalLM] (lines 1266-1296) *)

(** [x.cumsum(axis=-1)] on one row of an [int32] array. *)
Fixpoint cumsum_from (acc : Z) (row : list Z) : list Z :=
  match row with
  | [] => []
  | x :: row' =>
      let acc := int32_wrap (acc + x) in
      acc :: cumsum_from acc row'
  end.

Definition cumsum (row : list Z) : list Z := cumsum_from 0 row.

(** The keyword arguments that the decoding loop carries: the cache, the
    mask over the whole decoding length, the positions of the next call. *)
Record GenerationInputs : Type := {
  gen_past_key_values : list Cache;
  gen_attention_mask : list (list Z);
  gen_position_ids : list (list Z)
}.

(** [prepare_inputs_for_generation] (lines 1277-1291).  Only the shape of
    [input_ids] is read; [attention_mask] is an [int32] array of rank 2. *)
Definition prepare_inputs_for_generation
    (config : MixtralConfig) (input_ids : shape) (max_length : N)
    (attention_mask : option (list (list Z))) : result GenerationInputs :=
  match input_ids with
  | [batch_size; seq_length] =>
      past_key_values <- init_cache config batch_size max_length ;;
      let extended_attention_mask :=
        repeat (repeat 1%Z (N.to_nat max_length)) (N.to_nat batch_size) in
      match attention_mask with
      | Some attention_mask =>
          let position_ids :=
            map (fun row => map (fun c => int32_wrap (c - 1)) (cumsum row))
                attention_mask in
          (* lax.dynamic_update_slice(extended_attention_mask,
                                      attention_mask, (0, 0)) *)
          extended_attention_mask <-
            dynamic_update_axis
              (fun o u => dynamic_update_axis (fun _ x => ret x) o u 0%Z)
              extended_attention_mask attention_mask 0%Z ;;
          ret {| gen_past_key_values := past_key_values;
                 gen_attention_mask := extended_attention_mask;
                 gen_position_ids := position_ids |}
      | None =>
          let position_ids :=
            repeat (map (fun i => int32_wrap (Z.of_nat i))
                        (seq 0 (N.to_nat seq_length)))
                   (N.to_nat batch_size) in
          ret {| gen_past_key_values := past_key_values;
                 gen_attention_mask := extended_attention_mask;
                 gen_position_ids := position_ids |}
      end
  | _ => raise ValueError
  end.

(** [update_inputs_for_generation] (lines 1293-1296): the cache of the model
    output replaces the old one, and the positions become
    [position_ids[:, -1:] + 1]. *)
Definition update_inputs_for_generation
    (model_outputs_past_key_values : list Cache)
    (model_kwargs : GenerationInputs) : GenerationInputs :=
  {| gen_past_key_values := model_outputs_past_key_values;
     gen_attention_mask := gen_attention_mask model_kwargs;
     gen_position_ids :=
       map (fun row =>
              map (fun x => int32_wrap (x + 1)) (skipn (length row - 1) row))
           (gen_position_ids model_kwargs) |}.

(** A batch of left-padded mask rows of length [s]: row [r] has [p_r]
    padding entries followed by valid entries. *)
Definition left_padded_mask (s : nat) (pads : list nat) : list (list Z) :=
  map (fun p => repeat 0%Z p ++ repeat 1%Z (s - p)) pads.

(** ** The arguments of a routing block

    A 2-D array of shape [(rows, cols)], and the arrays that a routing block
    works on: hidden states of shape [(batch, sequence, hidden_dim)], the
    gate kernel of shape [(hidden_dim, experts)] and, for each of the
    [experts] experts, kernels [w1], [w3] of shape
    [(hidden_dim, intermediate)] and [w2] of shape
    [(intermediate, hidden_dim)]. *)
Definition has_shape2 (m : mat) (rows cols : nat) : Prop :=
  length m = rows /\ Forall (fun r => length r = cols) m.

Definition block_arguments
    (intermediate experts_count batch_size sequence_length hidden_dim : nat)
    (gate : mat) (experts : list ExpertParams) (hidden_states : list mat)
  : Prop :=
  length hidden_states = batch_size
  /\ Forall (fun m => has_shape2 m sequence_length hidden_dim) hidden_states
  /\ has_shape2 gate hidden_dim experts_count
  /\ length experts = experts_count
  /\ Forall (fun p => has_shape2 (w1 p) hidden_dim intermediate
                      /\ has_shape2 (w3 p) hidden_dim intermediate
                      /\ has_shape2 (w2 p) intermediate hidden_dim)
            experts.

(* ================================================================= *)
(** * Part II.  Properties                                             *)
(* ================================================================= *)

(** ** The monad *)

Lemma bind_ret_inv A B (m : result A) (f : A -> result B) (b : B) :
  bind m f = inr b -> exists a, m = inr a /\ f a = inr b.
Proof.
  destruct m as [e | a]; simpl; intros H; [discriminate | eauto].
Qed.

Lemma mapM_ret A B (g : A -> B) (f : A -> result B) (l : list A) :
  (forall a, In a l -> f a = inr (g a)) -> mapM f l = inr (map g l).
Proof.
  induction l as [| a l IH]; simpl; intros H; [reflexivity |].
  rewrite (H a (or_introl eq_refl)); simpl.
  rewrite IH by (intros; apply H; now right). reflexivity.
Qed.

Lemma mapM2_ret A B C (g : A -> B -> C) (f : A -> B -> result C) :
  forall (xs : list A) (ys : list B),
    (forall x y, In (x, y) (combine xs ys) -> f x y = inr (g x y)) ->
    mapM2 f xs ys = inr (map2 g xs ys).
Proof.
  induction xs as [| x xs IH]; intros [| y ys] H; simpl; try reflexivity.
  rewrite (H x y (or_introl eq_refl)); simpl.
  rewrite IH by (intros; apply H; now right). reflexivity.
Qed.

(** ** Construction and the forward pass on shapes *)

Lemma scenario_config_init : MixtralConfig_init scenario_args = inr scenario_config.
Proof. reflexivity. Qed.

(** C9.  In the scenario configuration, Forward on a batch of shape (1, 5)
    with the default mask returns logits of shape (1, 5, 32000) and no
    auxiliary loss when router logits are not requested; when they are
    requested the call raises [AttributeError] instead of returning a
    loss: [self.num_experts] is not an attribute of the module. *)
Theorem Forward_scenario_aux_loss :
  (exists out caches,
      Forward scenario_config [1; 5]%N None None None None = inr (out, caches)
      /\ logits out = [1; 5; 32000]%N /\ aux_loss out = None)
  /\ Forward scenario_config [1; 5]%N None None None (Some true)
     = inl (AttributeError "num_experts").
Proof.
  split.
  - eexists; eexists. split; [vm_compute; reflexivity |]. split; reflexivity.
  - vm_compute. reflexivity.
Qed.

(** ** The sparse routing block *)

Lemma custom_index_add_without_index_add_id final top_x idx cur :
  custom_index_add_without_index_add final top_x idx cur = final.
Proof.
  unfold custom_index_add_without_index_add.
  induction (seq 0 (length top_x)) as [| i l IH]; simpl; auto.
Qed.

Lemma chunks_repeat A (x : A) (n : nat) :
  forall count, chunks n count (repeat x (count * n)) = repeat (repeat x n) count.
Proof.
  induction count as [| c IH]; simpl; [reflexivity |].
  rewrite repeat_app, firstn_app, skipn_app, repeat_length.
  rewrite Nat.sub_diag, firstn_all2, skipn_all2 by (rewrite repeat_length; lia).
  simpl. rewrite app_nil_r, IH. reflexivity.
Qed.

(** A loop that threads an error and otherwise keeps its state. *)
Lemma fold_left_keeps A B (F : result A -> B -> result A) (z : A) :
  (forall err x, exists err', F (inl err) x = inl err') ->
  (forall x, (exists err, F (inr z) x = inl err) \/ F (inr z) x = inr z) ->
  forall (l : list B) (acc : result A),
    (exists err, acc = inl err) \/ acc = inr z ->
    forall r, fold_left F l acc = inr r -> r = z.
Proof.
  intros Herr Hkeep. induction l as [| x l IH]; intros acc Hacc r Hfold.
  - cbn [fold_left] in Hfold. destruct Hacc as [(err & ->) | ->];
      [discriminate | congruence].
  - cbn [fold_left] in Hfold. refine (IH _ _ r Hfold).
    destruct Hacc as [(err & ->) | ->].
    + left. apply Herr.
    + apply Hkeep.
Qed.

Lemma fold_left_returns A B (F : result A -> B -> result A) (z : A) :
  (forall x, F (inr z) x = inr z) ->
  forall l : list B, fold_left F l (inr z) = inr z.
Proof.
  intros H. induction l as [| x l IH]; [reflexivity |].
  cbn [fold_left]. rewrite H. exact IH.
Qed.

(** Whatever the experts, the routing weights and the hidden states, the
    expert collection returns the zero array it starts from, when it
    returns. *)
Lemma FlaxMixtralBlocKSparesTop2MLPCollection_zero
    act_fn isz hsz layers expert_mask hidden routing b s d out :
  FlaxMixtralBlocKSparesTop2MLPCollection
    act_fn isz hsz layers expert_mask hidden routing b s d
  = inr out ->
  out = repeat (repeat (repeat 0%Q d) s) b.
Proof.
  unfold FlaxMixtralBlocKSparesTop2MLPCollection.
  intros H. apply bind_ret_inv in H as (final & Hf & H).
  apply fold_left_keeps with (z := jnp_zeros2 (b * s) d) in Hf.
  - subst final. inversion H. unfold jnp_zeros2. apply chunks_repeat.
  - intros err [e p]. eexists. reflexivity.
  - intros [e p]. cbn [bind ret].
    destruct (jnp_nonzero (nth e expert_mask []) (length hidden)) as [idx top_x].
    destruct (Nat.eqb _ 0); [right; reflexivity |].
    destruct (gather2 routing _ idx) as [err | w]; cbn [bind ret].
    + left. eexists. reflexivity.
    + right. rewrite custom_index_add_without_index_add_id. reflexivity.
  - right. reflexivity.
Qed.

(** The expert collection returns when the routing weights it gathers from
    have no empty axis, or when there is no token. *)
Lemma FlaxMixtralBlocKSparesTop2MLPCollection_returns
    act_fn isz hsz layers expert_mask hidden routing b s d :
  (hidden = [] \/ (routing <> [] /\ hd [] routing <> [])) ->
  FlaxMixtralBlocKSparesTop2MLPCollection
    act_fn isz hsz layers expert_mask hidden routing b s d
  = inr (repeat (repeat (repeat 0%Q d) s) b).
Proof.
  intros Hok. unfold FlaxMixtralBlocKSparesTop2MLPCollection.
  unfold ret at 3. rewrite fold_left_returns.
  - cbn [bind ret]. unfold jnp_zeros2. rewrite chunks_repeat. reflexivity.
  - intros [e p]. cbn [bind ret].
    destruct Hok as [-> | [Hr Hh]].
    + reflexivity.
    + destruct (jnp_nonzero (nth e expert_mask []) (length hidden))
        as [idx top_x].
      destruct (Nat.eqb _ 0); [reflexivity |].
      unfold gather2.
      assert (Hc : (Nat.eqb (length routing) 0
                    || Nat.eqb (length (hd [] routing)) 0)%bool = false).
      { destruct routing as [| r routing]; [congruence |].
        destruct r; [cbn [hd] in Hh; congruence | reflexivity]. }
      rewrite Hc. cbn [andb bind ret].
      rewrite custom_index_add_without_index_add_id. reflexivity.
Qed.

Lemma FlaxMixtralSparseMoeBlock_zero
    exp astype act_fn isz hsz E k gate experts b s d hidden out logits :
  FlaxMixtralSparseMoeBlock exp astype act_fn isz hsz E k gate experts b s d
                            hidden
  = inr (out, logits) ->
  out = repeat (repeat (repeat 0%Q d) s) b.
Proof.
  unfold FlaxMixtralSparseMoeBlock. intros H.
  apply bind_ret_inv in H as ([w sel] & _ & H).
  apply bind_ret_inv in H as (final & Hc & H).
  apply FlaxMixtralBlocKSparesTop2MLPCollection_zero in Hc.
  inversion H. subst. reflexivity.
Qed.

(** C1.  On two tokens with hidden states [1] and [2], both routed with
    weight 1 to an expert that maps [x] to [relu(x) * x], the weighted sum of
    the expert outputs is [1] and [4]; the routing block returns [0] and [0].
    The scatter-accumulate builds each updated array and drops it, so the
    output stays the zero array it starts from
    ([FlaxMixtralSparseMoeBlock_zero]). *)
Theorem moe_block_returns_zeros :
  FlaxMixtralSparseMoeBlock rexp round_bf16 relu 1 1 2 1 two_expert_gate
                            [unit_expert; zero_expert] 1 2 1 two_tokens
  = inr ([[[0%Q]; [0%Q]]], [[1%Q; (-1)%Q]; [2%Q; (-2)%Q]])
  /\ exists expected,
       full_capacity_moe_output rexp relu 1 1 2 1 two_expert_gate
                                [unit_expert; zero_expert] 1 2 1 two_tokens
       = inr expected
       /\ Forall2 mat_eq expected [[[1%Q]; [4%Q]]].
Proof.
  split; [vm_compute; reflexivity |].
  eexists. split; [vm_compute; reflexivity |].
  repeat constructor.
Qed.

(** ** Sums of rationals *)

Lemma Qsum_app l1 l2 : (Qsum (l1 ++ l2) == Qsum l1 + Qsum l2)%Q.
Proof.
  induction l1 as [| x l1 IH]; simpl; [ring | rewrite IH; ring].
Qed.

Lemma Qsum_map_div A (g : A -> Q) (c : Q) (l : list A) :
  (Qsum (map (fun a => g a / c) l) == Qsum (map g l) / c)%Q.
Proof.
  induction l as [| x l IH]; simpl.
  - unfold Qdiv. ring.
  - rewrite IH. unfold Qdiv. ring.
Qed.

Lemma Qsum_map_mul A (g : A -> Q) (c : Q) (l : list A) :
  (Qsum (map (fun a => g a * c) l) == Qsum (map g l) * c)%Q.
Proof.
  induction l as [| x l IH]; simpl; [ring | rewrite IH; ring].
Qed.

Lemma Qsum_pos A (g : A -> Q) (l : list A) :
  (forall a, 0 < g a)%Q -> l <> [] -> (0 < Qsum (map g l))%Q.
Proof.
  intros Hg. induction l as [| x l IH]; intros Hne; [congruence |].
  simpl. destruct l as [| y l].
  - simpl. specialize (Hg x). lra.
  - assert (0 < Qsum (map g (y :: l)))%Q by (apply IH; discriminate).
    specialize (Hg x). lra.
Qed.

Lemma Qsum_repeat (x : Q) (n : nat) : (Qsum (repeat x n) == nq n * x)%Q.
Proof.
  induction n as [| n IH].
  - simpl. unfold nq. simpl. ring.
  - change (repeat x (S n)) with (x :: repeat x n). simpl Qsum. rewrite IH.
    unfold nq. rewrite Nat2Z.inj_succ, <- Z.add_1_r, inject_Z_plus. ring.
Qed.

Lemma nq_pos n : (0 < n)%nat -> (0 < nq n)%Q.
Proof.
  intros H. unfold nq. change 0%Q with (inject_Z 0).
  rewrite <- Zlt_Qlt. lia.
Qed.

(** ** [jax.lax.top_k] *)

Section OrderPreserving.

Variable f : Q -> Q.
Hypothesis f_order : forall a b, Qle_bool (f a) (f b) = Qle_bool a b.



End OrderPreserving.




Lemma insert_desc_perm x l : Permutation (insert_desc x l) (x :: l).
Proof.
  induction l as [| y l IH]; simpl; [reflexivity |].
  destruct (Qle_bool (fst y) (fst x)); [reflexivity |].
  rewrite IH. apply perm_swap.
Qed.

Lemma sort_desc_perm l : Permutation (sort_desc l) l.
Proof.
  induction l as [| x l IH]; simpl; [reflexivity |].
  rewrite insert_desc_perm. now constructor.
Qed.

Lemma enumerate_snd l : map snd (enumerate l) = seq 0 (length l).
Proof.
  unfold enumerate. generalize 0%nat.
  induction l as [| x l IH]; intros n; simpl; [reflexivity |].
  rewrite IH. reflexivity.
Qed.

Lemma In_firstn A (x : A) n : forall l, In x (firstn n l) -> In x l.
Proof.
  induction n as [| n IH]; intros [| y l]; simpl; try tauto.
  intros [H | H]; auto.
Qed.

Lemma NoDup_firstn A (l : list A) n : NoDup l -> NoDup (firstn n l).
Proof.
  intros H. revert n. induction H as [| x l Hx H IH]; intros [| n]; simpl;
    try constructor; auto.
  intros Hin. apply Hx. eapply In_firstn; eauto.
Qed.

(** What [jax.lax.top_k] returns for [k] within the axis: [k] values and
    [k] pairwise distinct indices into the operand. *)
Lemma lax_top_k_spec l k :
  (k <= length l)%nat ->
  exists v idx,
    lax_top_k l k = inr (v, idx)
    /\ length v = k /\ length idx = k
    /\ NoDup idx
    /\ Forall (fun i => (i < length l)%nat) idx.
Proof.
  intros Hk. unfold lax_top_k.
  destruct (Nat.leb_spec k (length l)); [| lia].
  eexists; eexists. split; [reflexivity |].
  assert (Hlen : length (sort_desc (enumerate l)) = length l).
  { rewrite (Permutation_length (sort_desc_perm _)). unfold enumerate.
    rewrite length_combine, length_seq. lia. }
  assert (Hperm : Permutation (map snd (sort_desc (enumerate l)))
                              (seq 0 (length l))).
  { rewrite <- enumerate_snd. apply Permutation_map, sort_desc_perm. }
  rewrite !length_map, length_firstn, Hlen.
  repeat split; try lia.
  - rewrite <- firstn_map. apply NoDup_firstn.
    eapply Permutation_NoDup; [symmetry; exact Hperm | apply seq_NoDup].
  - rewrite <- firstn_map. apply Forall_forall. intros i Hi.
    apply In_firstn in Hi.
    apply (Permutation_in _ Hperm) in Hi. apply in_seq in Hi. lia.
Qed.

Lemma enumerate_fst l : map fst (enumerate l) = l.
Proof.
  unfold enumerate. generalize 0%nat.
  induction l as [| x l IH]; intros n; simpl; [reflexivity |].
  rewrite IH. reflexivity.
Qed.

Lemma lax_top_k_values_in l k v idx :
  lax_top_k l k = inr (v, idx) -> forall x, In x v -> In x l.
Proof.
  unfold lax_top_k. destruct (k <=? length l)%nat; [| discriminate].
  intros H x Hx. inversion H; subst; clear H.
  rewrite <- firstn_map in Hx. apply In_firstn in Hx.
  rewrite <- (enumerate_fst l).
  eapply Permutation_in; [| exact Hx].
  apply Permutation_map, sort_desc_perm.
Qed.

Lemma Qsum_pos_list (l : list Q) :
  l <> [] -> Forall (fun x => 0 < x)%Q l -> (0 < Qsum l)%Q.
Proof.
  intros Hne H. induction H as [| x l Hx H IH]; [congruence |].
  simpl. destruct l as [| y l]; simpl in *; [lra |].
  assert (0 < y + Qsum l)%Q by (apply IH; discriminate). lra.
Qed.


(** ** Routing weights *)

Section Routing.

Variable exp : Q -> Q.
Hypothesis exp_pos : forall x, (0 < exp x)%Q.
Hypothesis exp_le : forall x y, (exp x <= exp y <-> x <= y)%Q.

Lemma softmax_as_map x :
  softmax exp x = map (fun v => exp v / Qsum (map exp x))%Q x.
Proof. unfold softmax. rewrite map_map. reflexivity. Qed.

Lemma softmax_entries_pos x : Forall (fun p => 0 < p)%Q (softmax exp x).
Proof.
  rewrite softmax_as_map. apply Forall_forall. intros p Hp.
  apply in_map_iff in Hp as (v & <- & Hv).
  assert (0 < Qsum (map exp x))%Q.
  { apply Qsum_pos; [assumption |]. intros ->. contradiction. }
  apply Qlt_shift_div_l; [assumption |]. rewrite Qmult_0_l. apply exp_pos.
Qed.





Lemma renormalize_sum w :
  w <> [] -> Forall (fun x => 0 < x)%Q w -> (Qsum (renormalize w) == 1)%Q.
Proof.
  intros Hne Hpos. unfold renormalize.
  pose proof (Qsum_pos_list Hne Hpos) as Hs.
  rewrite (Qsum_map_div (fun x => x)), map_id. field. lra.
Qed.

Lemma route_rows logits k E :
  Forall (fun r => length r = E) logits ->
  (k <= E)%nat ->
  exists rows,
    mapM (fun r => lax_top_k r k) (map (softmax exp) logits) = inr rows
    /\ length rows = length logits
    /\ Forall (fun p => length (fst p) = k
                        /\ Forall (fun x => 0 < x)%Q (fst p)
                        /\ length (snd p) = k
                        /\ NoDup (snd p)
                        /\ Forall (fun e => (e < E)%nat) (snd p)) rows.
Proof.
  intros Hlen Hk. induction Hlen as [| r logits Hr Hlen IH]; simpl.
  - exists []. repeat split; constructor.
  - destruct IH as (rows & -> & Hl & Hrows).
    assert (Hsl : length (softmax exp r) = E).
    { unfold softmax. rewrite !length_map. assumption. }
    destruct (@lax_top_k_spec (softmax exp r) k) as (v & idx & Htk & Hv & Hi & Hnd & Hlt);
      [lia |].
    rewrite Htk. simpl. eexists. split; [reflexivity |]. simpl.
    split; [lia |]. constructor; [| assumption]. simpl.
    repeat split; try assumption.
    + apply Forall_forall. intros x Hx.
      apply (lax_top_k_values_in _ _ Htk) in Hx.
      pose proof (softmax_entries_pos r) as Hp.
      rewrite Forall_forall in Hp. auto.
    + rewrite Hsl in Hlt. assumption.
Qed.

Lemma Dense_row_length E gate x : Forall (fun r => length r = E) (Dense E gate x).
Proof.
  unfold Dense. apply Forall_forall. intros r Hr.
  apply in_map_iff in Hr as (row & <- & _). rewrite length_map, length_seq.
  reflexivity.
Qed.

(** C4, amended.  In every forward pass of the routing block (router logits
    [gate(hidden_states)]), with a positive exponential, any cast [astype]
    and every top-k with 1 <= k <= num_experts, routing succeeds; for every
    token the k renormalised routing weights, as they are before the cast of
    line 691, sum to 1 in exact arithmetic (so they are within 1e-5 of 1);
    the weights handed to the experts are the images of these under the
    cast; and the k selected expert indices are pairwise distinct and lie in
    the expert set. *)
Theorem routing_weights_sum_to_one
    (astype : Q -> Q) (num_local_experts k : nat) (gate : mat) (tokens : mat) :
  (1 <= k <= num_local_experts)%nat ->
  exists routing_weights selected_experts,
    route_top_k exp (Dense num_local_experts gate tokens) k
    = inr (routing_weights, selected_experts)
    /\ routing_decision exp astype (Dense num_local_experts gate tokens) k
       = inr (map (map astype) routing_weights, selected_experts)
    /\ length routing_weights = length tokens
    /\ length selected_experts = length tokens
    /\ Forall (fun w => length w = k
                        /\ (Qsum w == 1)%Q
                        /\ (Qabs (Qsum w - 1) <= 1 # 100000)%Q)
              routing_weights
    /\ Forall (fun s => length s = k
                        /\ NoDup s
                        /\ Forall (fun e => (e < num_local_experts)%nat) s)
              selected_experts.
Proof.
  intros [Hk1 Hk].
  destruct (@route_rows (Dense num_local_experts gate tokens) k num_local_experts)
    as (rows & Hrows & Hl & Hall); [apply Dense_row_length | assumption |].
  unfold routing_decision, route_top_k, top_k_rows. rewrite Hrows.
  cbn [bind ret].
  eexists; eexists. split; [reflexivity |]. split; [reflexivity |].
  assert (Hd : length (Dense num_local_experts gate tokens) = length tokens)
    by (unfold Dense; apply length_map).
  rewrite !length_map. repeat split; try lia.
  - rewrite !Forall_map. eapply Forall_impl; [| exact Hall].
    intros [w s] (Hw & Hpos & _). cbn [fst snd] in *.
    assert (Hsum : (Qsum (renormalize w) == 1)%Q).
    { apply renormalize_sum; [| assumption]. intros ->. simpl in Hw. lia. }
    split; [| split].
    + unfold renormalize. rewrite length_map. assumption.
    + assumption.
    + apply (proj2 (Qabs_Qle_condition _ _)). split; lra.
  - rewrite Forall_map. eapply Forall_impl; [| exact Hall].
    intros [w s] (_ & _ & Hs & Hnd & Hlt). cbn [fst snd] in *. auto.
Qed.

End Routing.

(** ** The rational stand-in for [exp] satisfies the assumptions *)

Lemma rexp_pos x : (0 < rexp x)%Q.
Proof.
  unfold rexp. destruct (Qle_bool 0 x) eqn:E.
  - apply Qle_bool_iff in E. lra.
  - assert (x < 0)%Q.
    { apply Qnot_le_lt. intros H. apply Qle_bool_iff in H. congruence. }
    apply Qlt_shift_div_l; lra.
Qed.




(** C4, as stated, fails after the cast of line 691.  With three experts,
    top-3 routing and equal router logits (a zero gate kernel), every
    renormalised weight is 1/3; cast to [bfloat16], the default dtype of the
    hidden states, each becomes 171/512, and the three weights handed to the
    experts sum to 513/512, more than 1e-5 away from 1. *)
Lemma routing_weights_cast_sum_off :
  exists w,
    routing_decision rexp round_bf16 (Dense 3 [[0; 0; 0]]%Q [[1]]%Q) 3
    = inr ([w], [[0; 1; 2]]%nat)
    /\ w = [171 # 512; 171 # 512; 171 # 512]%Q
    /\ (Qsum w == 513 # 512)%Q
    /\ ~ (Qabs (Qsum w - 1) <= 1 # 100000)%Q.
Proof.
  eexists. split; [vm_compute; reflexivity |].
  split; [reflexivity |].
  split; [vm_compute; reflexivity |].
  vm_compute. intros H. apply H. reflexivity.
Qed.


Lemma routing_weights_sum_to_one_witness :
  (1 <= 2 <= 3)%nat
  /\ exists routing_weights selected_experts,
      route_top_k rexp (Dense 3 [[1; 0; 2]; [0; 1; 1]]%Q [[1; 2]; [3; 1]]%Q) 2
      = inr (routing_weights, selected_experts)
      /\ routing_decision rexp round_bf16
                          (Dense 3 [[1; 0; 2]; [0; 1; 1]]%Q [[1; 2]; [3; 1]]%Q) 2
         = inr (map (map round_bf16) routing_weights, selected_experts)
      /\ length routing_weights = 2%nat
      /\ length selected_experts = 2%nat
      /\ Forall (fun w => length w = 2%nat
                          /\ (Qsum w == 1)%Q
                          /\ (Qabs (Qsum w - 1) <= 1 # 100000)%Q)
                routing_weights
      /\ Forall (fun s => length s = 2%nat
                          /\ NoDup s
                          /\ Forall (fun e => (e < 3)%nat) s)
                selected_experts.
Proof.
  split; [lia |].
  apply (@routing_weights_sum_to_one rexp rexp_pos round_bf16 3 2
           [[1; 0; 2]; [0; 1; 1]]%Q [[1; 2]; [3; 1]]%Q).
  lia.
Defined.

(** ** The load-balancing loss *)

Lemma nq_mul a b : (nq (a * b) == nq a * nq b)%Q.
Proof. unfold nq. rewrite Nat2Z.inj_mul, inject_Z_mult. reflexivity. Qed.

Lemma Qsum_map_plus A (g h : A -> Q) (l : list A) :
  (Qsum (map (fun a => g a + h a) l) == Qsum (map g l) + Qsum (map h l))%Q.
Proof.
  induction l as [| x l IH]; simpl; [ring | rewrite IH; ring].
Qed.

Lemma Qsum_map_zero A (l : list A) : (Qsum (map (fun _ => 0) l) == 0)%Q.
Proof.
  induction l as [| x l IH]; simpl; [reflexivity | rewrite IH; ring].
Qed.

Lemma Qsum_map_const A (g : A -> Q) (c : Q) (l : list A) :
  (forall a, In a l -> g a == c)%Q -> (Qsum (map g l) == nq (length l) * c)%Q.
Proof.
  induction l as [| x l IH]; intros H.
  - simpl. unfold nq. simpl. ring.
  - simpl Qsum. rewrite IH by (intros; apply H; now right).
    rewrite (H x) by now left.
    simpl length. unfold nq. rewrite Nat2Z.inj_succ, <- Z.add_1_r, inject_Z_plus.
    ring.
Qed.

Lemma Qsum_concat (m : mat) : (Qsum (concat m) == Qsum (map Qsum m))%Q.
Proof.
  induction m as [| r m IH]; simpl; [reflexivity |].
  rewrite Qsum_app, IH. reflexivity.
Qed.

Lemma map_nth_seq (r : list Q) :
  map (fun e => nth e r 0%Q) (seq 0 (length r)) = r.
Proof.
  induction r as [| x r IH]; simpl; [reflexivity |].
  rewrite <- seq_shift, map_map. simpl. rewrite IH. reflexivity.
Qed.

(** Summing a matrix by columns or by rows gives the same total. *)
Lemma Qsum_columns (E : nat) (m : mat) :
  Forall (fun r => length r = E) m ->
  (Qsum (map (fun e => Qsum (column e m)) (seq 0 E)) == Qsum (map Qsum m))%Q.
Proof.
  induction 1 as [| r m Hr Hm IH]; simpl.
  - apply Qsum_map_zero.
  - rewrite (Qsum_map_plus (fun e => nth e r 0%Q) (fun e => Qsum (column e m))).
    rewrite IH, <- Hr, map_nth_seq. reflexivity.
Qed.

Lemma Qsum_one_hot_seq (i : nat) : forall n a,
  (Qsum (map (fun e => if Nat.eqb e i then 1 else 0) (seq a n))
   == if ((a <=? i) && (i <? a + n))%nat%bool then 1 else 0)%Q.
Proof.
  induction n as [| n IH]; intros a; simpl.
  - destruct (Nat.leb_spec a i), (Nat.ltb_spec i (a + 0)); simpl;
      reflexivity || lia.
  - rewrite IH.
    destruct (Nat.eqb_spec a i), (Nat.leb_spec (S a) i), (Nat.ltb_spec i (S a + n)),
      (Nat.leb_spec a i), (Nat.ltb_spec i (a + S n)); simpl; try lia;
      reflexivity || ring.
Qed.

Lemma Qsum_one_hot E i : (i < E)%nat -> (Qsum (one_hot E i) == 1)%Q.
Proof.
  intros H. unfold one_hot. rewrite Qsum_one_hot_seq.
  destruct (Nat.leb_spec 0 i), (Nat.ltb_spec i (0 + E)); simpl;
    reflexivity || lia.
Qed.

Lemma one_hot_length E i : length (one_hot E i) = E.
Proof. unfold one_hot. now rewrite length_map, length_seq. Qed.

Lemma max_axis_m2_singleton E r : length r = E -> max_axis_m2 E [r] = r.
Proof.
  intros <-. unfold max_axis_m2. simpl. apply map_nth_seq.
Qed.

Lemma map2_map_same A B C D (f : B -> C -> D) (g : A -> B) (h : A -> C) l :
  map2 f (map g l) (map h l) = map (fun a => f (g a) (h a)) l.
Proof. induction l as [| a l IH]; simpl; [reflexivity | now rewrite IH]. Qed.

Lemma top_k_rows_shape (a : mat) k E :
  Forall (fun r => length r = E) a ->
  (k <= E)%nat ->
  exists rows,
    mapM (fun r => lax_top_k r k) a = inr rows
    /\ length rows = length a
    /\ Forall (fun p => length (fst p) = k
                        /\ length (snd p) = k
                        /\ Forall (fun e => (e < E)%nat) (snd p)) rows.
Proof.
  intros Hlen Hk. induction Hlen as [| r a Hr Hlen IH]; simpl.
  - exists []. repeat split; constructor.
  - destruct IH as (rows & -> & Hl & Hrows).
    destruct (@lax_top_k_spec r k) as (v & idx & -> & Hv & Hi & _ & Hlt); [lia |].
    simpl. eexists. split; [reflexivity |]. simpl. split; [lia |].
    constructor; [| assumption]. simpl. rewrite Hr in Hlt. auto.
Qed.

Section Loss.

Variable exp : Q -> Q.
Hypothesis exp_pos : forall x, (0 < exp x)%Q.

Lemma softmax_sum v : v <> [] -> (Qsum (softmax exp v) == 1)%Q.
Proof.
  intros Hv. unfold softmax.
  assert (Hs : (0 < Qsum (map exp v))%Q) by (apply Qsum_pos; assumption).
  rewrite (Qsum_map_div (fun x => x)), map_id. field. lra.
Qed.

Lemma softmax_length v : length (softmax exp v) = length v.
Proof. unfold softmax. now rewrite !length_map. Qed.

(** The entries that one token contributes to the product of line 297 sum
    to [1 / k], whatever the logits. *)
Lemma token_row_sum E k (v : list Q) (sel : list nat) :
  (1 <= k)%nat -> length v = k -> length sel = k ->
  Forall (fun e => (e < E)%nat) sel ->
  (Qsum (map (fun x => x * jnp_mean (softmax exp v))
             (mean_axis_m2 E
                (map (fun s => max_axis_m2 E (map (one_hot E) s))
                     (map (fun i => [i]) sel))))
   == 1 / nq k)%Q.
Proof.
  intros Hk Hv Hsel Hlt.
  assert (Hkq : (0 < nq k)%Q) by (apply nq_pos; lia).
  rewrite map_map.
  rewrite (map_ext _ (one_hot E))
    by (intros i; simpl; apply max_axis_m2_singleton, one_hot_length).
  rewrite (Qsum_map_mul (fun x => x)), map_id.
  assert (Hmean : (jnp_mean (softmax exp v) == 1 / nq k)%Q).
  { unfold jnp_mean. rewrite softmax_length, Hv, softmax_sum; [reflexivity |].
    intros ->. simpl in Hv. lia. }
  rewrite Hmean.
  assert (Htp : (Qsum (mean_axis_m2 E (map (one_hot E) sel)) == 1)%Q).
  { unfold mean_axis_m2, jnp_mean.
    rewrite (map_ext _ (fun e => Qsum (column e (map (one_hot E) sel)) / nq k)%Q)
      by (intros e; unfold column; now rewrite !length_map, Hsel).
    rewrite Qsum_map_div, Qsum_columns
      by (apply Forall_forall; intros r Hr; apply in_map_iff in Hr as (i & <- & _);
          apply one_hot_length).
    rewrite map_map, (@Qsum_map_const _ _ 1%Q), Hsel.
    - field. lra.
    - intros i Hi. apply Qsum_one_hot. rewrite Forall_forall in Hlt. auto. }
  rewrite Htp. ring.
Qed.

(** The value of the loss: whatever the logits, [num_experts / top_k]. *)
Lemma jax_load_balancing_loss_func_value (logits : mat) (E k : nat) :
  logits <> [] ->
  Forall (fun r => length r = E) logits ->
  (1 <= k <= E)%nat ->
  exists v,
    jax_load_balancing_loss_func exp (GateArray logits) E k = inr v
    /\ (v == nq E / nq k)%Q.
Proof.
  intros Hne Hlen [Hk1 Hk].
  destruct (@top_k_rows_shape logits k E Hlen Hk) as (rows & Hrows & Hl & Hall).
  unfold jax_load_balancing_loss_func, loss_top_k, top_k_rows.
  rewrite Hrows. cbn [bind ret]. eexists. split; [reflexivity |].
  rewrite !map_map, map2_map_same.
  assert (HT : (0 < nq (length rows))%Q).
  { apply nq_pos. rewrite Hl. destruct logits; [congruence | simpl; lia]. }
  assert (HE : (0 < nq E)%Q) by (apply nq_pos; lia).
  assert (HK : (0 < nq k)%Q) by (apply nq_pos; lia).
  unfold mean_all, jnp_mean.
  assert (Hsum :
    (Qsum (concat (map (fun a : list Q * list nat =>
             map (fun x => x * (Qsum (softmax exp (fst a))
                                / nq (length (softmax exp (fst a)))))
               (mean_axis_m2 E
                  (map (fun s => max_axis_m2 E (map (one_hot E) s))
                       (map (fun i => [i]) (snd a))))) rows))
     == nq (length rows) * (1 / nq k))%Q).
  { rewrite Qsum_concat, map_map. apply Qsum_map_const.
    intros [v sel] Hin. rewrite Forall_forall in Hall.
    destruct (Hall _ Hin) as (Hv & Hs & Hlt). cbn [fst snd] in *.
    apply (@token_row_sum E k v sel Hk1 Hv Hs Hlt). }
  assert (Hsize :
    length (concat (map (fun a : list Q * list nat =>
             map (fun x => x * (Qsum (softmax exp (fst a))
                                / nq (length (softmax exp (fst a)))))
               (mean_axis_m2 E
                  (map (fun s => max_axis_m2 E (map (one_hot E) s))
                       (map (fun i => [i]) (snd a))))) rows))
    = (length rows * E)%nat).
  { clear. induction rows as [| a rows IH]; simpl; [reflexivity |].
    rewrite length_app, IH. unfold mean_axis_m2.
    rewrite !length_map, length_seq. reflexivity. }
  rewrite Hsum, Hsize, !nq_mul.
  change (E ^ 2)%nat with (E * (E * 1))%nat. rewrite !nq_mul.
  change (nq 1) with 1%Q. field. repeat split; lra.
Qed.

Lemma permute_experts_length p logits E :
  length p = E -> Forall (fun r => length r = E) (permute_experts p logits).
Proof.
  intros Hp. unfold permute_experts. apply Forall_forall. intros r Hr.
  apply in_map_iff in Hr as (row & <- & _). now rewrite length_map.
Qed.

(** C10.  For every non-empty router-logits array over [E] experts, every
    permutation [p] of the expert indices and every top-k with
    1 <= k <= E, the loss of the logits with their expert columns permuted
    by [p] equals the loss of the original logits. *)
Theorem load_balancing_loss_permutation_invariant
    (p : list nat) (logits : mat) (E k : nat) :
  Permutation p (seq 0 E) ->
  logits <> [] ->
  Forall (fun r => length r = E) logits ->
  (1 <= k <= E)%nat ->
  exists v v',
    jax_load_balancing_loss_func exp (GateArray logits) E k = inr v
    /\ jax_load_balancing_loss_func exp (GateArray (permute_experts p logits)) E k
       = inr v'
    /\ (v' == v)%Q.
Proof.
  intros Hp Hne Hlen Hk.
  destruct (@jax_load_balancing_loss_func_value logits E k Hne Hlen Hk)
    as (v & Hv & Ev).
  destruct (@jax_load_balancing_loss_func_value (permute_experts p logits) E k)
    as (v' & Hv' & Ev').
  - destruct logits; [congruence | discriminate].
  - apply permute_experts_length.
    rewrite (Permutation_length Hp). apply length_seq.
  - assumption.
  - exists v, v'. repeat split; try assumption. rewrite Ev, Ev'. reflexivity.
Qed.

End Loss.

Lemma load_balancing_loss_permutation_invariant_witness :
  exists v v',
    jax_load_balancing_loss_func rexp (GateArray [[1; 0; 3]; [0; 1; 1]]%Q) 3 2
    = inr v
    /\ jax_load_balancing_loss_func
         rexp (GateArray (permute_experts [2; 0; 1]%nat [[1; 0; 3]; [0; 1; 1]]%Q))
         3 2
       = inr v'
    /\ (v' == v)%Q.
Proof.
  apply (@load_balancing_loss_permutation_invariant rexp rexp_pos
           [2; 0; 1]%nat [[1; 0; 3]; [0; 1; 1]]%Q 3 2).
  - apply (Permutation_cons_app [0; 1]%nat []). reflexivity.
  - discriminate.
  - repeat constructor.
  - lia.
Defined.

(** C2.  With two experts and top-1 routing the function returns 2 both
    when the two tokens go to different experts and when they go to the same
    expert, while the loss worded by the specification is 1 in the first case
    and 2 in the second: the means are taken over the wrong axes (over the
    k slots of a token, not over the tokens), which makes the result the
    constant [num_experts / top_k] (see
    [jax_load_balancing_loss_func_value]). *)
Theorem load_balancing_loss_ignores_balance :
  (exists v c,
      jax_load_balancing_loss_func rexp (GateArray [[1; 0]; [0; 1]]%Q) 2 1 = inr v
      /\ claimed_load_balancing_loss rexp [[1; 0]; [0; 1]]%Q 2 1 = inr c
      /\ (v == 2)%Q /\ (c == 1)%Q)
  /\ (exists v c,
      jax_load_balancing_loss_func rexp (GateArray [[1; 0]; [1; 0]]%Q) 2 1 = inr v
      /\ claimed_load_balancing_loss rexp [[1; 0]; [1; 0]]%Q 2 1 = inr c
      /\ (v == 2)%Q /\ (c == 2)%Q).
Proof.
  split; eexists; eexists;
    (split; [vm_compute; reflexivity |]);
    (split; [vm_compute; reflexivity |]);
    split; reflexivity.
Qed.

(** ** The attention cache *)

Lemma map2_snd A B (xs : list A) (ys : list B) :
  length xs = length ys -> map2 (fun _ y => y) xs ys = ys.
Proof.
  revert ys. induction xs as [| x xs IH]; intros [| y ys] H; simpl in *;
    try reflexivity; try discriminate.
  rewrite IH by lia. reflexivity.
Qed.

Lemma map2_length A B C (f : A -> B -> C) (xs : list A) (ys : list B) :
  length xs = length ys -> length (map2 f xs ys) = length xs.
Proof.
  revert ys. induction xs as [| x xs IH]; intros [| y ys] H; simpl in *;
    try reflexivity; try discriminate.
  rewrite IH by lia. reflexivity.
Qed.

Lemma nth_map2 A B C (f : A -> B -> C) (da : A) (db : B) (dc : C) (n : nat) :
  forall (xs : list A) (ys : list B) i,
    length xs = n -> length ys = n -> (i < n)%nat ->
    nth i (map2 f xs ys) dc = f (nth i xs da) (nth i ys db).
Proof.
  revert n. intros n xs. revert n.
  induction xs as [| x xs IH]; intros n [| y ys] i Hx Hy Hi; simpl in *;
    try lia.
  destruct i as [| i]; [reflexivity |]. apply (IH (pred n)); lia.
Qed.

Lemma Forall_map2 A B C (f : A -> B -> C) (P : C -> Prop) :
  forall (xs : list A) (ys : list B),
    (forall x y, In (x, y) (combine xs ys) -> P (f x y)) ->
    Forall P (map2 f xs ys).
Proof.
  induction xs as [| x xs IH]; intros [| y ys] H; simpl; constructor.
  - apply H. now left.
  - apply IH. intros; apply H. now right.
Qed.

Lemma In_skipn A (x : A) n : forall l, In x (skipn n l) -> In x l.
Proof.
  induction n as [| n IH]; intros [| y l]; simpl; try tauto.
  intros H. right. auto.
Qed.

(** An update that replaces every entry it touches: where the update lands.
    [s] is the start after wrap-around and clamping. *)
Lemma dynamic_update_axis_replace A (inner : A -> A -> result A)
    (operand update : list A) (start : Z) :
  (length update <= length operand)%nat ->
  (forall x y, In x operand -> In y update -> inner x y = inr y) ->
  let d := Z.of_nat (length operand) in
  let start' := if (start <? 0)%Z then (start + d)%Z else start in
  let s := Z.to_nat (clamp 0 (d - Z.of_nat (length update)) start') in
  dynamic_update_axis inner operand update start
  = inr (firstn s operand ++ update ++ skipn (s + length update) operand).
Proof.
  intros Hlen Hinner d start' s. unfold dynamic_update_axis.
  destruct (Nat.leb_spec (length update) (length operand)); [| lia].
  fold d. fold start'. fold s.
  assert (Hs : (s + length update <= length operand)%nat).
  { subst s. unfold clamp. subst d. lia. }
  rewrite (@mapM2_ret _ _ _ (fun _ y => y)).
  - cbn [bind ret]. rewrite map2_snd; [reflexivity |].
    rewrite length_firstn, length_skipn. lia.
  - intros x y Hin. apply Hinner.
    + apply in_combine_l in Hin. apply In_firstn in Hin.
      eapply In_skipn. exact Hin.
    + apply in_combine_r in Hin. exact Hin.
Qed.

Lemma dynamic_update_axis_full A (inner : A -> A -> result A) (g : A -> A -> A)
    (operand update : list A) :
  length operand = length update ->
  (forall x y, In (x, y) (combine operand update) -> inner x y = inr (g x y)) ->
  dynamic_update_axis inner operand update 0 = inr (map2 g operand update).
Proof.
  intros Hlen Hinner. unfold dynamic_update_axis.
  destruct (Nat.leb_spec (length update) (length operand)); [| lia].
  change (0 <? 0)%Z with false. cbv iota.
  replace (Z.to_nat (clamp 0 (Z.of_nat (length operand) - Z.of_nat (length update)) 0))
    with 0%nat by (unfold clamp; lia).
  cbn [skipn firstn plus app].
  rewrite firstn_all2 by lia. rewrite skipn_all2 by lia.
  rewrite (@mapM2_ret _ _ _ g) by assumption.
  cbn [bind ret]. rewrite app_nil_r. reflexivity.
Qed.

Lemma dynamic_update_axis_full_replace A (inner : A -> A -> result A)
    (operand update : list A) :
  length operand = length update ->
  (forall x y, In x operand -> In y update -> inner x y = inr y) ->
  dynamic_update_axis inner operand update 0 = inr update.
Proof.
  intros Hlen Hinner.
  rewrite (@dynamic_update_axis_full _ _ (fun _ y => y)); try assumption.
  - rewrite map2_snd by assumption. reflexivity.
  - intros x y Hin. apply Hinner;
      [eapply in_combine_l | eapply in_combine_r]; exact Hin.
Qed.

(** [dynamic_update_slice] on a well-shaped cache and update. *)
Lemma dynamic_update_slice_shaped (c u : tensor4) (B ml n h d : nat) (index : Z) :
  has_shape4 c B ml h d -> has_shape4 u B n h d -> (n <= ml)%nat ->
  dynamic_update_slice c u index
  = inr (map2 (write_row (write_start ml n index)) c u).
Proof.
  intros [Hc Hcr] [Hu Hur] Hn. unfold dynamic_update_slice.
  apply dynamic_update_axis_full; [exact (eq_trans Hc (eq_sym Hu)) |].
  intros o r Hin.
  pose proof (in_combine_l _ _ _ _ Hin) as Ho.
  pose proof (in_combine_r _ _ _ _ Hin) as Hr.
  rewrite Forall_forall in Hcr, Hur.
  destruct (Hcr _ Ho) as [Hol Hom]. destruct (Hur _ Hr) as [Hrl Hrm].
  rewrite dynamic_update_axis_replace.
  - unfold write_row, write_start, mat in *. rewrite Hol, Hrl. reflexivity.
  - unfold mat in *. rewrite Hol, Hrl. exact Hn.
  - intros x y Hx Hy.
    rewrite Forall_forall in Hom, Hrm.
    destruct (Hom _ Hx) as [Hxl Hxv]. destruct (Hrm _ Hy) as [Hyl Hyv].
    apply dynamic_update_axis_full_replace;
      [exact (eq_trans Hxl (eq_sym Hyl)) |].
    intros a b Ha Hb.
    rewrite Forall_forall in Hxv, Hyv.
    destruct (Hxv _ Ha) as [Hal _]. destruct (Hyv _ Hb) as [Hbl _].
    apply dynamic_update_axis_full_replace;
      [exact (eq_trans Hal (eq_sym Hbl)) |].
    reflexivity.
Qed.

Lemma broadcast2_same_length A B C (f : A -> B -> result C) (g : A -> B -> C)
    (xs : list A) (ys : list B) :
  length xs = length ys ->
  (forall x y, In (x, y) (combine xs ys) -> f x y = inr (g x y)) ->
  broadcast2 f xs ys = inr (map2 g xs ys).
Proof.
  intros Hlen H. unfold broadcast2. rewrite Hlen, Nat.eqb_refl.
  now apply mapM2_ret.
Qed.

(** Two masks of the same shape are combined entry by entry. *)
Lemma combine_masks_shaped (a b : mask4) (B q kv : nat) :
  has_shape4 a B 1 q kv -> has_shape4 b B 1 q kv ->
  combine_masks a b = inr (map2 (map2 (map2 (map2 andb))) a b).
Proof.
  intros [Ha Har] [Hb Hbr]. unfold combine_masks.
  apply broadcast2_same_length; [exact (eq_trans Ha (eq_sym Hb)) |].
  intros x y Hin. rewrite Forall_forall in Har, Hbr.
  destruct (Har _ (in_combine_l _ _ _ _ Hin)) as [Hx Hxr].
  destruct (Hbr _ (in_combine_r _ _ _ _ Hin)) as [Hy Hyr].
  apply broadcast2_same_length; [exact (eq_trans Hx (eq_sym Hy)) |].
  intros x1 y1 Hin1. rewrite Forall_forall in Hxr, Hyr.
  destruct (Hxr _ (in_combine_l _ _ _ _ Hin1)) as [Hx1 Hxr1].
  destruct (Hyr _ (in_combine_r _ _ _ _ Hin1)) as [Hy1 Hyr1].
  apply broadcast2_same_length; [exact (eq_trans Hx1 (eq_sym Hy1)) |].
  intros x2 y2 Hin2. rewrite Forall_forall in Hxr1, Hyr1.
  destruct (Hxr1 _ (in_combine_l _ _ _ _ Hin2)) as [Hx2 _].
  destruct (Hyr1 _ (in_combine_r _ _ _ _ Hin2)) as [Hy2 _].
  apply broadcast2_same_length; [exact (eq_trans Hx2 (eq_sym Hy2)) |].
  reflexivity.
Qed.

Lemma nth_repeat_lt A (x d : A) n i : (i < n)%nat -> nth i (repeat x n) d = x.
Proof.
  revert i. induction n as [| n IH]; intros [| i] H; simpl; try lia; auto.
  apply IH. lia.
Qed.

Lemma nth_map_seq A (f : nat -> A) (d : A) n i :
  (i < n)%nat -> nth i (map f (seq 0 n)) d = f i.
Proof.
  intros H. rewrite (nth_indep _ d (f 0%nat)) by (now rewrite length_map, length_seq).
  rewrite map_nth, seq_nth by assumption. reflexivity.
Qed.

Lemma rows_of_nth A (P : A -> Prop) n (l : list A) i d :
  rows_of n P l -> (i < n)%nat -> P (nth i l d).
Proof.
  intros [Hl Hf] Hi. rewrite Forall_forall in Hf. apply Hf, nth_In. lia.
Qed.

(** The entries of the combination of two masks of the same shape. *)
Lemma entry_combined (a b : mask4) (B q kv : nat) (b0 i j : nat) :
  has_shape4 a B 1 q kv -> has_shape4 b B 1 q kv ->
  (b0 < B)%nat -> (i < q)%nat -> (j < kv)%nat ->
  entry (map2 (map2 (map2 (map2 andb))) a b) b0 i j
  = (entry a b0 i j && entry b b0 i j)%bool.
Proof.
  intros Ha Hb Hb0 Hi Hj. unfold entry.
  pose proof (@rows_of_nth _ _ _ _ b0 [] Ha Hb0) as Ha1.
  pose proof (@rows_of_nth _ _ _ _ b0 [] Hb Hb0) as Hb1.
  pose proof (@rows_of_nth _ _ _ _ 0 [] Ha1 (Nat.lt_0_succ 0)) as Ha2.
  pose proof (@rows_of_nth _ _ _ _ 0 [] Hb1 (Nat.lt_0_succ 0)) as Hb2.
  pose proof (@rows_of_nth _ _ _ _ i [] Ha2 Hi) as Ha3.
  pose proof (@rows_of_nth _ _ _ _ i [] Hb2 Hi) as Hb3.
  destruct Ha as [La _], Hb as [Lb _], Ha1 as [La1 _], Hb1 as [Lb1 _],
    Ha2 as [La2 _], Hb2 as [Lb2 _], Ha3 as [La3 _], Hb3 as [Lb3 _].
  rewrite (@nth_map2 _ _ _ _ [] [] [] B _ _ _ La Lb Hb0).
  rewrite (@nth_map2 _ _ _ _ [] [] [] 1%nat _ _ _ La1 Lb1 (Nat.lt_0_succ 0)).
  rewrite (@nth_map2 _ _ _ _ [] [] [] q _ _ _ La2 Lb2 Hi).
  rewrite (@nth_map2 _ _ _ _ false false false kv _ _ _ La3 Lb3 Hj).
  reflexivity.
Qed.

Lemma pad_mask_shape B n ml index : has_shape4 (pad_mask_of B n ml index) B 1 n ml.
Proof.
  unfold pad_mask_of, has_shape4, rows_of.
  split; [apply repeat_length |]. apply Forall_forall. intros x Hx.
  apply repeat_spec in Hx. subst x. split; [reflexivity |].
  constructor; [| constructor]. split; [apply repeat_length |].
  apply Forall_forall. intros y Hy. apply repeat_spec in Hy. subst y.
  split; [now rewrite length_map, length_seq |].
  apply Forall_forall. auto.
Qed.

Lemma pad_mask_entry B n ml index b i j :
  (b < B)%nat -> (i < n)%nat -> (j < ml)%nat ->
  entry (pad_mask_of B n ml index) b i j = (Z.of_nat j <? index)%Z.
Proof.
  intros Hb Hi Hj. unfold entry, pad_mask_of.
  rewrite nth_repeat_lt by assumption. simpl nth at 3.
  rewrite nth_repeat_lt by assumption.
  apply (nth_map_seq (fun j => (Z.of_nat j <? index)%Z)). assumption.
Qed.

Lemma write_start_fits ml n index :
  (n <= ml)%nat -> (write_start ml n index + n <= ml)%nat.
Proof. intros H. unfold write_start, clamp. lia. Qed.

Lemma write_start_nonneg ml n index :
  (n <= ml)%nat -> (0 <= index)%Z ->
  write_start ml n index = Z.to_nat (Z.min index (Z.of_nat ml - Z.of_nat n)).
Proof.
  intros H Hi. unfold write_start, clamp.
  destruct (Z.ltb_spec index 0); lia.
Qed.

Lemma write_row_length s (o u : list mat) :
  (s + length u <= length o)%nat -> length (write_row s o u) = length o.
Proof.
  intros H. unfold write_row.
  rewrite !length_app, length_firstn, length_skipn. lia.
Qed.

Lemma write_row_nth s (o u : list mat) j :
  (s + length u <= length o)%nat ->
  nth j (write_row s o u) []
  = if ((s <=? j) && (j <? s + length u))%nat%bool
    then nth (j - s) u [] else nth j o [].
Proof.
  intros H. unfold write_row.
  assert (Hf : length (firstn s o) = s) by (rewrite length_firstn; lia).
  destruct (Nat.leb_spec s j) as [Hsj | Hsj]; simpl.
  - rewrite app_nth2 by lia. rewrite Hf.
    destruct (Nat.ltb_spec j (s + length u)) as [Hju | Hju].
    + rewrite app_nth1 by lia. reflexivity.
    + rewrite app_nth2 by lia. rewrite nth_skipn. f_equal. lia.
  - rewrite app_nth1 by lia. rewrite nth_firstn.
    destruct (Nat.ltb_spec j s); [reflexivity | lia].
Qed.

Lemma write_row_Forall (P : mat -> Prop) s (o u : list mat) :
  Forall P o -> Forall P u -> Forall P (write_row s o u).
Proof.
  intros Ho Hu. unfold write_row. rewrite !Forall_app. repeat split.
  - rewrite Forall_forall in *. intros x Hx. apply Ho. eapply In_firstn; eauto.
  - assumption.
  - rewrite Forall_forall in *. intros x Hx. apply Ho. eapply In_skipn; eauto.
Qed.

(** The cache after a write keeps its shape. *)
Lemma written_shape (c u : tensor4) (B ml n h d s : nat) :
  has_shape4 c B ml h d -> has_shape4 u B n h d -> (s + n <= ml)%nat ->
  has_shape4 (map2 (write_row s) c u) B ml h d.
Proof.
  intros [Hc Hcr] [Hu Hur] Hs. split.
  - rewrite map2_length; [exact Hc | exact (eq_trans Hc (eq_sym Hu))].
  - apply Forall_map2. intros o r Hin. rewrite Forall_forall in Hcr, Hur.
    destruct (Hcr _ (in_combine_l _ _ _ _ Hin)) as [Ho Hor].
    destruct (Hur _ (in_combine_r _ _ _ _ Hin)) as [Hr Hrr].
    split.
    + unfold mat in *. rewrite write_row_length; [exact Ho |].
      unfold mat in *. rewrite Ho, Hr. exact Hs.
    + apply write_row_Forall; assumption.
Qed.

(** The slots of the cache after a write at start [s]. *)
Lemma written_slot (c u : tensor4) (B ml n h d s b j : nat) :
  has_shape4 c B ml h d -> has_shape4 u B n h d -> (s + n <= ml)%nat ->
  (b < B)%nat ->
  slot (map2 (write_row s) c u) b j
  = if ((s <=? j) && (j <? s + n))%nat%bool
    then slot u b (j - s) else slot c b j.
Proof.
  intros Hc Hu Hs Hb. unfold slot.
  pose proof (@rows_of_nth _ _ _ _ b [] Hc Hb) as [Ho _].
  pose proof (@rows_of_nth _ _ _ _ b [] Hu Hb) as [Hr _].
  destruct Hc as [Lc _], Hu as [Lu _].
  rewrite (@nth_map2 _ _ _ _ [] [] [] B _ _ _ Lc Lu Hb).
  unfold mat in *. rewrite write_row_nth by (unfold mat in *; rewrite Ho, Hr; exact Hs).
  unfold mat in *. rewrite Hr. reflexivity.
Qed.

(** What a cached call of [concatenate_to_cache_] returns on well-shaped
    arguments: both storages written at the clamped start, the cursor
    advanced, the mask combined with the pad mask of the new cursor. *)
Lemma concatenate_to_cache_shaped
    (cache : Cache) (query key value : tensor4) (attention_mask : mask4)
    (B ml n h d hq : nat) :
  (1 <= B)%nat ->
  has_shape4 (key_cache cache) B ml h d ->
  has_shape4 (value_cache cache) B ml h d ->
  has_shape4 query B n hq d ->
  has_shape4 key B n h d ->
  has_shape4 value B n h d ->
  has_shape4 attention_mask B 1 n ml ->
  (n <= ml)%nat ->
  let index := int32_wrap (index_cache cache + Z.of_nat n) in
  let s := write_start ml n (index_cache cache) in
  concatenate_to_cache_ (Some cache) query key value (Mask4 attention_mask)
  = inr ((query,
          map2 (write_row s) (key_cache cache) key,
          map2 (write_row s) (value_cache cache) value,
          Mask4 (map2 (map2 (map2 (map2 andb))) (pad_mask_of B n ml index)
                      attention_mask)),
         {| key_cache := map2 (write_row s) (key_cache cache) key;
            value_cache := map2 (write_row s) (value_cache cache) value;
            index_cache := index |}).
Proof.
  intros HB Hkc Hvc Hq Hk Hv Hm Hn index s.
  unfold concatenate_to_cache_.
  rewrite (dynamic_update_slice_shaped (index_cache cache) Hkc Hk Hn).
  rewrite (dynamic_update_slice_shaped (index_cache cache) Hvc Hv Hn).
  cbn [bind ret].
  assert (Hml : length (hd [] (key_cache cache)) = ml).
  { destruct Hkc as [Lc Hc]. destruct (key_cache cache) as [| r rest];
      [simpl in Lc; lia |]. inversion Hc as [| ? ? [Hr _] _]. exact Hr. }
  assert (Hnq : length (hd [] query) = n).
  { destruct Hq as [Lq Hqr]. destruct query as [| r rest];
      [simpl in Lq; lia |]. inversion Hqr as [| ? ? [Hr _] _]. exact Hr. }
  assert (HBl : length (key_cache cache) = B) by (destruct Hkc; assumption).
  rewrite Hml, Hnq, HBl. fold index. fold (pad_mask_of B n ml index).
  rewrite (combine_masks_shaped (pad_mask_shape B n ml index) Hm).
  reflexivity.
Qed.

Lemma int32_wrap_small z : (0 <= z < 2 ^ 31)%Z -> int32_wrap z = z.
Proof.
  intros H. unfold int32_wrap.
  rewrite Z.mod_small by (change (2 ^ 32)%Z with (2 ^ 31 + 2 ^ 31)%Z; lia).
  lia.
Qed.

Ltac shape4 :=
  unfold has_shape4, rows_of; simpl; repeat (split || constructor).

(** C5.  The decoding scenario, run on the code.  [init_cache] for batch 1
    and length 8 gives both layers a cursor of 0.  The first single-token
    Forward call with that cache fails with [AssertionError], with the mask
    that Forward builds by default and with the mask of shape [(1, 8)] that
    [prepare_inputs_for_generation] builds: [concatenate_to_cache_] is
    called (lines 454-455) before the mask is expanded (lines 470-471), so
    line 391 combines the rank-4 pad mask with a rank-2 mask.  With a mask
    that the caller has expanded to rank 4 the module advances both cursors
    to 1, and Forward then fails with [TypeError] at line 1073, so that no
    cache is returned for a second call.  On a rank-4 mask
    [concatenate_to_cache_] itself does what is claimed: the cursor is 0,
    then 1, then 2, and the mask of the second call, also after the causal
    mask, has exactly 2 valid positions. *)
Theorem cached_decoding_scenario_fails :
  let layer index :=
    {| key_shape := [1; 8; 4; 16]%N; value_shape := [1; 8; 4; 16]%N;
       index_value := index |} in
  init_cache_shapes scenario_config 1 8 = inr [layer 0%Z; layer 0%Z]
  /\ Forward scenario_config [1; 1]%N None (Some [1; 1]%N)
             (Some [layer 0%Z; layer 0%Z]) None
     = inl AssertionError
  /\ Forward scenario_config [1; 1]%N (Some [1; 8]%N) (Some [1; 1]%N)
             (Some [layer 0%Z; layer 0%Z]) None
     = inl AssertionError
  /\ (exists out,
        FlaxMixtralForCausalLMModule_call
          scenario_config (Some [1; 1]%N) [1; 1; 1; 8]%N None false false None
          false (Some [layer 0%Z; layer 0%Z])
        = inr (out, [Some (layer 1%Z); Some (layer 1%Z)]))
  /\ Forward scenario_config [1; 1]%N (Some [1; 1; 1; 8]%N) (Some [1; 1]%N)
             (Some [layer 0%Z; layer 0%Z]) None
     = inl TypeError
  /\ (exists c0 c1 c2 k1 v1 m1 k2 v2 m2 effective,
        init_cache scenario_config 1 8 = inr [c0; c0]
        /\ index_cache c0 = 0%Z
        /\ concatenate_to_cache_ (Some c0) first_token first_token first_token
                                 (Mask2 [repeat true 8])
           = inl AssertionError
        /\ concatenate_to_cache_ (Some c0) first_token first_token first_token
                                 (Mask4 all_valid_mask)
           = inr ((first_token, k1, v1, Mask4 m1), c1)
        /\ index_cache c1 = 1%Z
        /\ concatenate_to_cache_ (Some c1) second_token second_token
                                 second_token (Mask4 all_valid_mask)
           = inr ((second_token, k2, v2, Mask4 m2), c2)
        /\ index_cache c2 = 2%Z
        /\ count_valid m2 = 2%nat
        /\ cached_attention_mask 4096 c2 second_token m2 = inr effective
        /\ count_valid effective = 2%nat).
Proof.
  cbv zeta.
  split; [vm_compute; reflexivity |].
  split; [vm_compute; reflexivity |].
  split; [vm_compute; reflexivity |].
  split; [eexists; vm_compute; reflexivity |].
  split; [vm_compute; reflexivity |].
  do 10 eexists.
  split; [vm_compute; reflexivity |].
  split; [reflexivity |].
  split; [vm_compute; reflexivity |].
  split; [vm_compute; reflexivity |].
  split; [reflexivity |].
  split; [vm_compute; reflexivity |].
  split; [reflexivity |].
  split; [vm_compute; reflexivity |].
  split; [vm_compute; reflexivity |].
  vm_compute; reflexivity.
Qed.

(** What [concatenate_to_cache_] does when it is given a mask of rank
    4: on well-shaped arguments (a batch [B >= 1], storages of shape
    [(B, length, h, d)], a query of shape [(B, n, hq, d)], new blocks of
    shape [(B, n, h, d)] with [n <= length], a mask of shape
    [(B, 1, n, length)]) and a cursor with [0 <= cursor] and
    [cursor + n < 2^31], the call succeeds; the storages keep their shape
    (the update is written in place, nothing is appended); the new key and
    value blocks occupy the [n] slots from the start
    [min(cursor, length - n)], which is the cursor whenever
    [cursor + n <= length], and the other slots are unchanged; the cursor
    advances by exactly [n]; and the returned mask is the supplied mask
    restricted to the slots of index strictly below the new cursor. *)
Theorem concatenate_to_cache_advances_cursor
    (cache : Cache) (query key value : tensor4) (attention_mask : mask4)
    (B ml n h d hq : nat) :
  (1 <= B)%nat ->
  has_shape4 (key_cache cache) B ml h d ->
  has_shape4 (value_cache cache) B ml h d ->
  has_shape4 query B n hq d ->
  has_shape4 key B n h d ->
  has_shape4 value B n h d ->
  has_shape4 attention_mask B 1 n ml ->
  (n <= ml)%nat ->
  (0 <= index_cache cache)%Z ->
  (index_cache cache + Z.of_nat n < 2 ^ 31)%Z ->
  let cursor := index_cache cache in
  let start := Z.to_nat (Z.min cursor (Z.of_nat ml - Z.of_nat n)) in
  exists key' value' mask',
    concatenate_to_cache_ (Some cache) query key value (Mask4 attention_mask)
    = inr ((query, key', value', Mask4 mask'),
           {| key_cache := key'; value_cache := value';
              index_cache := (cursor + Z.of_nat n)%Z |})
    /\ has_shape4 key' B ml h d
    /\ has_shape4 value' B ml h d
    /\ ((cursor + Z.of_nat n <= Z.of_nat ml)%Z -> start = Z.to_nat cursor)
    /\ (forall b j, (b < B)%nat ->
          slot key' b j
          = if ((start <=? j) && (j <? start + n))%nat%bool
            then slot key b (j - start) else slot (key_cache cache) b j)
    /\ (forall b j, (b < B)%nat ->
          slot value' b j
          = if ((start <=? j) && (j <? start + n))%nat%bool
            then slot value b (j - start) else slot (value_cache cache) b j)
    /\ (forall b i j, (b < B)%nat -> (i < n)%nat -> (j < ml)%nat ->
          entry mask' b i j
          = ((Z.of_nat j <? cursor + Z.of_nat n)%Z
             && entry attention_mask b i j)%bool).
Proof.
  intros HB Hkc Hvc Hq Hk Hv Hm Hn H0 H31 cursor start.
  pose proof (@concatenate_to_cache_shaped cache query key value attention_mask
                B ml n h d hq HB Hkc Hvc Hq Hk Hv Hm Hn) as H.
  cbv zeta in H. rewrite int32_wrap_small in H by (fold cursor; lia).
  rewrite (@write_start_nonneg ml n _ Hn H0) in H. fold cursor in H.
  fold start in H.
  assert (Hs : (start + n <= ml)%nat) by (subst start; lia).
  eexists; eexists; eexists. split; [exact H |].
  split; [exact (@written_shape _ _ B ml n h d start Hkc Hk Hs) |].
  split; [exact (@written_shape _ _ B ml n h d start Hvc Hv Hs) |].
  split; [subst start; lia |].
  split; [intros b j Hb;
          exact (@written_slot _ _ B ml n h d start b j Hkc Hk Hs Hb) |].
  split; [intros b j Hb;
          exact (@written_slot _ _ B ml n h d start b j Hvc Hv Hs Hb) |].
  intros b i j Hb Hi Hj.
  rewrite (@entry_combined _ _ B n ml b i j (pad_mask_shape B n ml _) Hm
             Hb Hi Hj).
  rewrite pad_mask_entry by assumption. reflexivity.
Qed.

Lemma concatenate_to_cache_advances_cursor_witness :
  exists key' value' mask',
    concatenate_to_cache_ (Some fresh_cache) overflow_token overflow_token
                          overflow_token (Mask4 [[[[true; true]]]])
    = inr ((overflow_token, key', value', Mask4 mask'),
           {| key_cache := key'; value_cache := value'; index_cache := 1%Z |})
    /\ slot key' 0 0 = [[9%Q]]
    /\ slot key' 0 1 = [[0%Q]]
    /\ entry mask' 0 0 0 = true
    /\ entry mask' 0 0 1 = false.
Proof.
  destruct (@concatenate_to_cache_advances_cursor
              fresh_cache overflow_token overflow_token overflow_token
              [[[[true; true]]]] 1%nat 2%nat 1%nat 1%nat 1%nat 1%nat)
    as (key' & value' & mask' & Hcall & _ & _ & _ & Hkey & _ & Hmask);
    try (shape4; fail); try (simpl; lia).
  exists key', value', mask'. split; [exact Hcall |].
  rewrite !Hkey, !Hmask by lia. repeat split; reflexivity.
Defined.

(** C6, as stated, fails: a cached call whose cursor (2) plus one new
    position exceeds the cache length (2) returns normally; the new block
    overwrites the last slot and the cursor becomes 3. *)
Lemma concatenate_to_cache_overflow_returns :
  (index_cache full_cache + 1 > 2)%Z
  /\ concatenate_to_cache_ (Some full_cache) overflow_token overflow_token
                           overflow_token (Mask4 [[[[true; true]]]])
     = inr ((overflow_token,
             [[ [[1%Q]]; [[9%Q]] ]],
             [[ [[3%Q]]; [[9%Q]] ]],
             Mask4 [[[[true; true]]]]),
            {| key_cache := [[ [[1%Q]]; [[9%Q]] ]];
               value_cache := [[ [[3%Q]]; [[9%Q]] ]];
               index_cache := 3 |}).
Proof. split; [reflexivity | vm_compute; reflexivity]. Qed.

(** C6, amended.  For every cached call of [concatenate_to_cache_] on
    well-shaped arguments (a batch [B >= 1], storages of shape
    [(B, length, h, d)], a query of shape [(B, n, hq, d)], new key and value
    blocks of shape [(B, n, h, d)] with [n <= length], a mask of rank 4 of
    the pad mask's shape [(B, 1, n, length)]) whose cursor is non-negative,
    with [cursor + n < 2^31], and overflows ([cursor + n > length]): the
    call does not fail; the storage keeps its shape, the new blocks
    overwrite the last [n] slots, the cursor still advances by [n], and
    every slot is marked valid by the pad mask, so the returned mask is the
    supplied one. *)
Theorem concatenate_to_cache_clamps_on_overflow
    (cache : Cache) (query key value : tensor4) (attention_mask : mask4)
    (B ml n h d hq : nat) :
  (1 <= B)%nat ->
  has_shape4 (key_cache cache) B ml h d ->
  has_shape4 (value_cache cache) B ml h d ->
  has_shape4 query B n hq d ->
  has_shape4 key B n h d ->
  has_shape4 value B n h d ->
  has_shape4 attention_mask B 1 n ml ->
  (n <= ml)%nat ->
  (0 <= index_cache cache)%Z ->
  (index_cache cache + Z.of_nat n < 2 ^ 31)%Z ->
  (Z.of_nat ml < index_cache cache + Z.of_nat n)%Z ->
  exists key' value' mask',
    concatenate_to_cache_ (Some cache) query key value (Mask4 attention_mask)
    = inr ((query, key', value', Mask4 mask'),
           {| key_cache := key'; value_cache := value';
              index_cache := (index_cache cache + Z.of_nat n)%Z |})
    /\ has_shape4 key' B ml h d
    /\ has_shape4 value' B ml h d
    /\ (forall b j, (b < B)%nat -> (j < ml)%nat ->
          slot key' b j
          = if (ml - n <=? j)%nat
            then slot key b (j - (ml - n)) else slot (key_cache cache) b j)
    /\ (forall b j, (b < B)%nat -> (j < ml)%nat ->
          slot value' b j
          = if (ml - n <=? j)%nat
            then slot value b (j - (ml - n)) else slot (value_cache cache) b j)
    /\ (forall b i j, (b < B)%nat -> (i < n)%nat -> (j < ml)%nat ->
          entry mask' b i j = entry attention_mask b i j).
Proof.
  intros HB Hkc Hvc Hq Hk Hv Hm Hn H0 H31 Hover.
  pose proof (@concatenate_to_cache_shaped cache query key value attention_mask
                B ml n h d hq HB Hkc Hvc Hq Hk Hv Hm Hn) as H.
  cbv zeta in H. rewrite int32_wrap_small in H by lia.
  rewrite (@write_start_nonneg ml n _ Hn H0) in H.
  replace (Z.to_nat (Z.min (index_cache cache) (Z.of_nat ml - Z.of_nat n)))
    with (ml - n)%nat in H by lia.
  assert (Hs : (ml - n + n <= ml)%nat) by lia.
  eexists; eexists; eexists. split; [exact H |].
  split; [exact (@written_shape _ _ B ml n h d (ml - n) Hkc Hk Hs) |].
  split; [exact (@written_shape _ _ B ml n h d (ml - n) Hvc Hv Hs) |].
  split; [| split].
  - intros b j Hb Hj.
    rewrite (@written_slot _ _ B ml n h d (ml - n) b j Hkc Hk Hs Hb).
    destruct (Nat.leb_spec (ml - n) j), (Nat.ltb_spec j (ml - n + n));
      simpl; reflexivity || lia.
  - intros b j Hb Hj.
    rewrite (@written_slot _ _ B ml n h d (ml - n) b j Hvc Hv Hs Hb).
    destruct (Nat.leb_spec (ml - n) j), (Nat.ltb_spec j (ml - n + n));
      simpl; reflexivity || lia.
  - intros b i j Hb Hi Hj.
    rewrite (@entry_combined _ _ B n ml b i j (pad_mask_shape B n ml _) Hm Hb Hi Hj).
    rewrite pad_mask_entry by assumption.
    destruct (Z.ltb_spec (Z.of_nat j) (index_cache cache + Z.of_nat n));
      [reflexivity | lia].
Qed.

Lemma concatenate_to_cache_clamps_on_overflow_witness :
  exists key' value' mask',
    concatenate_to_cache_ (Some full_cache) overflow_token overflow_token
                          overflow_token (Mask4 [[[[true; true]]]])
    = inr ((overflow_token, key', value', Mask4 mask'),
           {| key_cache := key'; value_cache := value'; index_cache := 3%Z |})
    /\ slot key' 0 0 = [[1%Q]]
    /\ slot key' 0 1 = [[9%Q]]
    /\ entry mask' 0 0 1 = true.
Proof.
  destruct (@concatenate_to_cache_clamps_on_overflow
              full_cache overflow_token overflow_token overflow_token
              [[[[true; true]]]] 1%nat 2%nat 1%nat 1%nat 1%nat 1%nat)
    as (key' & value' & mask' & Hcall & _ & _ & Hkey & _ & Hmask);
    try (shape4; fail); try (simpl; lia).
  exists key', value', mask'. split; [exact Hcall |].
  rewrite !Hkey, !Hmask by lia. repeat split; reflexivity.
Defined.

(** ** Cache initialisation *)

Lemma dim_nonneg z : (0 <= z)%Z -> dim z = inr (Z.to_N z).
Proof.
  intros H. unfold dim. destruct (Z.ltb_spec z 0); [lia | reflexivity].
Qed.

Lemma floordiv_nonzero a b : (b <> 0)%Z -> floordiv a b = inr (a / b)%Z.
Proof.
  intros H. unfold floordiv. destruct (Z.eqb_spec b 0); [contradiction | reflexivity].
Qed.

Lemma broadcast_shapes_same s : broadcast_shapes s s = inr s.
Proof.
  induction s as [| x s IH]; simpl; [reflexivity |].
  rewrite N.eqb_refl, IH. reflexivity.
Qed.

Lemma reshape_ok x new : size x = size new -> reshape x new = inr new.
Proof. intros H. unfold reshape. rewrite H, N.eqb_refl. reflexivity. Qed.

Lemma broadcast_to_mask b ml :
  broadcast_to [b; 1; 1; ml]%N [b; 1; ml; ml]%N = inr [b; 1; ml; ml]%N.
Proof.
  cbn [broadcast_to]. rewrite !N.eqb_refl. cbn [orb bind ret].
  rewrite orb_true_r. reflexivity.
Qed.

Lemma broadcast_shapes_heads b h ml :
  broadcast_shapes [b; h; ml; ml]%N [b; 1; ml; ml]%N = inr [b; h; ml; ml]%N.
Proof.
  cbn [broadcast_shapes]. rewrite !N.eqb_refl. cbn [bind ret].
  destruct (h =? 1)%N; reflexivity.
Qed.

Lemma FlaxMixtralSparseMoeBlock_shapes_ok
    (config : MixtralConfig) (b s d : N) :
  (1 <= num_experts_per_tok config <= num_local_experts config)%Z ->
  FlaxMixtralSparseMoeBlock_shapes config [b; s; d]
  = inr ([b; s; d], [(b * s)%N; Z.to_N (num_local_experts config)]).
Proof.
  intros Hk. unfold FlaxMixtralSparseMoeBlock_shapes.
  rewrite !dim_nonneg by lia. cbn [bind ret].
  assert (H1 : (Z.to_N (num_experts_per_tok config)
                <=? Z.to_N (num_local_experts config))%N = true)
    by (apply N.leb_le; lia).
  assert (H2 : (Z.to_N (num_experts_per_tok config) =? 0)%N = false)
    by (apply N.eqb_neq; lia).
  rewrite H1, H2. reflexivity.
Qed.

Lemma broadcast_to_too_long b s c :
  (c < s)%N -> (1 <= c)%N ->
  broadcast_to [b; 1; 1; s]%N [b; 1; c; c]%N = inl ValueError.
Proof.
  intros H1 H2. cbn [broadcast_to]. rewrite !N.eqb_refl.
  cbn [orb bind ret]. rewrite orb_true_r.
  destruct (N.eqb_spec s c); [lia |]. destruct (N.eqb_spec s 1); [lia |].
  reflexivity.
Qed.

(** The part of [FlaxMixtralAttention.__call__] up to the mask handling, on
    a configuration with positive head counts. *)
Ltac attention_start :=
  unfold FlaxMixtralAttention_call, FlaxMixtralAttention_setup, t_rotary;
  rewrite !floordiv_nonzero by lia;
  cbn [bind ret num_heads head_dim num_key_value_groups];
  rewrite !dim_nonneg by lia; cbn [bind ret];
  unfold Dense_shape, axis; cbn [removelast app nth];
  rewrite !reshape_ok by (cbn [size fold_right]; lia);
  cbn [bind ret transpose_0213 repeat_kv_bnsh orb nth length tl axis].

Lemma Embed_shape_ok (vocab features : N) (ids : shape) :
  (1 <= vocab)%N -> (1 <= features)%N ->
  Embed_shape vocab features ids = inr (ids ++ [features]).
Proof.
  intros Hv Hf. unfold Embed_shape.
  destruct (N.eqb_spec vocab 0); [lia |].
  destruct (N.eqb_spec features 0); [lia |]. reflexivity.
Qed.

(** The computing part of [FlaxMixtralModule.setup] and the embedding, on a
    configuration whose facts are in the context. *)
Ltac module_prelude :=
  unfold FlaxMixtralModule_call;
  rewrite floordiv_nonzero by lia;
  rewrite !dim_nonneg by lia; cbn [bind ret];
  rewrite Embed_shape_ok by lia; cbn [bind ret].

Lemma created_caches (c : CacheShape) n :
  concat (map (fun c : option CacheShape =>
                 match c with
                 | Some c => [c]
                 | None => []
                 end)
              (repeat (Some c) n))
  = repeat c n.
Proof.
  induction n as [| n IH]; [reflexivity |].
  cbn [repeat map concat app]. rewrite IH. reflexivity.
Qed.

Section InitCache.

Variable config : MixtralConfig.
Variables batch_size max_length : N.

Let heads := num_attention_heads config.
Let kv := num_key_value_heads config.
Let hidden := hidden_size config.

Hypothesis heads_pos : (0 < heads)%Z.
Hypothesis kv_pos : (0 < kv)%Z.
Hypothesis kv_divides : (kv * (heads / kv) = heads)%Z.
Hypothesis hidden_pos : (1 <= hidden)%Z.
Hypothesis heads_divide : (heads * (hidden / heads) = hidden)%Z.
Hypothesis vocab_pos : (1 <= vocab_size config)%Z.
Hypothesis top_k_fits :
  (1 <= num_experts_per_tok config <= num_local_experts config)%Z.
Hypothesis layers_pos : (1 <= num_hidden_layers config)%Z.
Hypothesis length_pos : (1 <= max_length)%N.
Hypothesis length_fits :
  (Z.of_N max_length <= c_max_position_embeddings config)%Z.

Let cache_shape : shape :=
  [batch_size; max_length; Z.to_N heads; Z.to_N (hidden / heads)].

Let layer_cache : CacheShape :=
  {| key_shape := cache_shape; value_shape := cache_shape; index_value := 0 |}.

Let hs_shape : shape := [batch_size; max_length; Z.to_N hidden].

Lemma head_dim_nonneg : (0 <= hidden / heads)%Z.
Proof. apply Z.div_pos; lia. Qed.

Lemma groups_nonneg : (0 <= heads / kv)%Z.
Proof. apply Z.div_pos; lia. Qed.

Lemma FlaxMixtralAttention_call_init :
  FlaxMixtralAttention_call config hs_shape [batch_size; max_length] None true
  = inr (hs_shape,
         [batch_size; Z.to_N heads; max_length; max_length],
         Some layer_cache).
Proof.
  pose proof head_dim_nonneg as Hhd. pose proof groups_nonneg as Hg.
  assert (Ekv : (Z.to_N kv * Z.to_N (heads / kv) = Z.to_N heads)%N).
  { rewrite <- Z2N.inj_mul by lia. f_equal. exact kv_divides. }
  assert (Ehd : (Z.to_N heads * Z.to_N (hidden / heads) = Z.to_N hidden)%N).
  { rewrite <- Z2N.inj_mul by lia. f_equal. exact heads_divide. }
  unfold FlaxMixtralAttention_call, FlaxMixtralAttention_setup, t_rotary.
  fold heads kv hidden.
  rewrite !floordiv_nonzero by lia. cbn [bind ret num_heads head_dim num_key_value_groups].
  rewrite !dim_nonneg by lia. cbn [bind ret].
  unfold hs_shape, Dense_shape, axis. cbn [removelast app nth].
  rewrite !reshape_ok by (cbn [size fold_right]; lia).
  cbn [bind ret transpose_0213 repeat_kv_bnsh orb concatenate_to_cache_shapes
       nth key_shape length tl axis].
  rewrite Ekv.
  assert (Hml : (max_length <=? Z.to_N (c_max_position_embeddings config))%N = true)
    by (apply N.leb_le; lia).
  unfold axis. cbn [nth]. rewrite Hml. cbn [andb bind ret tl length Nat.eqb].
  rewrite broadcast_to_mask. cbn [bind ret].
  unfold combine_masks_shape. cbn [length]. rewrite Nat.eqb_refl.
  rewrite broadcast_shapes_same. cbn [bind ret].
  rewrite !N.eqb_refl. cbn [andb negb].
  rewrite broadcast_shapes_heads. cbn [bind ret nth].
  assert (Hz : (max_length =? 0)%N = false) by (apply N.eqb_neq; lia).
  rewrite Hz. rewrite !N.eqb_refl. cbn [andb negb].
  rewrite reshape_ok by (cbn [size fold_right]; lia).
  cbn [bind ret removelast app]. reflexivity.
Qed.

Lemma FlaxMixtralDecoderLayer_call_init :
  FlaxMixtralDecoderLayer_call config hs_shape [batch_size; max_length] None true
  = inr (hs_shape,
         [batch_size; Z.to_N heads; max_length; max_length],
         [(batch_size * max_length)%N; Z.to_N (num_local_experts config)],
         Some layer_cache).
Proof.
  unfold FlaxMixtralDecoderLayer_call.
  rewrite FlaxMixtralAttention_call_init. cbn [bind ret].
  rewrite broadcast_shapes_same. cbn [bind ret].
  unfold hs_shape.
  rewrite FlaxMixtralSparseMoeBlock_shapes_ok by exact top_k_fits.
  cbn [bind ret]. fold hs_shape.
  rewrite broadcast_shapes_same. reflexivity.
Qed.

Lemma decoder_blocks_init ohs oat orl (layers : nat) :
  forall hs ats rl,
  exists hs' ats' rl',
    decoder_blocks config [batch_size; max_length] true ohs oat orl
                   (repeat None layers) hs_shape hs ats rl
    = inr (hs_shape, hs', ats', rl', repeat (Some layer_cache) layers).
Proof.
  induction layers as [| layers IH]; intros hs ats rl.
  - do 3 eexists. reflexivity.
  - cbn [repeat decoder_blocks].
    rewrite FlaxMixtralDecoderLayer_call_init. cbn [bind ret].
    edestruct IH as (hs' & ats' & rl' & ->). cbn [bind ret].
    do 3 eexists. reflexivity.
Qed.

Lemma cache_zeros_layer :
  cache_zeros layer_cache
  = {| key_cache := jnp_zeros4 (N.to_nat batch_size) (N.to_nat max_length)
                               (Z.to_nat heads) (Z.to_nat (hidden / heads));
       value_cache := jnp_zeros4 (N.to_nat batch_size) (N.to_nat max_length)
                                 (Z.to_nat heads) (Z.to_nat (hidden / heads));
       index_cache := 0 |}.
Proof.
  unfold cache_zeros, layer_cache, cache_shape, axis.
  cbn [key_shape value_shape index_value nth].
  rewrite !Z_N_nat. reflexivity.
Qed.

Lemma init_cache_shapes_layers :
  init_cache_shapes config batch_size max_length
  = inr (repeat layer_cache (Z.to_nat (num_hidden_layers config))).
Proof.
  unfold init_cache_shapes, FlaxMixtralForCausalLMModule_call,
    FlaxMixtralModule_call.
  fold hidden heads.
  rewrite floordiv_nonzero by lia.
  rewrite !dim_nonneg by (fold hidden; lia). cbn [bind ret].
  rewrite Embed_shape_ok by (fold hidden; lia). cbn [bind ret].
  unfold caches_of. cbn [app]. fold hs_shape.
  edestruct (decoder_blocks_init false false
               (output_router_logits_default config)
               (Z.to_nat (num_hidden_layers config)))
    as (hs' & ats' & rl' & ->).
  cbn [bind ret]. rewrite created_caches.
  destruct (Z.to_nat (num_hidden_layers config)) as [| layers] eqn:E; [lia |].
  reflexivity.
Qed.

Lemma init_cache_layers :
  init_cache config batch_size max_length
  = inr (repeat (cache_zeros layer_cache)
                (Z.to_nat (num_hidden_layers config))).
Proof.
  unfold init_cache. rewrite init_cache_shapes_layers. cbn [bind ret].
  rewrite map_repeat. reflexivity.
Qed.

End InitCache.

(** C7, as stated, fails: in the scenario configuration (4 query heads,
    2 key/value heads, head dimension 16) the cache created for batch 1 and
    length 8 stores 4 heads per slot, not 2. *)
Lemma init_cache_stores_four_heads :
  exists c,
    init_cache scenario_config 1 8 = inr [c; c]
    /\ num_key_value_heads scenario_config = 2%Z
    /\ shape4 (key_cache c) = [1; 8; 4; 16]%nat
    /\ shape4 (value_cache c) = [1; 8; 4; 16]%nat
    /\ shape4 (key_cache c) <> [1; 8; 2; 16]%nat
    /\ index_cache c = 0%Z.
Proof.
  eexists. split; [vm_compute; reflexivity |].
  repeat split; try reflexivity. discriminate.
Qed.

(** C7, amended.  For every configuration on which initialisation goes
    through ([well_formed]: positive head counts, key/value heads dividing
    the query heads, query heads dividing a positive [hidden_size], a
    non-empty vocabulary, between 1 and [num_local_experts] experts per
    token, a positive intermediate size) with at least one layer, and every
    [batch_size >= 1] and
    [1 <= max_length <= c_max_position_embeddings], [init_cache] returns for
    each layer an all-zero key storage and an all-zero value storage of shape
    [(batch_size, max_length, num_attention_heads, head_dim)] - the key/value
    heads are repeated up to the query head count before they are cached -
    and a cursor of 0. *)
Theorem init_cache_stores_query_heads
    (config : MixtralConfig) (batch_size max_length : N) :
  well_formed config ->
  (1 <= num_hidden_layers config)%Z ->
  (1 <= batch_size)%N ->
  (1 <= max_length)%N ->
  (Z.of_N max_length <= c_max_position_embeddings config)%Z ->
  let storage :=
    jnp_zeros4 (N.to_nat batch_size) (N.to_nat max_length)
               (Z.to_nat (num_attention_heads config))
               (Z.to_nat (hidden_size config / num_attention_heads config)) in
  init_cache config batch_size max_length
  = inr (repeat {| key_cache := storage; value_cache := storage;
                   index_cache := 0 |}
                (Z.to_nat (num_hidden_layers config))).
Proof.
  intros (H1 & H2 & H3 & H4 & H5 & H6 & H7 & _) HL _ Hm Hc storage.
  rewrite (@init_cache_layers config batch_size max_length
             H1 H2 H3 H4 H5 H6 H7 HL Hm Hc).
  rewrite cache_zeros_layer. reflexivity.
Qed.

Lemma well_formed_scenario : well_formed scenario_config.
Proof. unfold well_formed; simpl; repeat split; try reflexivity; lia. Qed.

Lemma init_cache_stores_query_heads_witness :
  init_cache scenario_config 1 8
  = inr (repeat {| key_cache := jnp_zeros4 1 8 4 16;
                   value_cache := jnp_zeros4 1 8 4 16;
                   index_cache := 0 |} 2).
Proof.
  apply (@init_cache_stores_query_heads scenario_config 1 8);
    [exact well_formed_scenario | simpl; lia ..].
Defined.

(** ** Construction *)

Lemma dim_inv z n : dim z = inr n -> (0 <= z)%Z /\ n = Z.to_N z.
Proof.
  unfold dim. destruct (Z.ltb_spec z 0) as [Hz | Hz]; intros E;
    [discriminate |].
  inversion E. split; [assumption | reflexivity].
Qed.

Lemma floordiv_inv a b q : floordiv a b = inr q -> (b <> 0)%Z /\ q = (a / b)%Z.
Proof.
  unfold floordiv. destruct (Z.eqb_spec b 0) as [Hz | Hz]; intros E;
    [discriminate |].
  inversion E. split; [assumption | reflexivity].
Qed.

Lemma FlaxMixtralAttention_call_accepts
    (config : MixtralConfig) (b s : N) (r : shape * shape * option CacheShape) :
  (1 <= b)%N -> (1 <= s)%N ->
  (1 <= hidden_size config)%Z ->
  FlaxMixtralAttention_call config [b; s; Z.to_N (hidden_size config)] [b; s]
                            None false
  = inr r ->
  (0 < num_attention_heads config)%Z
  /\ (num_attention_heads config
      * (hidden_size config / num_attention_heads config)
      = hidden_size config)%Z
  /\ fst (fst r) = [b; s; Z.to_N (hidden_size config)].
Proof.
  intros Hb Hs Hhid.
  destruct (Z.eq_dec (num_attention_heads config) 0) as [Eh | Hh0].
  { unfold FlaxMixtralAttention_call, FlaxMixtralAttention_setup, floordiv.
    rewrite Eh. cbn. discriminate. }
  destruct (Z.eq_dec (num_key_value_heads config) 0) as [Ek | Hk0].
  { unfold FlaxMixtralAttention_call, FlaxMixtralAttention_setup.
    rewrite floordiv_nonzero by assumption. unfold floordiv at 1.
    rewrite Ek. cbn. discriminate. }
  destruct (Z.ltb_spec (num_attention_heads config) 0) as [Hneg | Hpos].
  { unfold FlaxMixtralAttention_call, FlaxMixtralAttention_setup.
    rewrite !floordiv_nonzero by assumption.
    cbn [bind ret num_heads]. unfold dim at 1.
    destruct (Z.ltb_spec (num_attention_heads config) 0); [| lia].
    cbn. discriminate. }
  destruct (Z.ltb_spec (num_key_value_heads config) 0) as [Hkneg | Hkpos].
  { unfold FlaxMixtralAttention_call, FlaxMixtralAttention_setup.
    rewrite !floordiv_nonzero by assumption.
    cbn [bind ret num_heads]. rewrite dim_nonneg by lia. cbn [bind ret].
    unfold dim at 1.
    destruct (Z.ltb_spec (num_key_value_heads config) 0); [| lia].
    cbn. discriminate. }
  assert (Hh : (0 < num_attention_heads config)%Z) by lia.
  assert (Hk : (0 < num_key_value_heads config)%Z) by lia.
  assert (Hdiv : (0 <= hidden_size config / num_attention_heads config)%Z)
    by (apply Z.div_pos; lia).
  assert (Hg : (0 <= num_attention_heads config / num_key_value_heads config)%Z)
    by (apply Z.div_pos; lia).
  destruct (Z.ltb_spec (c_max_position_embeddings config) 0) as [Hcneg | Hc0].
  { unfold FlaxMixtralAttention_call, FlaxMixtralAttention_setup.
    rewrite !floordiv_nonzero by assumption.
    cbn [bind ret num_heads head_dim].
    rewrite !(@dim_nonneg (num_attention_heads config)) by lia.
    rewrite !(@dim_nonneg (num_key_value_heads config)) by lia.
    rewrite !(@dim_nonneg (hidden_size config)) by lia.
    rewrite !(@dim_nonneg (hidden_size config / num_attention_heads config))
      by lia.
    cbn [bind ret]. unfold dim at 1.
    destruct (Z.ltb_spec (c_max_position_embeddings config) 0); [| lia].
    cbn. discriminate. }
  attention_start.
  cbn [Nat.eqb].
  destruct (N.le_gt_cases s (Z.to_N (c_max_position_embeddings config)))
    as [Hsc | Hcs].
  - rewrite !N.min_l by assumption.
    rewrite broadcast_to_mask. cbn [bind ret].
    unfold combine_masks_shape. cbn [length]. rewrite Nat.eqb_refl.
    rewrite broadcast_shapes_same. cbn [bind ret].
    rewrite !N.eqb_refl. cbn [andb].
    destruct (N.eqb_spec (Z.to_N (num_attention_heads config))
                (Z.to_N (num_key_value_heads config)
                 * Z.to_N (num_attention_heads config
                           / num_key_value_heads config))) as [Ekv | Ekv];
      cbn [negb andb]; [| discriminate].
    rewrite <- Ekv.
    rewrite broadcast_shapes_heads. cbn [bind ret nth].
    destruct (N.eqb_spec s 0) as [E0 | _]; [lia |].
    rewrite !N.eqb_refl. cbn [andb negb].
    unfold reshape.
    destruct (N.eqb_spec
                (size [b; s; Z.to_N (num_attention_heads config);
                       Z.to_N (hidden_size config / num_attention_heads config)])
                (size [b; s; Z.to_N (hidden_size config)])) as [Esz | Esz];
      [| discriminate].
    cbn [bind ret removelast app]. intros E. inversion E. subst r.
    split; [assumption |]. split; [| reflexivity].
    cbn [size fold_right] in Esz. rewrite !N.mul_1_r in Esz.
    apply N.mul_cancel_l in Esz; [| lia].
    apply N.mul_cancel_l in Esz; [| lia].
    rewrite <- Z2N.inj_mul in Esz by lia.
    apply Z2N.inj in Esz; lia.
  - rewrite !N.min_r by lia.
    cbn [broadcast_to]. rewrite !N.eqb_refl. cbn [orb bind ret].
    rewrite orb_true_r.
    destruct (N.eqb_spec s (Z.to_N (c_max_position_embeddings config)));
      [lia |].
    destruct (N.eqb_spec s 1) as [E1 | E1]; cbn [orb]; [| discriminate].
    assert (Ec : Z.to_N (c_max_position_embeddings config) = 0%N) by lia.
    rewrite Ec. subst s. cbn [bind ret].
    unfold combine_masks_shape. cbn [length]. rewrite Nat.eqb_refl.
    rewrite broadcast_shapes_same. cbn [bind ret].
    destruct (negb _); [discriminate |].
    cbn [broadcast_shapes]. rewrite !N.eqb_refl. cbn [bind ret].
    change (1 =? 0)%N with false. cbv iota.
    destruct (Z.to_N (num_attention_heads config) =? 1)%N;
      cbn [bind ret nth N.eqb]; discriminate.
Qed.

Lemma FlaxMixtralSparseMoeBlock_shapes_accepts
    (config : MixtralConfig) (b s d : N) (r : shape * shape) :
  FlaxMixtralSparseMoeBlock_shapes config [b; s; d] = inr r ->
  (num_experts_per_tok config <= num_local_experts config)%Z
  /\ fst r = [b; s; d].
Proof.
  unfold FlaxMixtralSparseMoeBlock_shapes. intros H.
  apply bind_ret_inv in H as (experts & He & H).
  apply bind_ret_inv in H as (k & Hk & H).
  apply dim_inv in He as [He0 ->]. apply dim_inv in Hk as [Hk0 ->].
  destruct (N.leb_spec (Z.to_N (num_experts_per_tok config))
              (Z.to_N (num_local_experts config))) as [Hle | Hgt];
    [| discriminate].
  destruct (_ && _ && _)%bool; [discriminate |].
  inversion H. split; [lia | reflexivity].
Qed.

Lemma FlaxMixtralForCausalLMModule_call_accepts
    (config : MixtralConfig) (b s : N) (orl : option bool)
    (x : MoeCausalLMOutput * list (option CacheShape)) :
  (1 <= num_hidden_layers config)%Z ->
  (1 <= b)%N -> (1 <= s)%N ->
  FlaxMixtralForCausalLMModule_call config (Some [b; s]) [b; s] None
                                    false false orl false None
  = inr x ->
  (0 < num_attention_heads config)%Z
  /\ (num_attention_heads config
      * (hidden_size config / num_attention_heads config)
      = hidden_size config)%Z
  /\ (1 <= hidden_size config)%Z
  /\ (1 <= vocab_size config)%Z
  /\ (num_experts_per_tok config <= num_local_experts config)%Z.
Proof.
  intros HL Hb Hs H.
  unfold FlaxMixtralForCausalLMModule_call in H.
  apply bind_ret_inv in H as ([outputs caches] & H & _).
  unfold FlaxMixtralModule_call in H.
  apply bind_ret_inv in H as (q & _ & H).
  apply bind_ret_inv in H as (c & _ & H).
  apply bind_ret_inv in H as (vocab & Hv & H).
  apply bind_ret_inv in H as (hidden & Hh & H).
  apply dim_inv in Hv as [Hv0 ->]. apply dim_inv in Hh as [Hh0 ->].
  apply bind_ret_inv in H as (embeds & He & H).
  unfold Embed_shape in He.
  destruct (N.eqb_spec (Z.to_N (vocab_size config)) 0) as [Ev | Ev];
    [discriminate |].
  destruct (N.eqb_spec (Z.to_N (hidden_size config)) 0) as [Eh | Eh];
    [discriminate |].
  cbn [orb] in He. inversion He. subst embeds. clear He.
  apply bind_ret_inv in H as (blocks & H & _).
  unfold caches_of in H.
  replace (Z.to_nat (num_hidden_layers config))
    with (S (pred (Z.to_nat (num_hidden_layers config)))) in H by lia.
  cbn [repeat decoder_blocks app] in H.
  apply bind_ret_inv in H as (layer & H & _).
  unfold FlaxMixtralDecoderLayer_call in H.
  apply bind_ret_inv in H as ([[hs aw] cache] & Hattn & H).
  apply FlaxMixtralAttention_call_accepts in Hattn as (Hheads & Hdiv & Hshape);
    [| assumption | assumption | lia].
  cbn [fst] in Hshape. subst hs.
  rewrite broadcast_shapes_same in H. cbn [bind ret] in H.
  apply bind_ret_inv in H as (moe & Hmoe & _).
  apply FlaxMixtralSparseMoeBlock_shapes_accepts in Hmoe as [Hk _].
  repeat split; try assumption; lia.
Qed.

(** C8, as stated, fails.  With no decoder layer the construction accepts
    a [hidden_size] (65) that the head count (4) does not divide and more
    experts per token (9) than experts (8): no layer is traced, and nothing
    else checks the shapes.  Where a construction does fail, as with the
    empty vocabulary of [unchecked_args], it is with the error of the traced
    forward pass, here [ZeroDivisionError]. *)
Lemma MixtralPreTrainedModel_init_accepts_invalid :
  (exists config,
     MixtralPreTrainedModel_init layerless_args [1; 1]%N = inr config
     /\ (hidden_size config mod num_attention_heads config <> 0)%Z
     /\ (num_local_experts config < num_experts_per_tok config)%Z)
  /\ MixtralPreTrainedModel_init unchecked_args [1; 1]%N
     = inl ZeroDivisionError.
Proof.
  split; [| vm_compute; reflexivity].
  eexists. split; [vm_compute; reflexivity |].
  split; [vm_compute; discriminate | vm_compute; reflexivity].
Qed.

(** C8, amended.  For arguments with at least one decoder layer, and a
    construction that traces its forward pass on a non-empty input shape
    ([(1, 1)] by default): when the head count is 0 or does not divide
    [hidden_size], or the vocabulary size is at most 0, or there are more
    experts per token than experts, the construction fails, with the error
    that the traced forward pass raises; and every configuration that the
    construction accepts is the one [MixtralConfig.__init__] stores, has a
    positive head count with [hidden_size % num_attention_heads == 0], a
    vocabulary of at least 1 and at most as many experts per token as
    experts. *)
Theorem MixtralPreTrainedModel_init_rejects_invalid
    (a : MixtralConfigArgs) (b s : N) :
  (1 <= arg_num_hidden_layers a)%Z ->
  (1 <= b)%N -> (1 <= s)%N ->
  ((arg_num_attention_heads a = 0
    \/ arg_hidden_size a mod arg_num_attention_heads a <> 0
    \/ arg_vocab_size a <= 0
    \/ arg_num_local_experts a < arg_num_experts_per_tok a)%Z ->
   exists e, MixtralPreTrainedModel_init a [b; s] = inl e)
  /\ (forall config,
        MixtralPreTrainedModel_init a [b; s] = inr config ->
        MixtralConfig_init a = inr config
        /\ (0 < num_attention_heads config)%Z
        /\ (hidden_size config mod num_attention_heads config = 0)%Z
        /\ (1 <= vocab_size config)%Z
        /\ (num_experts_per_tok config <= num_local_experts config)%Z).
Proof.
  intros HL Hb Hs.
  assert (Hacc : forall config,
             MixtralPreTrainedModel_init a [b; s] = inr config ->
             MixtralConfig_init a = inr config
             /\ (0 < num_attention_heads config)%Z
             /\ (hidden_size config mod num_attention_heads config = 0)%Z
             /\ (1 <= vocab_size config)%Z
             /\ (num_experts_per_tok config <= num_local_experts config)%Z).
  { intros config H. unfold MixtralPreTrainedModel_init in H.
    apply bind_ret_inv in H as (c & Hc & H).
    apply bind_ret_inv in H as (x & Hx & H).
    inversion H. subst c. clear H.
    split; [exact Hc |].
    assert (HLc : (1 <= num_hidden_layers config)%Z).
    { unfold MixtralConfig_init in Hc. inversion Hc. exact HL. }
    apply FlaxMixtralForCausalLMModule_call_accepts in Hx
      as (Hh & Hdiv & _ & Hv & Hk); try assumption.
    repeat split; try assumption.
    rewrite Z.mod_eq by lia. lia. }
  split; [| exact Hacc].
  intros Hbad.
  destruct (MixtralPreTrainedModel_init a [b; s]) as [e | config] eqn:E;
    [exists e; reflexivity |].
  exfalso.
  destruct (Hacc config eq_refl) as (Hc & Hh & Hm & Hv & Hk).
  unfold MixtralConfig_init in Hc. inversion Hc as [Hcfg].
  rewrite <- Hcfg in Hh, Hm, Hv, Hk.
  cbn [num_attention_heads hidden_size vocab_size num_experts_per_tok
       num_local_experts] in Hh, Hm, Hv, Hk.
  lia.
Qed.

Lemma MixtralPreTrainedModel_init_rejects_invalid_witness :
  ((arg_num_attention_heads unchecked_args = 0
    \/ arg_hidden_size unchecked_args mod arg_num_attention_heads unchecked_args
       <> 0
    \/ arg_vocab_size unchecked_args <= 0
    \/ arg_num_local_experts unchecked_args
       < arg_num_experts_per_tok unchecked_args)%Z ->
   exists e, MixtralPreTrainedModel_init unchecked_args [1; 1]%N = inl e)
  /\ (forall config,
        MixtralPreTrainedModel_init unchecked_args [1; 1]%N = inr config ->
        MixtralConfig_init unchecked_args = inr config
        /\ (0 < num_attention_heads config)%Z
        /\ (hidden_size config mod num_attention_heads config = 0)%Z
        /\ (1 <= vocab_size config)%Z
        /\ (num_experts_per_tok config <= num_local_experts config)%Z).
Proof.
  apply (@MixtralPreTrainedModel_init_rejects_invalid unchecked_args 1 1).
  - simpl. lia.
  - lia.
  - lia.
Defined.

(* ================================================================= *)
(** * Part III.  Further properties of the source                      *)
(* ================================================================= *)

(** ** The forward pass without a cache *)

Lemma append_extend A (flag : bool) (acc : option (list A)) (x : A) (xs : list A) :
  extend_if flag (append_if flag acc x) xs = extend_if flag acc (x :: xs).
Proof.
  unfold extend_if, append_if. destruct flag, acc; simpl; try reflexivity.
  rewrite <- app_assoc. reflexivity.
Qed.

Section ForwardShapes.

Variable config : MixtralConfig.
Variables batch_size sequence_length : N.

Hypothesis config_ok : well_formed config.
Hypothesis length_pos : (1 <= sequence_length)%N.
Hypothesis length_fits :
  (Z.of_N sequence_length <= c_max_position_embeddings config)%Z.

Let heads := Z.to_N (num_attention_heads config).
Let hidden := Z.to_N (hidden_size config).
Let experts := Z.to_N (num_local_experts config).

Let hs_shape : shape := [batch_size; sequence_length; hidden].
Let attn_shape : shape := [batch_size; heads; sequence_length; sequence_length].
Let router_shape : shape := [(batch_size * sequence_length)%N; experts].

Lemma FlaxMixtralAttention_call_plain :
  FlaxMixtralAttention_call config hs_shape [batch_size; sequence_length]
                            None false
  = inr (hs_shape, attn_shape, None).
Proof.
  destruct config_ok as (Hh & Hk & Hkv & Hhid & Hhd & Hv & Htk & Hint).
  assert (Hdiv : (0 <= hidden_size config / num_attention_heads config)%Z)
    by (apply Z.div_pos; lia).
  assert (Hg : (0 <= num_attention_heads config / num_key_value_heads config)%Z)
    by (apply Z.div_pos; lia).
  assert (Ekv : (Z.to_N (num_key_value_heads config)
                 * Z.to_N (num_attention_heads config / num_key_value_heads config)
                 = Z.to_N (num_attention_heads config))%N).
  { rewrite <- Z2N.inj_mul by lia. f_equal. exact Hkv. }
  assert (Ehd : (Z.to_N (num_attention_heads config)
                 * Z.to_N (hidden_size config / num_attention_heads config)
                 = Z.to_N (hidden_size config))%N).
  { rewrite <- Z2N.inj_mul by lia. f_equal. exact Hhd. }
  unfold FlaxMixtralAttention_call, FlaxMixtralAttention_setup, t_rotary.
  rewrite !floordiv_nonzero by lia.
  cbn [bind ret num_heads head_dim num_key_value_groups].
  rewrite !dim_nonneg by lia. cbn [bind ret].
  unfold hs_shape, hidden, Dense_shape, axis. cbn [removelast app nth].
  rewrite !reshape_ok by (cbn [size fold_right]; lia).
  cbn [bind ret transpose_0213 repeat_kv_bnsh orb nth length tl axis].
  rewrite Ekv.
  rewrite !N.min_l by lia.
  cbn [tl length Nat.eqb nth].
  rewrite broadcast_to_mask. cbn [bind ret].
  unfold combine_masks_shape. cbn [length]. rewrite Nat.eqb_refl.
  rewrite broadcast_shapes_same. cbn [bind ret].
  rewrite !N.eqb_refl. cbn [andb negb].
  rewrite broadcast_shapes_heads. cbn [bind ret nth].
  assert (Hz : (sequence_length =? 0)%N = false) by (apply N.eqb_neq; lia).
  rewrite Hz. rewrite !N.eqb_refl. cbn [andb negb].
  rewrite reshape_ok by (cbn [size fold_right]; lia).
  cbn [bind ret removelast app]. reflexivity.
Qed.

Lemma FlaxMixtralDecoderLayer_call_plain :
  FlaxMixtralDecoderLayer_call config hs_shape [batch_size; sequence_length]
                               None false
  = inr (hs_shape, attn_shape, router_shape, None).
Proof.
  unfold FlaxMixtralDecoderLayer_call.
  rewrite FlaxMixtralAttention_call_plain. cbn [bind ret].
  rewrite broadcast_shapes_same. cbn [bind ret].
  destruct config_ok as (_ & _ & _ & _ & _ & _ & Htk & _).
  unfold hs_shape.
  rewrite FlaxMixtralSparseMoeBlock_shapes_ok by exact Htk.
  cbn [bind ret]. fold hs_shape.
  rewrite broadcast_shapes_same. reflexivity.
Qed.

Lemma decoder_blocks_plain ohs oat orl (layers : nat) :
  forall hs ats rl,
    decoder_blocks config [batch_size; sequence_length] false ohs oat orl
                   (repeat None layers) hs_shape hs ats rl
    = inr (hs_shape,
           extend_if ohs hs (repeat hs_shape layers),
           extend_if oat ats (repeat attn_shape layers),
           extend_if orl rl (repeat router_shape layers),
           repeat None layers).
Proof.
  induction layers as [| layers IH]; intros hs ats rl.
  - cbn [repeat decoder_blocks]. unfold extend_if.
    destruct ohs, oat, orl, hs, ats, rl; cbn [option_map];
      rewrite ?app_nil_r; reflexivity.
  - cbn [repeat decoder_blocks].
    rewrite FlaxMixtralDecoderLayer_call_plain. cbn [bind ret].
    rewrite IH. cbn [bind ret]. rewrite !append_extend. reflexivity.
Qed.

End ForwardShapes.

Lemma repeat_snoc A (x : A) n : repeat x n ++ [x] = repeat x (S n).
Proof.
  induction n as [| n IH]; [reflexivity |].
  cbn [repeat app]. rewrite IH. reflexivity.
Qed.

Lemma FlaxMixtralModule_call_plain
    (config : MixtralConfig) (b s : N) (oa ohs : bool) (orl : option bool) :
  well_formed config ->
  (1 <= s)%N ->
  (Z.of_N s <= c_max_position_embeddings config)%Z ->
  let layers := Z.to_nat (num_hidden_layers config) in
  let hs := [b; s; Z.to_N (hidden_size config)] in
  let requested :=
    match orl with
    | Some flag => flag
    | None => output_router_logits_default config
    end in
  FlaxMixtralModule_call config (Some [b; s]) [b; s] None oa ohs orl false None
  = inr ({| last_hidden_state := hs;
            hidden_states := if ohs then Some (repeat hs (S layers)) else None;
            attentions :=
              if oa
              then Some (repeat [b; Z.to_N (num_attention_heads config); s; s]
                                layers)
              else None;
            router_logits :=
              if requested
              then Some (repeat [(b * s)%N; Z.to_N (num_local_experts config)]
                                layers)
              else None |},
         repeat None layers).
Proof.
  intros Hok Hs1 Hs layers hs requested.
  pose proof Hok as (Hh & Hk & Hkv & Hhid & Hhd & Hv & Htk & Hint).
  module_prelude. unfold caches_of. cbn [app].
  fold layers. fold requested.
  rewrite (@decoder_blocks_plain config b s Hok Hs1 Hs).
  cbn [bind ret]. fold hs.
  unfold extend_if, append_if.
  destruct ohs, oa, requested; cbn [option_map app];
    rewrite ?repeat_snoc; reflexivity.
Qed.

(** Rewrites with an equation whose left-hand side occurs in the goal up
    to the unfolding of type abbreviations. *)
Ltac rewrite_call H :=
  match type of H with
  | ?l = _ =>
      match l with
      | ?f _ _ _ _ _ _ _ _ _ =>
          match goal with
          | |- context [f ?a1 ?a2 ?a3 ?a4 ?a5 ?a6 ?a7 ?a8 ?a9] =>
              change (f a1 a2 a3 a4 a5 a6 a7 a8 a9) with l
          end
      end
  end;
  rewrite H.

(** With the router logits not requested, Forward on a non-empty
    [(batch, sequence)] input, with the default mask and positions and
    without a cache, returns logits of shape
    [(batch, sequence, vocab_size)], no auxiliary loss and no traces, for
    every well-formed configuration and every sequence that fits the causal
    mask. *)
Theorem Forward_logits_shape
    (config : MixtralConfig) (b s : N) (orl : option bool) :
  well_formed config ->
  (1 <= b)%N -> (1 <= s)%N ->
  (Z.of_N s <= c_max_position_embeddings config)%Z ->
  orl <> Some true ->
  exists out caches,
    Forward config [b; s] None None None orl = inr (out, caches)
    /\ logits out = [b; s; Z.to_N (vocab_size config)]
    /\ aux_loss out = None
    /\ lm_hidden_states out = None
    /\ lm_attentions out = None
    /\ caches = repeat None (Z.to_nat (num_hidden_layers config)).
Proof.
  intros Hok _ Hs1 Hs Horl. unfold Forward.
  cbv beta iota zeta delta [bind ret].
  unfold FlaxMixtralForCausalLMModule_call.
  pose proof (@FlaxMixtralModule_call_plain config b s false false orl Hok
                Hs1 Hs) as Hm.
  cbv zeta in Hm. rewrite_call Hm.
  cbn [bind ret].
  rewrite dim_nonneg by (destruct Hok as (_ & _ & _ & _ & _ & H & _); lia).
  cbn [bind ret last_hidden_state router_logits hidden_states attentions].
  assert (Haux : forall rl : option (list shape),
             match orl with
             | Some true =>
                 match rl with
                 | Some gate_logits =>
                     num_experts <-
                       (v <- FlaxMixtralForCausalLMModule_getattr config "num_experts" ;;
                        as_int v) ;;
                     top_k <-
                       (v <- FlaxMixtralForCausalLMModule_getattr config
                               "num_experts_per_tok" ;;
                        as_int v) ;;
                     loss <- jax_load_balancing_loss_func_shapes
                               gate_logits num_experts top_k ;;
                     ret (Some loss)
                 | None => ret None
                 end
             | _ => ret None
             end = inr None).
  { intros rl. destruct orl as [[|] |]; [congruence | reflexivity | reflexivity]. }
  rewrite Haux. cbn [bind ret].
  eexists; eexists. split; [reflexivity |].
  cbn [logits aux_loss lm_hidden_states lm_attentions Dense_shape removelast app].
  repeat split; reflexivity.
Qed.

Lemma Forward_logits_shape_witness :
  exists out caches,
    Forward scenario_config [3; 7]%N None None None (Some false)
    = inr (out, caches)
    /\ logits out = [3; 7; 32000]%N
    /\ aux_loss out = None
    /\ lm_hidden_states out = None
    /\ lm_attentions out = None
    /\ caches = [None; None].
Proof.
  apply (@Forward_logits_shape scenario_config 3 7 (Some false)).
  - exact well_formed_scenario.
  - lia.
  - lia.
  - simpl. lia.
  - discriminate.
Defined.

(** The diagnostic traces of [FlaxMixtralModule.__call__] on a non-empty
    input with the default mask, for a well-formed configuration: when
    requested,
    the hidden-state trace has one entry per layer plus the final normalised
    state, the attention trace one [(batch, heads, sequence, sequence)] entry
    per layer and the router-logits trace one [(batch * sequence, experts)]
    entry per layer; a trace that is not requested is [None].  A router-logits
    request of [None] falls back to [config.output_router_logits]. *)
Theorem FlaxMixtralModule_call_traces
    (config : MixtralConfig) (b s : N) (oa ohs : bool) (orl : option bool) :
  well_formed config ->
  (1 <= b)%N -> (1 <= s)%N ->
  (Z.of_N s <= c_max_position_embeddings config)%Z ->
  let layers := Z.to_nat (num_hidden_layers config) in
  let hs := [b; s; Z.to_N (hidden_size config)] in
  let requested :=
    match orl with
    | Some flag => flag
    | None => output_router_logits_default config
    end in
  FlaxMixtralModule_call config (Some [b; s]) [b; s] None oa ohs orl false None
  = inr ({| last_hidden_state := hs;
            hidden_states := if ohs then Some (repeat hs (S layers)) else None;
            attentions :=
              if oa
              then Some (repeat [b; Z.to_N (num_attention_heads config); s; s]
                                layers)
              else None;
            router_logits :=
              if requested
              then Some (repeat [(b * s)%N; Z.to_N (num_local_experts config)]
                                layers)
              else None |},
         repeat None layers).
Proof.
  intros Hok _. exact (@FlaxMixtralModule_call_plain config b s oa ohs orl Hok).
Qed.

Lemma FlaxMixtralModule_call_traces_witness :
  FlaxMixtralModule_call scenario_config (Some [1; 5]%N) [1; 5]%N None
                         true true (Some true) false None
  = inr ({| last_hidden_state := [1; 5; 64]%N;
            hidden_states := Some (repeat [1; 5; 64]%N 3);
            attentions := Some (repeat [1; 4; 5; 5]%N 2);
            router_logits := Some (repeat [5; 4]%N 2) |},
         [None; None]).
Proof.
  apply (@FlaxMixtralModule_call_traces scenario_config 1 5 true true (Some true)).
  - exact well_formed_scenario.
  - lia.
  - lia.
  - simpl. lia.
Defined.

(** On every well-formed configuration and every non-empty input that fits
    (default mask and positions, no cache), a Forward call that requests the
    router logits raises [AttributeError] for [num_experts]: the decoder
    runs, and the auxiliary loss is then computed from two attributes that
    the module does not have. *)
Theorem Forward_router_logits_request_fails
    (config : MixtralConfig) (b s : N) :
  well_formed config ->
  (1 <= b)%N -> (1 <= s)%N ->
  (Z.of_N s <= c_max_position_embeddings config)%Z ->
  Forward config [b; s] None None None (Some true)
  = inl (AttributeError "num_experts").
Proof.
  intros Hok _ Hs1 Hs. unfold Forward.
  cbv beta iota zeta delta [bind ret].
  unfold FlaxMixtralForCausalLMModule_call.
  pose proof (@FlaxMixtralModule_call_plain config b s false false (Some true)
                Hok Hs1 Hs) as Hm.
  cbv zeta in Hm. rewrite_call Hm.
  cbn [bind ret].
  rewrite dim_nonneg by (destruct Hok as (_ & _ & _ & _ & _ & H & _); lia).
  reflexivity.
Qed.

Lemma Forward_router_logits_request_fails_witness :
  Forward scenario_config [2; 3]%N None None None (Some true)
  = inl (AttributeError "num_experts").
Proof.
  apply (@Forward_router_logits_request_fails scenario_config 2 3).
  - exact well_formed_scenario.
  - lia.
  - lia.
  - simpl. lia.
Defined.

(** ** Inputs that the forward pass rejects *)

Ltac rewrite_attn H :=
  match type of H with
  | ?l = _ =>
      match l with
      | ?f _ _ _ _ _ =>
          match goal with
          | |- context [f ?a1 ?a2 ?a3 ?a4 ?a5] =>
              change (f a1 a2 a3 a4 a5) with l
          end
      end
  end;
  rewrite H.

(** An error of the first attention layer is the error of the module, on a
    configuration that the set-up and the embedding accept. *)
Lemma FlaxMixtralForCausalLMModule_call_attention_error
    (config : MixtralConfig) (b s : N) (mask : shape) (orl : option bool)
    (ic : bool) (pkv : option (list CacheShape)) (e : PyError) (layers : nat) :
  (num_attention_heads config <> 0)%Z ->
  (0 <= c_max_position_embeddings config)%Z ->
  (1 <= vocab_size config)%Z ->
  (1 <= hidden_size config)%Z ->
  Z.to_nat (num_hidden_layers config) = S layers ->
  FlaxMixtralAttention_call
    config [b; s; Z.to_N (hidden_size config)] mask
    (match pkv with Some l => nth_error l 0 | None => None end) ic
  = inl e ->
  FlaxMixtralForCausalLMModule_call config (Some [b; s]) mask None false false
                                    orl ic pkv
  = inl e.
Proof.
  intros Hheads Hc Hv Hh HL Hattn.
  unfold FlaxMixtralForCausalLMModule_call.
  module_prelude.
  unfold caches_of. cbn [app]. rewrite HL.
  assert (Hcs : exists rest,
             match pkv with
             | Some l => map (fun i => nth_error l i) (seq 0 (S layers))
             | None => repeat None (S layers)
             end
             = match pkv with Some l => nth_error l 0 | None => None end :: rest).
  { destruct pkv; eexists; reflexivity. }
  destruct Hcs as (rest & ->).
  cbn [decoder_blocks]. unfold FlaxMixtralDecoderLayer_call.
  rewrite_attn Hattn. reflexivity.
Qed.

(** An error of the first attention layer is the error of Forward. *)
Lemma Forward_attention_error
    (config : MixtralConfig) (b s : N) (attention_mask : option shape)
    (position_ids : option shape) (pkv : option (list CacheShape))
    (orl : option bool) (e : PyError) (layers : nat) :
  (num_attention_heads config <> 0)%Z ->
  (0 <= c_max_position_embeddings config)%Z ->
  (1 <= vocab_size config)%Z ->
  (1 <= hidden_size config)%Z ->
  Z.to_nat (num_hidden_layers config) = S layers ->
  (pkv <> None -> position_ids <> None) ->
  FlaxMixtralAttention_call
    config [b; s; Z.to_N (hidden_size config)]
    (match attention_mask with Some m => m | None => [b; s] end)
    (match pkv with Some l => nth_error l 0 | None => None end) false
  = inl e ->
  Forward config [b; s] attention_mask position_ids pkv orl = inl e.
Proof.
  intros Hheads Hc Hv Hh HL Hpos Hattn. unfold Forward.
  assert (Hp : exists p,
             match position_ids, pkv with
             | None, Some _ => raise ValueError
             | None, None => ret [b; s]
             | Some p, _ => ret p
             end = inr p).
  { destruct position_ids as [p |]; [eexists; reflexivity |].
    destruct pkv; [exfalso; apply Hpos; [discriminate | reflexivity] |].
    eexists; reflexivity. }
  destruct Hp as (p & ->). cbv beta iota zeta delta [bind ret].
  pose proof (@FlaxMixtralForCausalLMModule_call_attention_error
                config b s _ orl false pkv e layers Hheads Hc Hv Hh HL Hattn)
    as E.
  rewrite_call E. reflexivity.
Qed.

Lemma FlaxMixtralAttention_call_too_long (config : MixtralConfig) (b s : N) :
  well_formed config ->
  (1 <= c_max_position_embeddings config < Z.of_N s)%Z ->
  FlaxMixtralAttention_call config [b; s; Z.to_N (hidden_size config)] [b; s]
                            None false
  = inl ValueError.
Proof.
  intros (Hh & Hk & Hkv & Hhid & Hhd & Hv & Htk & Hint) Hc.
  assert (Hdiv : (0 <= hidden_size config / num_attention_heads config)%Z)
    by (apply Z.div_pos; lia).
  assert (Hg : (0 <= num_attention_heads config / num_key_value_heads config)%Z)
    by (apply Z.div_pos; lia).
  attention_start.
  rewrite !N.min_r by lia. cbn [tl length Nat.eqb nth].
  rewrite broadcast_to_too_long by lia. reflexivity.
Qed.

(** A sequence longer than [c_max_position_embeddings] is rejected (default
    mask and positions, no cache): the causal mask is only that long, and the
    padding mask cannot be broadcast to it. *)
Theorem Forward_rejects_long_sequence
    (config : MixtralConfig) (b s : N) (orl : option bool) :
  well_formed config ->
  (1 <= num_hidden_layers config)%Z ->
  (1 <= c_max_position_embeddings config < Z.of_N s)%Z ->
  Forward config [b; s] None None None orl = inl ValueError.
Proof.
  intros Hok HL Hc.
  pose proof Hok as (Hh & Hk & Hkv & Hhid & Hhd & Hv & Htk & Hint).
  apply Forward_attention_error
    with (layers := pred (Z.to_nat (num_hidden_layers config)));
    try lia.
  - congruence.
  - apply FlaxMixtralAttention_call_too_long; assumption.
Qed.

Lemma Forward_rejects_long_sequence_witness :
  Forward scenario_config [1; 4097]%N None None None None = inl ValueError.
Proof.
  apply (@Forward_rejects_long_sequence scenario_config 1 4097 None).
  - exact well_formed_scenario.
  - simpl. lia.
  - simpl. lia.
Defined.

Lemma FlaxMixtralAttention_call_group_mismatch
    (config : MixtralConfig) (b s : N) :
  (0 < num_attention_heads config)%Z ->
  (0 < num_key_value_heads config)%Z ->
  (num_key_value_heads config
   * (num_attention_heads config / num_key_value_heads config)
   <> num_attention_heads config)%Z ->
  (0 <= hidden_size config)%Z ->
  (Z.of_N s <= c_max_position_embeddings config)%Z ->
  FlaxMixtralAttention_call config [b; s; Z.to_N (hidden_size config)] [b; s]
                            None false
  = inl AssertionError.
Proof.
  intros Hh Hk Hkv Hhid Hc.
  assert (Hdiv : (0 <= hidden_size config / num_attention_heads config)%Z)
    by (apply Z.div_pos; lia).
  assert (Hg : (0 <= num_attention_heads config / num_key_value_heads config)%Z)
    by (apply Z.div_pos; lia).
  attention_start.
  rewrite !N.min_l by lia. cbn [tl length Nat.eqb nth].
  rewrite broadcast_to_mask. cbn [bind ret].
  unfold combine_masks_shape. cbn [length]. rewrite Nat.eqb_refl.
  rewrite broadcast_shapes_same. cbn [bind ret].
  rewrite !N.eqb_refl.
  assert (Hne : (Z.to_N (num_attention_heads config)
                 =? Z.to_N (num_key_value_heads config)
                    * Z.to_N (num_attention_heads config
                              / num_key_value_heads config))%N = false).
  { apply N.eqb_neq. rewrite <- Z2N.inj_mul by lia. intros E.
    apply Z2N.inj in E; try lia. }
  rewrite Hne. reflexivity.
Qed.

(** When the number of key/value heads does not divide the number of
    query heads (both positive, vocabulary and hidden size at least 1, at
    least one layer), a forward pass with the default mask and positions and
    no cache, on a non-empty input no longer than
    [c_max_position_embeddings], fails with [AssertionError]: the floor
    division of [setup] leaves fewer repeated key heads than query heads and
    the attention scores are rejected. *)
Theorem Forward_rejects_uneven_head_groups
    (config : MixtralConfig) (b s : N) (orl : option bool) :
  (0 < num_attention_heads config)%Z ->
  (0 < num_key_value_heads config)%Z ->
  (num_attention_heads config mod num_key_value_heads config <> 0)%Z ->
  (1 <= vocab_size config)%Z ->
  (1 <= hidden_size config)%Z ->
  (1 <= num_hidden_layers config)%Z ->
  (1 <= b)%N -> (1 <= s)%N ->
  (Z.of_N s <= c_max_position_embeddings config)%Z ->
  Forward config [b; s] None None None orl = inl AssertionError.
Proof.
  intros Hh Hk Hmod Hv Hhid HL Hb Hs Hc.
  apply Forward_attention_error
    with (layers := pred (Z.to_nat (num_hidden_layers config)));
    try lia.
  - congruence.
  - apply FlaxMixtralAttention_call_group_mismatch; try assumption; try lia.
    intros E. apply Hmod.
    rewrite Z.mod_eq by lia. lia.
Qed.

Lemma Forward_rejects_uneven_head_groups_witness :
  Forward {| vocab_size := 32000; hidden_size := 64; intermediate_size := 128;
             num_hidden_layers := 2; num_attention_heads := 4;
             num_key_value_heads := 3; num_experts_per_tok := 2;
             num_local_experts := 4; output_router_logits_default := false;
             c_max_position_embeddings := 4096 |}
          [1; 5]%N None None None None
  = inl AssertionError.
Proof.
  apply Forward_rejects_uneven_head_groups; simpl; try lia.
  discriminate.
Defined.

Lemma reshape_bad x new : size x <> size new -> reshape x new = inl TypeError.
Proof.
  intros H. unfold reshape. destruct (N.eqb_spec (size x) (size new));
    [contradiction | reflexivity].
Qed.

Lemma FlaxMixtralAttention_call_indivisible
    (config : MixtralConfig) (b s : N) :
  (0 < num_attention_heads config)%Z ->
  (0 < num_key_value_heads config)%Z ->
  (num_key_value_heads config
   * (num_attention_heads config / num_key_value_heads config)
   = num_attention_heads config)%Z ->
  (0 <= hidden_size config)%Z ->
  (num_attention_heads config
   * (hidden_size config / num_attention_heads config)
   <> hidden_size config)%Z ->
  (0 < b)%N -> (0 < s)%N ->
  (Z.of_N s <= c_max_position_embeddings config)%Z ->
  FlaxMixtralAttention_call config [b; s; Z.to_N (hidden_size config)] [b; s]
                            None false
  = inl TypeError.
Proof.
  intros Hh Hk Hkv Hhid Hhd Hb Hs Hc.
  assert (Hdiv : (0 <= hidden_size config / num_attention_heads config)%Z)
    by (apply Z.div_pos; lia).
  assert (Hg : (0 <= num_attention_heads config / num_key_value_heads config)%Z)
    by (apply Z.div_pos; lia).
  assert (Ekv : (Z.to_N (num_key_value_heads config)
                 * Z.to_N (num_attention_heads config / num_key_value_heads config)
                 = Z.to_N (num_attention_heads config))%N).
  { rewrite <- Z2N.inj_mul by lia. f_equal. exact Hkv. }
  attention_start.
  rewrite Ekv. rewrite !N.min_l by lia. cbn [tl length Nat.eqb nth].
  rewrite broadcast_to_mask. cbn [bind ret].
  unfold combine_masks_shape. cbn [length]. rewrite Nat.eqb_refl.
  rewrite broadcast_shapes_same. cbn [bind ret].
  rewrite !N.eqb_refl. cbn [andb negb].
  rewrite broadcast_shapes_heads. cbn [bind ret nth].
  rewrite !N.eqb_refl. cbn [andb negb].
  destruct (N.eqb_spec s 0) as [E0 | _]; [lia |].
  rewrite reshape_bad; [reflexivity |].
  cbn [size fold_right]. rewrite !N.mul_1_r. intros E.
  apply N.mul_cancel_l in E; [| lia]. apply N.mul_cancel_l in E; [| lia].
  apply Hhd. rewrite <- Z2N.inj_mul in E by lia.
  apply Z2N.inj in E; try lia.
Qed.

(** When [hidden_size] is not a multiple of the number of heads (the
    key/value heads dividing the heads, the vocabulary not empty, at least
    one layer), the first attention layer of a forward pass on a non-empty
    batch fails with [TypeError]: the heads, each of the rounded-down head
    dimension, cannot be reshaped back to [hidden_size] (line 558). *)
Theorem Forward_rejects_indivisible_hidden_size
    (config : MixtralConfig) (b s : N) (orl : option bool) :
  (0 < num_attention_heads config)%Z ->
  (0 < num_key_value_heads config)%Z ->
  (num_attention_heads config mod num_key_value_heads config = 0)%Z ->
  (0 <= hidden_size config)%Z ->
  (hidden_size config mod num_attention_heads config <> 0)%Z ->
  (1 <= vocab_size config)%Z ->
  (1 <= num_hidden_layers config)%Z ->
  (0 < b)%N -> (0 < s)%N ->
  (Z.of_N s <= c_max_position_embeddings config)%Z ->
  Forward config [b; s] None None None orl = inl TypeError.
Proof.
  intros Hh Hk Hmk Hhid Hmh Hv HL Hb Hs Hc.
  assert (Hh1 : (1 <= hidden_size config)%Z).
  { destruct (Z.eq_dec (hidden_size config) 0) as [E | E]; [| lia].
    exfalso. apply Hmh. rewrite E. apply Z.mod_0_l. lia. }
  apply Forward_attention_error
    with (layers := pred (Z.to_nat (num_hidden_layers config)));
    try lia.
  - congruence.
  - apply FlaxMixtralAttention_call_indivisible; try assumption.
    + rewrite Z.mod_eq in Hmk by lia. lia.
    + intros E. apply Hmh. rewrite Z.mod_eq by lia. lia.
Qed.

Lemma Forward_rejects_indivisible_hidden_size_witness :
  Forward {| vocab_size := 32000; hidden_size := 65; intermediate_size := 128;
             num_hidden_layers := 2; num_attention_heads := 4;
             num_key_value_heads := 2; num_experts_per_tok := 2;
             num_local_experts := 4; output_router_logits_default := false;
             c_max_position_embeddings := 4096 |}
          [1; 5]%N None None None None
  = inl TypeError.
Proof.
  apply Forward_rejects_indivisible_hidden_size; simpl; try lia;
    try reflexivity; discriminate.
Defined.

Lemma fits_length u o : fits u o = true -> length u = length o.
Proof.
  revert o. induction u as [| x u IH]; intros [| y o] H; simpl in *;
    try reflexivity; try discriminate.
  apply andb_prop in H as [_ H]. rewrite (IH _ H). reflexivity.
Qed.

Lemma FlaxMixtralAttention_call_cached_rank2
    (config : MixtralConfig) (b s : N) (mask : shape) (vars : CacheShape) :
  well_formed config ->
  (0 <= c_max_position_embeddings config)%Z ->
  length mask = 2%nat ->
  let block := [b; s; Z.to_N (num_attention_heads config);
                Z.to_N (hidden_size config / num_attention_heads config)] in
  fits block (key_shape vars) = true ->
  fits block (value_shape vars) = true ->
  FlaxMixtralAttention_call config [b; s; Z.to_N (hidden_size config)] mask
                            (Some vars) false
  = inl AssertionError.
Proof.
  intros (Hh & Hk & Hkv & Hhid & Hhd & Hv & Htk & Hint) Hc Hm block Hfk Hfv.
  assert (Hdiv : (0 <= hidden_size config / num_attention_heads config)%Z)
    by (apply Z.div_pos; lia).
  assert (Hg : (0 <= num_attention_heads config / num_key_value_heads config)%Z)
    by (apply Z.div_pos; lia).
  assert (Ekv : (Z.to_N (num_key_value_heads config)
                 * Z.to_N (num_attention_heads config / num_key_value_heads config)
                 = Z.to_N (num_attention_heads config))%N).
  { rewrite <- Z2N.inj_mul by lia. f_equal. exact Hkv. }
  attention_start.
  rewrite Ekv. fold block. unfold concatenate_to_cache_shapes.
  rewrite Hfk, Hfv. cbn [andb].
  pose proof (fits_length _ _ Hfk) as Hl.
  unfold combine_masks_shape.
  rewrite length_app, length_firstn, <- Hl, Hm. reflexivity.
Qed.

(** A Forward call that passes a cache in which the new keys fit, together
    with a mask of rank 2 (the default mask, or one of shape
    [(batch, length)]), fails in the first attention layer:
    [concatenate_to_cache_] combines the rank-4 pad mask with the mask as
    passed, before it is expanded, and [nn.combine_masks] requires equal
    ranks. *)
Theorem Forward_cached_rank2_mask_fails
    (config : MixtralConfig) (b s : N) (attention_mask : option shape)
    (vars : CacheShape) (rest : list CacheShape) (orl : option bool) :
  well_formed config ->
  (1 <= num_hidden_layers config)%Z ->
  (0 <= c_max_position_embeddings config)%Z ->
  match attention_mask with Some m => length m = 2%nat | None => True end ->
  let block := [b; s; Z.to_N (num_attention_heads config);
                Z.to_N (hidden_size config / num_attention_heads config)] in
  fits block (key_shape vars) = true ->
  fits block (value_shape vars) = true ->
  Forward config [b; s] attention_mask (Some [b; s])
          (Some (vars :: rest)) orl
  = inl AssertionError.
Proof.
  intros Hok HL Hc Hm block Hfk Hfv.
  pose proof Hok as (Hh & Hk & Hkv & Hhid & Hhd & Hv & Htk & Hint).
  apply Forward_attention_error
    with (layers := pred (Z.to_nat (num_hidden_layers config)));
    try lia.
  - discriminate.
  - cbn [nth_error].
    apply FlaxMixtralAttention_call_cached_rank2; try assumption.
    destruct attention_mask; [assumption | reflexivity].
Qed.

Lemma Forward_cached_rank2_mask_fails_witness :
  Forward scenario_config [1; 1]%N (Some [1; 8]%N) (Some [1; 1]%N)
          (Some (repeat {| key_shape := [1; 8; 4; 16]%N;
                           value_shape := [1; 8; 4; 16]%N;
                           index_value := 0 |} 2))
          None
  = inl AssertionError.
Proof.
  apply (@Forward_cached_rank2_mask_fails scenario_config 1 1 (Some [1; 8]%N)
           _ _ None).
  - exact well_formed_scenario.
  - simpl. lia.
  - simpl. lia.
  - reflexivity.
  - reflexivity.
  - reflexivity.
Defined.

(** ** The routing block, for every input *)

Lemma route_top_k_succeeds exp (logits : mat) (k E : nat) :
  Forall (fun r => length r = E) logits -> (k <= E)%nat ->
  exists w sel,
    route_top_k exp logits k = inr (w, sel)
    /\ length w = length logits
    /\ Forall (fun r => length r = k) w.
Proof.
  intros Hlen Hk. unfold route_top_k, top_k_rows.
  destruct (@top_k_rows_shape (map (softmax exp) logits) k E)
    as (rows & -> & Hl & Hrows).
  - rewrite Forall_map. eapply Forall_impl; [| exact Hlen].
    intros r Hr. unfold softmax. rewrite !length_map. exact Hr.
  - exact Hk.
  - cbn [bind ret]. eexists; eexists. split; [reflexivity |].
    rewrite !length_map in *. split; [exact Hl |].
    rewrite !Forall_map. eapply Forall_impl; [| exact Hrows].
    intros [v i] (Hv & _). cbn [fst] in *. unfold renormalize.
    rewrite length_map. exact Hv.
Qed.

(** Whatever the gate, the experts, the activation, the cast and the
    hidden states, and for every top-k from 1 to the number of experts, the
    routing block returns the all-zero array of the input's shape, with the
    router logits: the scatter-accumulate of lines 618-627 never binds the
    arrays it builds. *)
Theorem FlaxMixtralSparseMoeBlock_output_zero
    (exp astype act_fn : Q -> Q) (intermediate_size : nat)
    (num_local_experts num_experts_per_tok : nat)
    (gate : mat) (experts : list ExpertParams)
    (batch_size sequence_length hidden_dim : nat) (hidden_states : list mat) :
  block_arguments intermediate_size num_local_experts
                  batch_size sequence_length hidden_dim
                  gate experts hidden_states ->
  (1 <= num_experts_per_tok <= num_local_experts)%nat ->
  FlaxMixtralSparseMoeBlock exp astype act_fn intermediate_size hidden_dim
                            num_local_experts num_experts_per_tok gate experts
                            batch_size sequence_length hidden_dim hidden_states
  = inr (repeat (repeat (repeat 0%Q hidden_dim) sequence_length) batch_size,
         Dense num_local_experts gate (concat hidden_states)).
Proof.
  intros _ [Hk1 Hk]. unfold FlaxMixtralSparseMoeBlock, routing_decision.
  destruct (@route_top_k_succeeds exp
              (Dense num_local_experts gate (concat hidden_states))
              num_experts_per_tok num_local_experts
              (Dense_row_length _ _ _) Hk) as (w & sel & -> & Hl & Hw).
  cbn [bind ret].
  rewrite FlaxMixtralBlocKSparesTop2MLPCollection_returns; [reflexivity |].
  unfold Dense in Hl. rewrite length_map in Hl.
  destruct (concat hidden_states) as [| tok toks]; [left; reflexivity |].
  right. destruct w as [| r w]; [discriminate Hl |].
  cbn [map hd]. split; [discriminate |].
  inversion Hw as [| ? ? Hr _].
  destruct r; [simpl in Hr; lia | discriminate].
Qed.

Lemma block_arguments_two_tokens :
  block_arguments 1 2 1 2 1 two_expert_gate [unit_expert; zero_expert]
                  two_tokens.
Proof.
  unfold block_arguments, has_shape2. simpl.
  repeat (split || constructor).
Qed.

Lemma FlaxMixtralSparseMoeBlock_output_zero_witness :
  FlaxMixtralSparseMoeBlock rexp round_bf16 relu 1 1 2 2 two_expert_gate
                            [unit_expert; zero_expert] 1 2 1 two_tokens
  = inr ([[[0%Q]; [0%Q]]], Dense 2 two_expert_gate (concat two_tokens)).
Proof.
  apply (@FlaxMixtralSparseMoeBlock_output_zero
           rexp round_bf16 relu 1 2 2 two_expert_gate [unit_expert; zero_expert]
           1 2 1 two_tokens).
  - exact block_arguments_two_tokens.
  - lia.
Defined.

Lemma mapM_first_error A B (f : A -> result B) (x : A) (l : list A) e :
  f x = inl e -> mapM f (x :: l) = inl e.
Proof. intros H. cbn [mapM]. rewrite H. reflexivity. Qed.

(** On a non-empty input, the routing block rejects a top-k larger than
    the number of experts with [ValueError], at the first token
    ([jax.lax.top_k] on the softmax row of [num_local_experts] entries). *)
Theorem FlaxMixtralSparseMoeBlock_rejects_large_top_k
    (exp astype act_fn : Q -> Q) (intermediate_size : nat)
    (num_local_experts num_experts_per_tok : nat)
    (gate : mat) (experts : list ExpertParams)
    (batch_size sequence_length hidden_dim : nat) (hidden_states : list mat) :
  block_arguments intermediate_size num_local_experts
                  batch_size sequence_length hidden_dim
                  gate experts hidden_states ->
  (1 <= batch_size)%nat -> (1 <= sequence_length)%nat ->
  (num_local_experts < num_experts_per_tok)%nat ->
  FlaxMixtralSparseMoeBlock exp astype act_fn intermediate_size hidden_dim
                            num_local_experts num_experts_per_tok gate experts
                            batch_size sequence_length hidden_dim hidden_states
  = inl ValueError.
Proof.
  intros (Hb & Hrows & _) HB HS Hk.
  unfold FlaxMixtralSparseMoeBlock, routing_decision, route_top_k, top_k_rows.
  assert (Hne : concat hidden_states <> []).
  { destruct hidden_states as [| m rest]; [simpl in Hb; lia |].
    inversion Hrows as [| ? ? [Hm _] _].
    destruct m as [| r m]; [simpl in Hm; lia | discriminate]. }
  destruct (concat hidden_states) as [| x tokens]; [congruence |].
  cbn [Dense map].
  rewrite (@mapM_first_error _ _ _ _ _ ValueError); [reflexivity |].
  unfold lax_top_k, softmax. rewrite !length_map, length_seq.
  destruct (Nat.leb_spec num_experts_per_tok num_local_experts); [lia |].
  reflexivity.
Qed.

Lemma FlaxMixtralSparseMoeBlock_rejects_large_top_k_witness :
  FlaxMixtralSparseMoeBlock rexp round_bf16 relu 1 1 2 3 two_expert_gate
                            [unit_expert; zero_expert] 1 2 1 two_tokens
  = inl ValueError.
Proof.
  apply (@FlaxMixtralSparseMoeBlock_rejects_large_top_k
           rexp round_bf16 relu 1 2 3 two_expert_gate [unit_expert; zero_expert]
           1 2 1 two_tokens).
  - exact block_arguments_two_tokens.
  - lia.
  - lia.
  - lia.
Defined.

(** ** The value of the auxiliary loss *)

(** On the tuple of per-layer router logits that the model passes, the
    auxiliary loss is [num_experts / top_k] whatever the logits are, and 0
    when no logits are given: the result does not depend on how the tokens
    are spread over the experts. *)
Theorem load_balancing_loss_constant
    (exp : Q -> Q) (layers : list mat) (num_experts top_k : nat) :
  (forall x, (0 < exp x)%Q) ->
  concat layers <> [] ->
  Forall (Forall (fun r => length r = num_experts)) layers ->
  (1 <= top_k <= num_experts)%nat ->
  jax_load_balancing_loss_func exp GateNone num_experts top_k = inr 0%Q
  /\ exists v,
       jax_load_balancing_loss_func exp (GateTuple layers) num_experts top_k
       = inr v
       /\ (v == nq num_experts / nq top_k)%Q.
Proof.
  intros Hexp Hne Hlen Hk. split; [reflexivity |].
  destruct (@jax_load_balancing_loss_func_value exp Hexp (concat layers)
              num_experts top_k Hne) as (v & Hv & Ev).
  - apply Forall_forall. intros r Hr. apply in_concat in Hr as (l & Hl & Hr).
    rewrite Forall_forall in Hlen. specialize (Hlen _ Hl).
    rewrite Forall_forall in Hlen. auto.
  - exact Hk.
  - exists v. split; [exact Hv | exact Ev].
Qed.

Lemma load_balancing_loss_constant_witness :
  jax_load_balancing_loss_func rexp GateNone 3 2 = inr 0%Q
  /\ exists v,
       jax_load_balancing_loss_func
         rexp (GateTuple [[[1; 0; 3]]; [[0; 1; 1]; [5; 5; 5]]]%Q) 3 2
       = inr v
       /\ (v == nq 3 / nq 2)%Q.
Proof.
  apply (@load_balancing_loss_constant
           rexp [[[1; 0; 3]]; [[0; 1; 1]; [5; 5; 5]]]%Q 3 2).
  - exact rexp_pos.
  - discriminate.
  - repeat constructor.
  - lia.
Defined.

(** ** Consecutive cache writes *)

Lemma write_row_compose s (o u1 u2 : list mat) :
  (s + length u1 + length u2 <= length o)%nat ->
  write_row (s + length u1) (write_row s o u1) u2 = write_row s o (u1 ++ u2).
Proof.
  intros H. unfold write_row.
  assert (Hf : length (firstn s o ++ u1) = (s + length u1)%nat)
    by (rewrite length_app, length_firstn; lia).
  rewrite (app_assoc (firstn s o) u1).
  rewrite firstn_app, skipn_app, Hf.
  rewrite firstn_all2 by lia.
  rewrite (@skipn_all2 _ (s + length u1 + length u2) (firstn s o ++ u1)) by lia.
  replace (s + length u1 - (s + length u1))%nat with 0%nat by lia.
  replace (s + length u1 + length u2 - (s + length u1))%nat
    with (length u2) by lia.
  cbn [firstn app]. rewrite app_nil_r, skipn_skipn, length_app.
  rewrite <- !app_assoc.
  replace (length u2 + (s + length u1))%nat
    with (s + (length u1 + length u2))%nat by lia.
  reflexivity.
Qed.

Lemma write_rows_compose s n1 n2 ml :
  (s + n1 + n2 <= ml)%nat ->
  forall (c k1 k2 : tensor4),
    Forall (fun o => length o = ml) c ->
    Forall (fun u => length u = n1) k1 ->
    Forall (fun u => length u = n2) k2 ->
    map2 (write_row (s + n1)) (map2 (write_row s) c k1) k2
    = map2 (write_row s) c (map2 (@app mat) k1 k2).
Proof.
  intros Hs. induction c as [| o c IH]; intros [| u1 k1] [| u2 k2] Hc H1 H2;
    cbn [map2]; try reflexivity.
  inversion Hc as [| ? ? Ho Hc']. inversion H1 as [| ? ? Hu1 H1'].
  inversion H2 as [| ? ? Hu2 H2']. subst.
  rewrite IH by assumption. f_equal.
  apply write_row_compose. lia.
Qed.

Lemma has_shape4_rows A (t : list (list (list (list A)))) d0 d1 d2 d3 :
  has_shape4 t d0 d1 d2 d3 -> Forall (fun r => length r = d1) t.
Proof.
  intros [_ H]. eapply Forall_impl; [| exact H]. intros r [Hr _]. exact Hr.
Qed.

Lemma has_shape4_concat (k1 k2 : tensor4) B n1 n2 h d :
  has_shape4 k1 B n1 h d -> has_shape4 k2 B n2 h d ->
  has_shape4 (map2 (@app mat) k1 k2) B (n1 + n2) h d.
Proof.
  intros [L1 H1] [L2 H2]. split.
  - rewrite map2_length; [exact L1 | exact (eq_trans L1 (eq_sym L2))].
  - apply Forall_map2. intros r1 r2 Hin. rewrite Forall_forall in H1, H2.
    destruct (H1 _ (in_combine_l _ _ _ _ Hin)) as [Lr1 Hr1].
    destruct (H2 _ (in_combine_r _ _ _ _ Hin)) as [Lr2 Hr2].
    split.
    + rewrite length_app. unfold mat in *. rewrite Lr1, Lr2. reflexivity.
    + apply Forall_app. split; assumption.
Qed.

(** Token-by-token and block writes agree on the cache: two consecutive
    cached calls that write [n1] and then [n2] new slots leave the cache (both
    storages and the cursor) in the state of one call that writes the two
    blocks concatenated along the sequence axis, as long as the writes stay
    inside the cache. *)
Theorem concatenate_to_cache_writes_compose
    (cache : Cache) (q1 k1 v1 q2 k2 v2 q12 : tensor4) (m1 m2 m12 : mask4)
    (B ml n1 n2 h d hq : nat) :
  (1 <= B)%nat ->
  has_shape4 (key_cache cache) B ml h d ->
  has_shape4 (value_cache cache) B ml h d ->
  has_shape4 q1 B n1 hq d -> has_shape4 k1 B n1 h d -> has_shape4 v1 B n1 h d ->
  has_shape4 q2 B n2 hq d -> has_shape4 k2 B n2 h d -> has_shape4 v2 B n2 h d ->
  has_shape4 q12 B (n1 + n2) hq d ->
  has_shape4 m1 B 1 n1 ml -> has_shape4 m2 B 1 n2 ml ->
  has_shape4 m12 B 1 (n1 + n2) ml ->
  (0 <= index_cache cache)%Z ->
  (index_cache cache + Z.of_nat n1 + Z.of_nat n2 <= Z.of_nat ml)%Z ->
  (Z.of_nat ml < 2 ^ 31)%Z ->
  exists out1 cache1 out2 cache2 out12,
    concatenate_to_cache_ (Some cache) q1 k1 v1 (Mask4 m1)
    = inr (out1, cache1)
    /\ concatenate_to_cache_ (Some cache1) q2 k2 v2 (Mask4 m2)
       = inr (out2, cache2)
    /\ concatenate_to_cache_ (Some cache) q12 (map2 (@app mat) k1 k2)
                             (map2 (@app mat) v1 v2) (Mask4 m12)
       = inr (out12, cache2).
Proof.
  intros HB Hkc Hvc Hq1 Hk1 Hv1 Hq2 Hk2 Hv2 Hq12 Hm1 Hm2 Hm12 H0 Hfit H31.
  set (c := index_cache cache) in *.
  assert (Hn1 : (n1 <= ml)%nat) by lia.
  assert (Hn2 : (n2 <= ml)%nat) by lia.
  assert (Hn12 : (n1 + n2 <= ml)%nat) by lia.
  assert (Hs1 : write_start ml n1 c = Z.to_nat c)
    by (rewrite write_start_nonneg by lia; f_equal; lia).
  assert (Hs12 : write_start ml (n1 + n2) c = Z.to_nat c)
    by (rewrite write_start_nonneg by lia; f_equal; lia).
  assert (Hi1 : int32_wrap (c + Z.of_nat n1) = (c + Z.of_nat n1)%Z)
    by (apply int32_wrap_small; lia).
  assert (Hs2 : write_start ml n2 (c + Z.of_nat n1) = (Z.to_nat c + n1)%nat)
    by (rewrite write_start_nonneg by lia; lia).
  pose proof (@concatenate_to_cache_shaped cache q1 k1 v1 m1 B ml n1 h d hq
                HB Hkc Hvc Hq1 Hk1 Hv1 Hm1 Hn1) as E1.
  cbv zeta in E1. fold c in E1. rewrite Hs1, Hi1 in E1.
  assert (Hfit1 : (Z.to_nat c + n1 <= ml)%nat) by lia.
  pose proof (@written_shape _ _ B ml n1 h d (Z.to_nat c) Hkc Hk1 Hfit1) as Hkc1.
  pose proof (@written_shape _ _ B ml n1 h d (Z.to_nat c) Hvc Hv1 Hfit1) as Hvc1.
  pose proof (@concatenate_to_cache_shaped
                {| key_cache := map2 (write_row (Z.to_nat c)) (key_cache cache) k1;
                   value_cache := map2 (write_row (Z.to_nat c)) (value_cache cache) v1;
                   index_cache := (c + Z.of_nat n1)%Z |}
                q2 k2 v2 m2 B ml n2 h d hq
                HB Hkc1 Hvc1 Hq2 Hk2 Hv2 Hm2 Hn2) as E2.
  cbv zeta in E2. cbn [key_cache value_cache index_cache] in E2.
  rewrite Hs2 in E2.
  rewrite int32_wrap_small in E2 by lia.
  pose proof (@concatenate_to_cache_shaped cache q12 (map2 (@app mat) k1 k2)
                (map2 (@app mat) v1 v2) m12 B ml (n1 + n2) h d hq
                HB Hkc Hvc Hq12 (has_shape4_concat Hk1 Hk2)
                (has_shape4_concat Hv1 Hv2) Hm12 Hn12) as E12.
  cbv zeta in E12. fold c in E12. rewrite Hs12 in E12.
  rewrite int32_wrap_small in E12 by lia.
  do 5 eexists. split; [exact E1 |]. split; [exact E2 |].
  rewrite E12. f_equal. f_equal.
  assert (Hfit12 : (Z.to_nat c + n1 + n2 <= ml)%nat) by lia.
  rewrite (@write_rows_compose (Z.to_nat c) n1 n2 ml Hfit12
             (key_cache cache) k1 k2
             (has_shape4_rows Hkc) (has_shape4_rows Hk1) (has_shape4_rows Hk2)).
  rewrite (@write_rows_compose (Z.to_nat c) n1 n2 ml Hfit12
             (value_cache cache) v1 v2
             (has_shape4_rows Hvc) (has_shape4_rows Hv1) (has_shape4_rows Hv2)).
  f_equal. rewrite Nat2Z.inj_add. lia.
Qed.

Lemma concatenate_to_cache_writes_compose_witness :
  exists out1 cache1 out2 cache2 out12,
    concatenate_to_cache_ (Some fresh_cache) overflow_token overflow_token
                          overflow_token (Mask4 [[[[true; true]]]])
    = inr (out1, cache1)
    /\ concatenate_to_cache_ (Some cache1) [[ [[7%Q]] ]] [[ [[7%Q]] ]]
                             [[ [[7%Q]] ]] (Mask4 [[[[true; true]]]])
       = inr (out2, cache2)
    /\ concatenate_to_cache_ (Some fresh_cache) [[ [[9%Q]]; [[7%Q]] ]]
                             (map2 (@app mat) overflow_token [[ [[7%Q]] ]])
                             (map2 (@app mat) overflow_token [[ [[7%Q]] ]])
                             (Mask4 [[[[true; true]; [true; true]]]])
       = inr (out12, cache2).
Proof.
  apply (@concatenate_to_cache_writes_compose
           fresh_cache overflow_token overflow_token overflow_token
           [[ [[7%Q]] ]] [[ [[7%Q]] ]] [[ [[7%Q]] ]] [[ [[9%Q]]; [[7%Q]] ]]
           [[[[true; true]]]] [[[[true; true]]]] [[[[true; true]; [true; true]]]]
           1 2 1 1 1 1 1);
    try (shape4; fail); simpl; lia.
Defined.

(** ** The mask of a cached call *)

Lemma causal_mask_entry B n ml start b i j :
  (b < B)%nat -> (i < n)%nat -> (j < ml)%nat ->
  entry (repeat [map (causal_row ml) (seq start n)] B) b i j
  = (j <=? start + i)%nat.
Proof.
  intros Hb Hi Hj. unfold entry.
  rewrite nth_repeat_lt by assumption. cbn [nth].
  rewrite (nth_indep _ [] (causal_row ml 0))
    by (now rewrite length_map, length_seq).
  rewrite map_nth, seq_nth by assumption.
  unfold causal_row. apply (nth_map_seq (fun j => (j <=? start + i)%nat)).
  assumption.
Qed.

Lemma causal_mask_shape B n ml start :
  has_shape4 (repeat [map (causal_row ml) (seq start n)] B) B 1 n ml.
Proof.
  unfold has_shape4, rows_of.
  split; [apply repeat_length |]. apply Forall_forall. intros x Hx.
  apply repeat_spec in Hx. subst x. split; [reflexivity |].
  constructor; [| constructor]. split; [now rewrite length_map, length_seq |].
  apply Forall_forall. intros y Hy. apply in_map_iff in Hy as (r & <- & _).
  split; [unfold causal_row; now rewrite length_map, length_seq |].
  apply Forall_forall. auto.
Qed.

Lemma combined_shape (a b : mask4) B q kv :
  has_shape4 a B 1 q kv -> has_shape4 b B 1 q kv ->
  has_shape4 (map2 (map2 (map2 (map2 andb))) a b) B 1 q kv.
Proof.
  intros [La Ha] [Lb Hb]. split.
  - rewrite map2_length; [exact La | exact (eq_trans La (eq_sym Lb))].
  - apply Forall_map2. intros x y Hin. rewrite Forall_forall in Ha, Hb.
    destruct (Ha _ (in_combine_l _ _ _ _ Hin)) as [Lx Hx].
    destruct (Hb _ (in_combine_r _ _ _ _ Hin)) as [Ly Hy].
    split; [rewrite map2_length; [exact Lx | exact (eq_trans Lx (eq_sym Ly))] |].
    apply Forall_map2. intros x1 y1 Hin1. rewrite Forall_forall in Hx, Hy.
    destruct (Hx _ (in_combine_l _ _ _ _ Hin1)) as [Lx1 Hx1].
    destruct (Hy _ (in_combine_r _ _ _ _ Hin1)) as [Ly1 Hy1].
    split; [rewrite map2_length; [exact Lx1 | exact (eq_trans Lx1 (eq_sym Ly1))] |].
    apply Forall_map2. intros x2 y2 Hin2. rewrite Forall_forall in Hx1, Hy1.
    destruct (Hx1 _ (in_combine_l _ _ _ _ Hin2)) as [Lx2 _].
    destruct (Hy1 _ (in_combine_r _ _ _ _ Hin2)) as [Ly2 _].
    split; [rewrite map2_length; [exact Lx2 | exact (eq_trans Lx2 (eq_sym Ly2))] |].
    apply Forall_forall. auto.
Qed.

Lemma hd_length_shape4 (t : tensor4) d0 d1 d2 d3 :
  (1 <= d0)%nat -> has_shape4 t d0 d1 d2 d3 -> length (hd [] t) = d1.
Proof.
  intros Hd [L H]. destruct t as [| r t]; [simpl in L; lia |].
  inversion H as [| ? ? [Hr _] _]. exact Hr.
Qed.

(** The mask that a cached call attends with, in general. *)
Lemma cached_attention_mask_entries
    (cache : Cache) (query key value : tensor4) (attention_mask : mask4)
    (B ml n h d hq c_max : nat) :
  (1 <= B)%nat ->
  has_shape4 (key_cache cache) B ml h d ->
  has_shape4 (value_cache cache) B ml h d ->
  has_shape4 query B n hq d ->
  has_shape4 key B n h d ->
  has_shape4 value B n h d ->
  has_shape4 attention_mask B 1 n ml ->
  (n <= ml)%nat -> (ml <= c_max)%nat ->
  (0 <= index_cache cache)%Z ->
  (index_cache cache + Z.of_nat n < 2 ^ 31)%Z ->
  let cursor := (index_cache cache + Z.of_nat n)%Z in
  let start := Z.to_nat (Z.min cursor (Z.of_nat c_max - Z.of_nat n)) in
  exists key' value' mask' cache' effective,
    concatenate_to_cache_ (Some cache) query key value (Mask4 attention_mask)
    = inr ((query, key', value', Mask4 mask'), cache')
    /\ cached_attention_mask c_max cache' query mask' = inr effective
    /\ forall b i j, (b < B)%nat -> (i < n)%nat -> (j < ml)%nat ->
         entry effective b i j
         = ((Z.of_nat j <? cursor)%Z && entry attention_mask b i j
            && (j <=? start + i)%nat)%bool.
Proof.
  intros HB Hkc Hvc Hq Hk Hv Hm Hn Hml H0 H31 cursor start.
  pose proof (@concatenate_to_cache_shaped cache query key value attention_mask
                B ml n h d hq HB Hkc Hvc Hq Hk Hv Hm Hn) as E.
  cbv zeta in E. rewrite int32_wrap_small in E by lia. fold cursor in E.
  set (s := write_start ml n (index_cache cache)) in *.
  assert (Hs : (s + n <= ml)%nat) by (apply write_start_fits; exact Hn).
  pose proof (@written_shape _ _ B ml n h d s Hkc Hk Hs) as Hkc'.
  pose proof (combined_shape (pad_mask_shape B n ml cursor) Hm) as Hm'.
  do 5 eexists. split; [exact E |].
  unfold cached_attention_mask. cbn [key_cache index_cache].
  rewrite (hd_length_shape4 HB Hq), (hd_length_shape4 HB Hkc').
  unfold causal_mask_slice.
  assert (Hle : ((n <=? c_max)%nat && (ml <=? c_max)%nat)%bool = true).
  { apply andb_true_intro. split; apply Nat.leb_le; lia. }
  rewrite Hle. cbn [bind ret hd].
  assert (Hstart : Z.to_nat
                     (clamp 0 (Z.of_nat c_max - Z.of_nat n)
                        (if (cursor <? 0)%Z then (cursor + Z.of_nat c_max)%Z
                         else cursor))
                   = start).
  { destruct (Z.ltb_spec cursor 0); [subst cursor; lia |].
    unfold clamp. subst start. lia. }
  rewrite Hstart.
  assert (HBq : length query = B) by (destruct Hq; assumption).
  rewrite HBq.
  rewrite (combine_masks_shaped Hm' (causal_mask_shape B n ml start)).
  split; [reflexivity |].
  intros b i j Hb Hi Hj.
  rewrite (@entry_combined _ _ B n ml b i j Hm' (causal_mask_shape B n ml start)
             Hb Hi Hj).
  rewrite (@entry_combined _ _ B n ml b i j (pad_mask_shape B n ml cursor) Hm
             Hb Hi Hj).
  rewrite pad_mask_entry by assumption.
  rewrite causal_mask_entry by assumption. reflexivity.
Qed.

(** In a cached call the causal mask removes nothing.  The mask is sliced
    at the cursor as it is after the write (line 459 reads the index that
    [concatenate_to_cache_] has already advanced), so every one of the [n]
    new query positions attends to all the slots below the new cursor that
    the supplied mask allows, the later new tokens included.  This holds
    while the slice stays inside the causal mask
    ([cursor + 2 n <= c_max_position_embeddings]). *)
Theorem cached_call_mask_is_not_causal
    (cache : Cache) (query key value : tensor4) (attention_mask : mask4)
    (B ml n h d hq c_max : nat) :
  (1 <= B)%nat ->
  has_shape4 (key_cache cache) B ml h d ->
  has_shape4 (value_cache cache) B ml h d ->
  has_shape4 query B n hq d ->
  has_shape4 key B n h d ->
  has_shape4 value B n h d ->
  has_shape4 attention_mask B 1 n ml ->
  (n <= ml)%nat -> (ml <= c_max)%nat ->
  (0 <= index_cache cache)%Z ->
  (index_cache cache + 2 * Z.of_nat n <= Z.of_nat c_max)%Z ->
  (Z.of_nat c_max < 2 ^ 31)%Z ->
  exists key' value' mask' cache' effective,
    concatenate_to_cache_ (Some cache) query key value (Mask4 attention_mask)
    = inr ((query, key', value', Mask4 mask'), cache')
    /\ cached_attention_mask c_max cache' query mask' = inr effective
    /\ forall b i j, (b < B)%nat -> (i < n)%nat -> (j < ml)%nat ->
         entry effective b i j
         = ((Z.of_nat j <? index_cache cache + Z.of_nat n)%Z
            && entry attention_mask b i j)%bool.
Proof.
  intros HB Hkc Hvc Hq Hk Hv Hm Hn Hml H0 Hfit H31.
  destruct (@cached_attention_mask_entries cache query key value attention_mask
              B ml n h d hq c_max HB Hkc Hvc Hq Hk Hv Hm Hn Hml H0)
    as (key' & value' & mask' & cache' & effective & E1 & E2 & Hent); [lia |].
  exists key', value', mask', cache', effective.
  split; [exact E1 |]. split; [exact E2 |].
  intros b i j Hb Hi Hj. rewrite (Hent b i j Hb Hi Hj).
  destruct (Z.ltb_spec (Z.of_nat j) (index_cache cache + Z.of_nat n)) as [Hlt | Hge];
    [| reflexivity].
  cbn [andb].
  assert (Hc : (j <=? Z.to_nat (Z.min (index_cache cache + Z.of_nat n)
                                      (Z.of_nat c_max - Z.of_nat n)) + i)%nat
               = true) by (apply Nat.leb_le; lia).
  rewrite Hc. apply andb_true_r.
Qed.

Lemma cached_call_mask_is_not_causal_witness :
  exists key' value' mask' cache' effective,
    concatenate_to_cache_ (Some fresh_cache) [[ [[9%Q]]; [[7%Q]] ]]
                          [[ [[9%Q]]; [[7%Q]] ]] [[ [[9%Q]]; [[7%Q]] ]]
                          (Mask4 [[[[true; true]; [true; true]]]])
    = inr (([[ [[9%Q]]; [[7%Q]] ]], key', value', Mask4 mask'), cache')
    /\ cached_attention_mask 4 cache' [[ [[9%Q]]; [[7%Q]] ]] mask'
       = inr effective
    /\ forall b i j, (b < 1)%nat -> (i < 2)%nat -> (j < 2)%nat ->
         entry effective b i j
         = ((Z.of_nat j <? index_cache fresh_cache + Z.of_nat 2)%Z
            && entry [[[[true; true]; [true; true]]]] b i j)%bool.
Proof.
  apply (@cached_call_mask_is_not_causal
           fresh_cache [[ [[9%Q]]; [[7%Q]] ]] [[ [[9%Q]]; [[7%Q]] ]]
           [[ [[9%Q]]; [[7%Q]] ]] [[[[true; true]; [true; true]]]]
           1 2 2 1 1 1 4);
    try (shape4; fail); simpl; lia.
Defined.

(** ** An update longer than the cache *)

(** A cached call whose new key block has more positions than the cache has
    slots is rejected: [jax.lax.dynamic_update_slice] requires the update to
    fit. *)
Theorem concatenate_to_cache_rejects_long_update
    (cache : Cache) (query key value : tensor4) (attention_mask : Mask)
    (B ml n h d h' d' : nat) :
  (1 <= B)%nat ->
  has_shape4 (key_cache cache) B ml h d ->
  has_shape4 key B n h' d' ->
  (ml < n)%nat ->
  concatenate_to_cache_ (Some cache) query key value attention_mask
  = inl TypeError.
Proof.
  intros HB [Lc Hc] [Lk Hk] Hn.
  unfold concatenate_to_cache_, dynamic_update_slice.
  unfold dynamic_update_axis at 1.
  rewrite Lc, Lk, Nat.leb_refl.
  change (0 <? 0)%Z with false. cbv iota.
  replace (Z.to_nat (clamp 0 (Z.of_nat B - Z.of_nat B) 0)) with 0%nat
    by (unfold clamp; lia).
  cbn [skipn]. rewrite firstn_all2 by lia.
  destruct (key_cache cache) as [| o oc]; [simpl in Lc; lia |].
  destruct key as [| u uk]; [simpl in Lk; lia |].
  inversion Hc as [| ? ? [Lo _] _]. inversion Hk as [| ? ? [Lu _] _].
  cbn [mapM2]. unfold dynamic_update_axis at 1.
  unfold mat in *. rewrite Lo, Lu.
  destruct (Nat.leb_spec n ml); [lia |]. reflexivity.
Qed.

Lemma concatenate_to_cache_rejects_long_update_witness :
  concatenate_to_cache_ (Some fresh_cache)
                        [[ [[9%Q]]; [[7%Q]]; [[5%Q]] ]]
                        [[ [[9%Q]]; [[7%Q]]; [[5%Q]] ]]
                        [[ [[9%Q]]; [[7%Q]]; [[5%Q]] ]]
                        (Mask4 [[[[true; true]]]])
  = inl TypeError.
Proof.
  apply (@concatenate_to_cache_rejects_long_update
           fresh_cache _ [[ [[9%Q]]; [[7%Q]]; [[5%Q]] ]] _ _ 1 2 3 1 1 1 1);
    try (shape4; fail); simpl; lia.
Defined.

(** ** Preparing and updating the decoding inputs *)

Lemma int32_wrap_range z : (- 2 ^ 31 <= z < 2 ^ 31)%Z -> int32_wrap z = z.
Proof.
  intros H. unfold int32_wrap.
  rewrite Z.mod_small by (change (2 ^ 32)%Z with (2 ^ 31 + 2 ^ 31)%Z; lia).
  lia.
Qed.

Lemma cumsum_from_ones v :
  forall acc, (0 <= acc)%Z -> (acc + Z.of_nat v < 2 ^ 31)%Z ->
    cumsum_from acc (repeat 1%Z v)
    = map (fun i => (acc + 1 + Z.of_nat i)%Z) (seq 0 v).
Proof.
  induction v as [| v IH]; intros acc H0 H31; [reflexivity |].
  cbn [repeat cumsum_from seq map].
  rewrite int32_wrap_range by lia.
  rewrite IH by lia. rewrite <- seq_shift, map_map.
  f_equal; [lia |]. apply map_ext. intros i. lia.
Qed.

Lemma cumsum_from_zeros p (rest : list Z) :
  forall acc, (0 <= acc < 2 ^ 31)%Z ->
    cumsum_from acc (repeat 0%Z p ++ rest)
    = repeat acc p ++ cumsum_from acc rest.
Proof.
  induction p as [| p IH]; intros acc H; [reflexivity |].
  cbn [repeat app cumsum_from].
  rewrite Z.add_0_r, int32_wrap_range by lia.
  rewrite IH by lia. reflexivity.
Qed.

(** The positions of a left-padded row: -1 on the padding, then 0, 1, ... *)
Lemma left_padded_positions p v :
  (Z.of_nat v < 2 ^ 31)%Z ->
  map (fun c => int32_wrap (c - 1)) (cumsum (repeat 0%Z p ++ repeat 1%Z v))
  = repeat (-1)%Z p ++ map Z.of_nat (seq 0 v).
Proof.
  intros H. unfold cumsum.
  rewrite cumsum_from_zeros by lia. rewrite cumsum_from_ones by lia.
  rewrite map_app, map_repeat, map_map. f_equal.
  apply map_ext_in. intros i Hi. apply in_seq in Hi.
  rewrite int32_wrap_range by lia. lia.
Qed.

Lemma dynamic_update_prefix A (o u : list A) :
  (length u <= length o)%nat ->
  dynamic_update_axis (fun _ x => ret x) o u 0 = inr (u ++ skipn (length u) o).
Proof.
  intros H.
  pose proof (@dynamic_update_axis_replace _ (fun _ x => ret x) o u 0%Z H
                (fun x y _ _ => eq_refl)) as E.
  cbv zeta in E. rewrite E. change (0 <? 0)%Z with false. cbv iota.
  replace (Z.to_nat (clamp 0 (Z.of_nat (length o) - Z.of_nat (length u)) 0))
    with 0%nat by (unfold clamp; lia).
  reflexivity.
Qed.

Lemma skipn_repeat_sub A (x : A) n :
  forall m, skipn n (repeat x m) = repeat x (m - n).
Proof.
  induction n as [| n IH]; intros [| m]; cbn [skipn repeat Nat.sub];
    try reflexivity.
  apply IH.
Qed.

(** The mask over the whole decoding length: every row of the given mask,
    followed by ones. *)
Lemma extended_mask_rows (ml s : nat) (mask : list (list Z)) :
  (s <= ml)%nat ->
  Forall (fun row => length row = s) mask ->
  dynamic_update_axis
    (fun o u => dynamic_update_axis (fun _ x => ret x) o u 0%Z)
    (repeat (repeat 1%Z ml) (length mask)) mask 0%Z
  = inr (map (fun row => row ++ repeat 1%Z (ml - s)) mask).
Proof.
  intros Hs Hrows.
  rewrite (@dynamic_update_axis_full _ _ (fun o u => u ++ skipn (length u) o)).
  - f_equal. induction Hrows as [| row mask Hrow Hrows IH]; [reflexivity |].
    cbn [length repeat map2 map]. rewrite IH. f_equal.
    rewrite Hrow, skipn_repeat_sub. reflexivity.
  - apply repeat_length.
  - intros o u Hin.
    pose proof (in_combine_l _ _ _ _ Hin) as Ho. apply repeat_spec in Ho.
    pose proof (in_combine_r _ _ _ _ Hin) as Hu.
    rewrite Forall_forall in Hrows. specialize (Hrows _ Hu).
    apply dynamic_update_prefix. subst o. rewrite repeat_length. lia.
Qed.

Lemma left_padded_rows s pads :
  Forall (fun p => (p <= s)%nat) pads ->
  Forall (fun row : list Z => length row = s) (left_padded_mask s pads).
Proof.
  intros H. unfold left_padded_mask. rewrite Forall_map.
  eapply Forall_impl; [| exact H]. intros p Hp. cbv beta in Hp.
  rewrite length_app, !repeat_length. lia.
Qed.

Lemma prepare_inputs_for_generation_padded
    (config : MixtralConfig) (pads : list nat) (s : nat) (max_length : N)
    (pkv : list Cache) :
  init_cache config (N.of_nat (length pads)) max_length = inr pkv ->
  (s <= N.to_nat max_length)%nat ->
  (Z.of_nat s < 2 ^ 31)%Z ->
  Forall (fun p => (p <= s)%nat) pads ->
  prepare_inputs_for_generation
    config [N.of_nat (length pads); N.of_nat s] max_length
    (Some (left_padded_mask s pads))
  = inr {| gen_past_key_values := pkv;
           gen_attention_mask := left_padded_mask (N.to_nat max_length) pads;
           gen_position_ids :=
             map (fun p => repeat (-1)%Z p ++ map Z.of_nat (seq 0 (s - p)))
                 pads |}.
Proof.
  intros Hinit Hs H31 Hpads. unfold prepare_inputs_for_generation.
  rewrite Hinit. cbn [bind ret]. rewrite Nnat.Nat2N.id.
  replace (length pads) with (length (left_padded_mask s pads)) at 1
    by (unfold left_padded_mask; apply length_map).
  rewrite (@extended_mask_rows (N.to_nat max_length) s _ Hs
             (left_padded_rows Hpads)).
  cbn [bind ret]. unfold ret. f_equal. f_equal.
  - unfold left_padded_mask. rewrite map_map. apply map_ext_in.
    intros p Hp. rewrite Forall_forall in Hpads. specialize (Hpads _ Hp).
    rewrite <- app_assoc, <- repeat_app. do 2 f_equal. lia.
  - unfold left_padded_mask. rewrite map_map. apply map_ext_in.
    intros p Hp. apply left_padded_positions. lia.
Qed.

Lemma init_cache_well_formed (config : MixtralConfig) (b max_length : N) :
  well_formed config ->
  (1 <= num_hidden_layers config)%Z ->
  (1 <= max_length)%N ->
  (Z.of_N max_length <= c_max_position_embeddings config)%Z ->
  exists pkv, init_cache config b max_length = inr pkv.
Proof.
  intros (H1 & H2 & H3 & H4 & H5 & H6 & H7 & _) HL Hm H8.
  eexists.
  apply (@init_cache_layers config b max_length H1 H2 H3 H4 H5 H6 H7 HL Hm H8).
Qed.

(** On a configuration that [init_cache] accepts ([well_formed], at
    least one layer, [1 <= max_length <= c_max_position_embeddings]), for a
    non-empty batch with a left-padded mask (row [r] has [p_r] zeros, then
    ones) over [s <= max_length] positions, [s < 2^31], the prepared mask is
    the given mask extended with ones to [max_length], and the positions
    count the valid tokens: -1 on the padding, then 0, 1, ..., so that the
    first real token of every row is at position 0. *)
Theorem prepare_inputs_for_generation_left_padded
    (config : MixtralConfig) (pads : list nat) (s : nat) (max_length : N) :
  well_formed config ->
  (1 <= num_hidden_layers config)%Z ->
  (1 <= length pads)%nat ->
  (1 <= max_length)%N ->
  (Z.of_N max_length <= c_max_position_embeddings config)%Z ->
  (s <= N.to_nat max_length)%nat ->
  (Z.of_nat s < 2 ^ 31)%Z ->
  Forall (fun p => (p <= s)%nat) pads ->
  exists pkv,
    init_cache config (N.of_nat (length pads)) max_length = inr pkv
    /\ prepare_inputs_for_generation
         config [N.of_nat (length pads); N.of_nat s] max_length
         (Some (left_padded_mask s pads))
       = inr {| gen_past_key_values := pkv;
                gen_attention_mask := left_padded_mask (N.to_nat max_length) pads;
                gen_position_ids :=
                  map (fun p => repeat (-1)%Z p ++ map Z.of_nat (seq 0 (s - p)))
                      pads |}.
Proof.
  intros Hok HL _ Hm1 Hml Hs H31 Hpads.
  destruct (@init_cache_well_formed config (N.of_nat (length pads)) max_length
              Hok HL Hm1 Hml) as (pkv & Hinit).
  exists pkv. split; [exact Hinit |].
  apply prepare_inputs_for_generation_padded; assumption.
Qed.

Lemma prepare_inputs_for_generation_left_padded_witness :
  exists pkv,
    init_cache scenario_config (N.of_nat (length [0; 2]%nat)) 8 = inr pkv
    /\ prepare_inputs_for_generation
         scenario_config [N.of_nat (length [0; 2]%nat); N.of_nat 3] 8
         (Some (left_padded_mask 3 [0; 2]%nat))
       = inr {| gen_past_key_values := pkv;
                gen_attention_mask := left_padded_mask (N.to_nat 8) [0; 2]%nat;
                gen_position_ids :=
                  map (fun p => repeat (-1)%Z p ++ map Z.of_nat (seq 0 (3 - p)))
                      [0; 2]%nat |}.
Proof.
  apply (@prepare_inputs_for_generation_left_padded scenario_config
           [0; 2]%nat 3 8).
  - exact well_formed_scenario.
  - simpl. lia.
  - simpl. lia.
  - lia.
  - simpl. lia.
  - simpl. lia.
  - simpl. lia.
  - repeat constructor.
Defined.

Lemma left_padded_none s b :
  left_padded_mask s (repeat 0%nat b) = repeat (repeat 1%Z s) b.
Proof.
  unfold left_padded_mask. rewrite map_repeat. cbn [repeat app].
  rewrite Nat.sub_0_r. reflexivity.
Qed.

(** On a configuration that [init_cache] accepts ([well_formed], at
    least one layer, [1 <= max_length <= c_max_position_embeddings]), for a
    batch of [b >= 1] rows of [s <= max_length] positions, [s < 2^31],
    passing the all-ones mask is the same as passing no mask: both give the
    all-ones mask of length [max_length] and the positions 0 .. s-1 in every
    row. *)
Theorem prepare_inputs_for_generation_all_valid
    (config : MixtralConfig) (b s : nat) (max_length : N) :
  well_formed config ->
  (1 <= num_hidden_layers config)%Z ->
  (1 <= b)%nat ->
  (1 <= max_length)%N ->
  (Z.of_N max_length <= c_max_position_embeddings config)%Z ->
  (s <= N.to_nat max_length)%nat ->
  (Z.of_nat s < 2 ^ 31)%Z ->
  exists pkv,
    prepare_inputs_for_generation config [N.of_nat b; N.of_nat s] max_length None
    = inr {| gen_past_key_values := pkv;
             gen_attention_mask := repeat (repeat 1%Z (N.to_nat max_length)) b;
             gen_position_ids := repeat (map Z.of_nat (seq 0 s)) b |}
    /\ prepare_inputs_for_generation config [N.of_nat b; N.of_nat s] max_length
                                     (Some (repeat (repeat 1%Z s) b))
       = prepare_inputs_for_generation config [N.of_nat b; N.of_nat s]
                                       max_length None.
Proof.
  intros Hok HL _ Hm1 Hml Hs H31.
  destruct (@init_cache_well_formed config (N.of_nat b) max_length
              Hok HL Hm1 Hml)
    as (pkv & Hinit).
  exists pkv.
  assert (Hnone :
    prepare_inputs_for_generation config [N.of_nat b; N.of_nat s] max_length None
    = inr {| gen_past_key_values := pkv;
             gen_attention_mask := repeat (repeat 1%Z (N.to_nat max_length)) b;
             gen_position_ids := repeat (map Z.of_nat (seq 0 s)) b |}).
  { unfold prepare_inputs_for_generation. rewrite Hinit. cbn [bind ret].
    unfold ret. rewrite !Nnat.Nat2N.id. do 3 f_equal.
    apply map_ext_in. intros i Hi. apply in_seq in Hi.
    apply int32_wrap_range. lia. }
  split; [exact Hnone |]. rewrite Hnone.
  pose proof (@prepare_inputs_for_generation_padded config (repeat 0%nat b) s
                max_length pkv) as E.
  rewrite repeat_length, !left_padded_none in E.
  rewrite E; try assumption.
  - rewrite map_repeat. cbn [repeat app]. rewrite Nat.sub_0_r. reflexivity.
  - apply Forall_forall. intros p Hp. apply repeat_spec in Hp. lia.
Qed.

Lemma prepare_inputs_for_generation_all_valid_witness :
  exists pkv,
    prepare_inputs_for_generation scenario_config [N.of_nat 2; N.of_nat 3] 8 None
    = inr {| gen_past_key_values := pkv;
             gen_attention_mask := repeat (repeat 1%Z (N.to_nat 8)) 2;
             gen_position_ids := repeat (map Z.of_nat (seq 0 3)) 2 |}
    /\ prepare_inputs_for_generation scenario_config [N.of_nat 2; N.of_nat 3] 8
                                     (Some (repeat (repeat 1%Z 3) 2))
       = prepare_inputs_for_generation scenario_config [N.of_nat 2; N.of_nat 3]
                                       8 None.
Proof.
  apply (@prepare_inputs_for_generation_all_valid scenario_config 2 3 8).
  - exact well_formed_scenario.
  - simpl. lia.
  - lia.
  - lia.
  - simpl. lia.
  - simpl. lia.
  - simpl. lia.
Defined.

Lemma last_position p v :
  (1 <= p + v)%nat -> (Z.of_nat v < 2 ^ 31 - 1)%Z ->
  let row := repeat (-1)%Z p ++ map Z.of_nat (seq 0 v) in
  map (fun x => int32_wrap (x + 1)) (skipn (length row - 1) row)
  = [Z.of_nat v].
Proof.
  intros H1 H31 row. subst row.
  rewrite length_app, repeat_length, length_map, length_seq.
  destruct v as [| v].
  - rewrite Nat.add_0_r. cbn [seq map]. rewrite app_nil_r.
    destruct p as [| p]; [lia |].
    replace (S p - 1)%nat with p by lia.
    change (repeat (-1)%Z (S p)) with (repeat (-1)%Z (1 + p)).
    rewrite Nat.add_comm, repeat_app, skipn_app, repeat_length, Nat.sub_diag.
    rewrite skipn_all2 by (rewrite repeat_length; lia).
    reflexivity.
  - rewrite skipn_app, repeat_length.
    rewrite skipn_all2 by (rewrite repeat_length; lia).
    replace (p + S v - 1 - p)%nat with v by lia.
    cbn [app].
    rewrite seq_S, (map_app Z.of_nat), skipn_app, length_map, length_seq,
      Nat.sub_diag.
    rewrite skipn_all2 by (rewrite length_map, length_seq; lia).
    cbn [app skipn map Nat.add]. rewrite int32_wrap_range by lia.
    f_equal. lia.
Qed.

(** After the prompt, the next position of every row is its number of valid
    tokens: [update_inputs_for_generation] on the prepared inputs of a
    left-padded batch keeps the extended mask, installs the new cache and
    sets the positions of row [r] to [[s - p_r]]. *)
Theorem update_inputs_for_generation_next_position
    (config : MixtralConfig) (pads : list nat) (s : nat) (max_length : N)
    (prepared : GenerationInputs) (new_past : list Cache) :
  (1 <= s)%nat ->
  (s <= N.to_nat max_length)%nat ->
  (Z.of_nat s < 2 ^ 31 - 1)%Z ->
  Forall (fun p => (p <= s)%nat) pads ->
  prepare_inputs_for_generation
    config [N.of_nat (length pads); N.of_nat s] max_length
    (Some (left_padded_mask s pads))
  = inr prepared ->
  update_inputs_for_generation new_past prepared
  = {| gen_past_key_values := new_past;
       gen_attention_mask := left_padded_mask (N.to_nat max_length) pads;
       gen_position_ids := map (fun p => [Z.of_nat (s - p)]) pads |}.
Proof.
  intros H1 Hs H31 Hpads Hprep.
  assert (Hinit : exists pkv,
             init_cache config (N.of_nat (length pads)) max_length = inr pkv).
  { unfold prepare_inputs_for_generation in Hprep.
    destruct (init_cache config (N.of_nat (length pads)) max_length) as [e | pkv];
      [discriminate | eexists; reflexivity]. }
  destruct Hinit as (pkv & Hinit).
  rewrite (@prepare_inputs_for_generation_padded config pads s max_length pkv
             Hinit Hs) in Hprep; [| lia | assumption].
  inversion Hprep; subst prepared. clear Hprep.
  unfold update_inputs_for_generation.
  cbn [gen_past_key_values gen_attention_mask gen_position_ids].
  f_equal. rewrite map_map. apply map_ext_in. intros p Hp.
  rewrite Forall_forall in Hpads. specialize (Hpads _ Hp).
  apply last_position; lia.
Qed.

Lemma update_inputs_for_generation_next_position_witness :
  update_inputs_for_generation
    []
    {| gen_past_key_values :=
         repeat {| key_cache := jnp_zeros4 2 8 4 16;
                   value_cache := jnp_zeros4 2 8 4 16;
                   index_cache := 0 |} 2;
       gen_attention_mask := left_padded_mask 8 [0; 2]%nat;
       gen_position_ids := [[0; 1; 2]; [-1; -1; 0]]%Z |}
  = {| gen_past_key_values := [];
       gen_attention_mask := left_padded_mask (N.to_nat 8) [0; 2]%nat;
       gen_position_ids := map (fun p => [Z.of_nat (3 - p)]) [0; 2]%nat |}.
Proof.
  apply (@update_inputs_for_generation_next_position scenario_config
           [0; 2]%nat 3 8).
  - lia.
  - simpl. lia.
  - simpl. lia.
  - repeat constructor.
  - vm_compute. reflexivity.
Defined.

(** ** The forward pass with a cache *)

Lemma fits_same_but_length b s ml h d :
  (s <= ml)%N -> fits [b; s; h; d] [b; ml; h; d] = true.
Proof.
  intros H. cbn [fits]. rewrite !N.leb_refl.
  apply N.leb_le in H. rewrite H. reflexivity.
Qed.

Lemma broadcast_shapes_scores b h s ml :
  broadcast_shapes [b; h; s; ml]%N [b; 1; s; ml]%N = inr [b; h; s; ml]%N.
Proof.
  cbn [broadcast_shapes]. rewrite !N.eqb_refl. cbn [bind ret].
  destruct (h =? 1)%N; reflexivity.
Qed.

Lemma caches_of_repeat (config : MixtralConfig) (vars : CacheShape) :
  caches_of config (Some (repeat vars (Z.to_nat (num_hidden_layers config))))
  = repeat (Some vars) (Z.to_nat (num_hidden_layers config)).
Proof.
  unfold caches_of. set (n := Z.to_nat (num_hidden_layers config)).
  apply nth_ext with (d := None) (d' := None).
  - rewrite length_map, length_seq, repeat_length. reflexivity.
  - intros i Hi. rewrite length_map, length_seq in Hi.
    rewrite (nth_indep _ None (nth_error (repeat vars n) 0))
      by (now rewrite length_map, length_seq).
    rewrite map_nth, seq_nth by assumption. cbn [Nat.add].
    rewrite nth_repeat_lt by assumption.
    rewrite (nth_error_nth' _ vars) by (now rewrite repeat_length).
    rewrite nth_repeat_lt by assumption. reflexivity.
Qed.

Section ForwardCached.

Variable config : MixtralConfig.
Variables batch_size sequence_length max_length : N.
Variable cursor : Z.

Hypothesis config_ok : well_formed config.
Hypothesis update_pos : (1 <= sequence_length)%N.
Hypothesis update_fits : (sequence_length <= max_length)%N.
Hypothesis length_fits :
  (Z.of_N max_length <= c_max_position_embeddings config)%Z.

Let heads := Z.to_N (num_attention_heads config).
Let hidden := Z.to_N (hidden_size config).
Let experts := Z.to_N (num_local_experts config).
Let storage : shape :=
  [batch_size; max_length; heads;
   Z.to_N (hidden_size config / num_attention_heads config)].
Let vars : CacheShape :=
  {| key_shape := storage; value_shape := storage; index_value := cursor |}.
Let vars' : CacheShape :=
  {| key_shape := storage; value_shape := storage;
     index_value := int32_wrap (cursor + Z.of_N sequence_length) |}.
Let mask : shape := [batch_size; 1%N; sequence_length; max_length].
Let hs_shape : shape := [batch_size; sequence_length; hidden].
Let attn_shape : shape := [batch_size; heads; sequence_length; max_length].
Let router_shape : shape := [(batch_size * sequence_length)%N; experts].

Lemma FlaxMixtralAttention_call_cached :
  FlaxMixtralAttention_call config hs_shape mask (Some vars) false
  = inr (hs_shape, attn_shape, Some vars').
Proof.
  destruct config_ok as (Hh & Hk & Hkv & Hhid & Hhd & Hv & Htk & Hint).
  assert (Hdiv : (0 <= hidden_size config / num_attention_heads config)%Z)
    by (apply Z.div_pos; lia).
  assert (Hg : (0 <= num_attention_heads config / num_key_value_heads config)%Z)
    by (apply Z.div_pos; lia).
  assert (Ekv : (Z.to_N (num_key_value_heads config)
                 * Z.to_N (num_attention_heads config / num_key_value_heads config)
                 = Z.to_N (num_attention_heads config))%N).
  { rewrite <- Z2N.inj_mul by lia. f_equal. exact Hkv. }
  assert (Ehd : (Z.to_N (num_attention_heads config)
                 * Z.to_N (hidden_size config / num_attention_heads config)
                 = Z.to_N (hidden_size config))%N).
  { rewrite <- Z2N.inj_mul by lia. f_equal. exact Hhd. }
  unfold hs_shape, hidden.
  attention_start.
  rewrite Ekv. unfold concatenate_to_cache_shapes.
  cbn [vars key_shape value_shape index_value]. unfold storage, heads.
  rewrite fits_same_but_length by assumption.
  cbn [andb length Nat.sub firstn app axis nth].
  unfold combine_masks_shape, mask. cbn [length]. rewrite Nat.eqb_refl.
  rewrite broadcast_shapes_same. cbn [bind ret key_shape nth].
  assert (Hs : (sequence_length <=? Z.to_N (c_max_position_embeddings config))%N
               = true) by (apply N.leb_le; lia).
  assert (Hml : (max_length <=? Z.to_N (c_max_position_embeddings config))%N
                = true) by (apply N.leb_le; lia).
  rewrite Hs, Hml. cbn [andb bind ret tl length Nat.eqb].
  rewrite broadcast_shapes_same. cbn [bind ret].
  rewrite !N.eqb_refl. cbn [andb negb].
  rewrite broadcast_shapes_scores. cbn [bind ret nth].
  assert (Hz : (max_length =? 0)%N = false) by (apply N.eqb_neq; lia).
  rewrite Hz. rewrite !N.eqb_refl. cbn [andb negb].
  rewrite reshape_ok by (cbn [size fold_right]; lia).
  cbn [bind ret removelast app]. reflexivity.
Qed.

Lemma FlaxMixtralDecoderLayer_call_cached :
  FlaxMixtralDecoderLayer_call config hs_shape mask (Some vars) false
  = inr (hs_shape, attn_shape, router_shape, Some vars').
Proof.
  unfold FlaxMixtralDecoderLayer_call.
  rewrite FlaxMixtralAttention_call_cached. cbn [bind ret].
  rewrite broadcast_shapes_same. cbn [bind ret].
  destruct config_ok as (_ & _ & _ & _ & _ & _ & Htk & _).
  unfold hs_shape.
  rewrite FlaxMixtralSparseMoeBlock_shapes_ok by exact Htk.
  cbn [bind ret]. fold hs_shape.
  rewrite broadcast_shapes_same. reflexivity.
Qed.

Lemma decoder_blocks_cached ohs oat orl (layers : nat) :
  forall hs ats rl,
    decoder_blocks config mask false ohs oat orl
                   (repeat (Some vars) layers) hs_shape hs ats rl
    = inr (hs_shape,
           extend_if ohs hs (repeat hs_shape layers),
           extend_if oat ats (repeat attn_shape layers),
           extend_if orl rl (repeat router_shape layers),
           repeat (Some vars') layers).
Proof.
  induction layers as [| layers IH]; intros hs ats rl.
  - cbn [repeat decoder_blocks]. unfold extend_if.
    destruct ohs, oat, orl, hs, ats, rl; cbn [option_map];
      rewrite ?app_nil_r; reflexivity.
  - cbn [repeat decoder_blocks].
    rewrite FlaxMixtralDecoderLayer_call_cached. cbn [bind ret].
    rewrite IH. cbn [bind ret]. rewrite !append_extend. reflexivity.
Qed.

End ForwardCached.

(** A cached call with the mask passed with rank 4, of shape
    [(batch, 1, sequence, max_length)], on a configuration that is
    [well_formed] and has at least one layer, a non-empty input with
    [sequence <= max_length <= c_max_position_embeddings] and no request for
    the router logits: the module returns logits of shape
    [(batch, sequence, vocab_size)], the storages of every layer keep their
    shape and every layer's cursor has advanced by the sequence length; the
    Forward of the interface then fails with [TypeError], when line 1073
    assigns the cache into the frozen output. *)
Theorem Forward_cached_rank4_mask
    (config : MixtralConfig) (b s ml : N) (cursor : Z) (orl : option bool) :
  well_formed config ->
  (1 <= num_hidden_layers config)%Z ->
  (1 <= b)%N -> (1 <= s)%N ->
  (s <= ml)%N ->
  (Z.of_N ml <= c_max_position_embeddings config)%Z ->
  orl <> Some true ->
  let storage :=
    [b; ml; Z.to_N (num_attention_heads config);
     Z.to_N (hidden_size config / num_attention_heads config)] in
  let layer index :=
    {| key_shape := storage; value_shape := storage; index_value := index |} in
  let layers := Z.to_nat (num_hidden_layers config) in
  (exists out,
     FlaxMixtralForCausalLMModule_call
       config (Some [b; s]) [b; 1; s; ml]%N None false false orl false
       (Some (repeat (layer cursor) layers))
     = inr (out, repeat (Some (layer (int32_wrap (cursor + Z.of_N s)))) layers)
     /\ logits out = [b; s; Z.to_N (vocab_size config)]
     /\ aux_loss out = None)
  /\ Forward config [b; s] (Some [b; 1; s; ml]%N) (Some [b; s])
             (Some (repeat (layer cursor) layers)) orl
     = inl TypeError.
Proof.
  intros Hok HL Hb Hs1 Hs Hml Horl storage layer layers.
  pose proof Hok as (Hh & Hk & Hkv & Hhid & Hhd & Hv & Htk & Hint).
  assert (Hmod :
    exists out,
      FlaxMixtralForCausalLMModule_call
        config (Some [b; s]) [b; 1; s; ml]%N None false false orl false
        (Some (repeat (layer cursor) layers))
      = inr (out, repeat (Some (layer (int32_wrap (cursor + Z.of_N s)))) layers)
      /\ logits out = [b; s; Z.to_N (vocab_size config)]
      /\ aux_loss out = None).
  { unfold FlaxMixtralForCausalLMModule_call.
    module_prelude. cbn [app].
    fold layers. unfold layers at 1.
    rewrite (caches_of_repeat config (layer cursor)). fold layers.
    pose proof (@decoder_blocks_cached config b s ml cursor Hok Hs1 Hs Hml
                  false false
                  match orl with
                  | Some flag => flag
                  | None => output_router_logits_default config
                  end layers) as Hd.
    cbv zeta in Hd. fold storage in Hd. fold (layer cursor) in Hd.
    fold (layer (int32_wrap (cursor + Z.of_N s))) in Hd.
    rewrite Hd. cbn [bind ret append_if extend_if].
    cbn [bind ret last_hidden_state router_logits hidden_states attentions].
    destruct orl as [[|] |]; [congruence | |];
      (eexists; split; [reflexivity |]);
      cbn [logits aux_loss Dense_shape removelast app]; split; reflexivity. }
  split; [exact Hmod |].
  destruct Hmod as (out & E & _).
  unfold Forward. cbv beta iota zeta delta [bind ret].
  rewrite_call E. reflexivity.
Qed.

Lemma Forward_cached_rank4_mask_witness :
  (exists out,
     FlaxMixtralForCausalLMModule_call
       scenario_config (Some [1; 1]%N) [1; 1; 1; 8]%N None false false None
       false
       (Some (repeat {| key_shape := [1; 8; 4; 16]%N;
                        value_shape := [1; 8; 4; 16]%N;
                        index_value := 3 |} 2))
     = inr (out, repeat (Some {| key_shape := [1; 8; 4; 16]%N;
                                 value_shape := [1; 8; 4; 16]%N;
                                 index_value := 4 |}) 2)
     /\ logits out = [1; 1; 32000]%N
     /\ aux_loss out = None)
  /\ Forward scenario_config [1; 1]%N (Some [1; 1; 1; 8]%N) (Some [1; 1]%N)
             (Some (repeat {| key_shape := [1; 8; 4; 16]%N;
                              value_shape := [1; 8; 4; 16]%N;
                              index_value := 3 |} 2))
             None
     = inl TypeError.
Proof.
  apply (@Forward_cached_rank4_mask scenario_config 1 1 8 3 None).
  - exact well_formed_scenario.
  - simpl. lia.
  - lia.
  - lia.
  - lia.
  - simpl. lia.
  - discriminate.
Defined.

(** ** Construction defaults and the longest cache *)



Lemma FlaxMixtralAttention_call_init_too_long
    (config : MixtralConfig) (b ml : N) :
  well_formed config ->
  (0 <= c_max_position_embeddings config < Z.of_N ml)%Z ->
  FlaxMixtralAttention_call config [b; ml; Z.to_N (hidden_size config)] [b; ml]
                            None true
  = inl TypeError.
Proof.
  intros (Hh & Hk & Hkv & Hhid & Hhd & Hv & Htk & Hint) Hc.
  assert (Hdiv : (0 <= hidden_size config / num_attention_heads config)%Z)
    by (apply Z.div_pos; lia).
  assert (Hg : (0 <= num_attention_heads config / num_key_value_heads config)%Z)
    by (apply Z.div_pos; lia).
  attention_start.
  cbn [concatenate_to_cache_shapes bind ret key_shape nth].
  assert (Hml : (ml <=? Z.to_N (c_max_position_embeddings config))%N = false)
    by (apply N.leb_gt; lia).
  rewrite Hml. reflexivity.
Qed.

(** On a [well_formed] configuration with at least one layer and
    [c_max_position_embeddings >= 1], a cache longer than
    [c_max_position_embeddings] cannot be created: [init_cache] fails with
    [TypeError], because the initialising pass slices [max_length] rows out
    of the causal mask, which has only [c_max_position_embeddings]. *)
Theorem init_cache_rejects_long_cache
    (config : MixtralConfig) (batch_size max_length : N) :
  well_formed config ->
  (1 <= num_hidden_layers config)%Z ->
  (1 <= c_max_position_embeddings config < Z.of_N max_length)%Z ->
  init_cache config batch_size max_length = inl TypeError.
Proof.
  intros Hok HL Hc.
  pose proof Hok as (Hh & Hk & Hkv & Hhid & Hhd & Hv & Htk & Hint).
  unfold init_cache, init_cache_shapes.
  assert (E : FlaxMixtralForCausalLMModule_call
                config (Some [batch_size; max_length])
                [batch_size; max_length] None false false None true None
              = inl TypeError).
  { apply FlaxMixtralForCausalLMModule_call_attention_error
      with (layers := pred (Z.to_nat (num_hidden_layers config)));
      try lia.
    apply FlaxMixtralAttention_call_init_too_long; [exact Hok | lia]. }
  rewrite_call E. reflexivity.
Qed.

Lemma init_cache_rejects_long_cache_witness :
  init_cache scenario_config 1 4097 = inl TypeError.
Proof.
  apply (@init_cache_rejects_long_cache scenario_config 1 4097).
  - exact well_formed_scenario.
  - simpl. lia.
  - simpl. lia.
Defined.
